(** * Async Weather & News Dashboard

    A shallow embedding of the dashboard's HTTP-JSON fetch primitive
    (utils/httpClient.ts and the older [httpsGetJson] helpers of the
    [*Version.ts] scripts), of the console view (views/dashboardView.ts)
    and of the orchestrators built on them (the three controllers and the
    older scripts), followed by the properties established about them.

    JavaScript values are modelled dynamically: a payload is whatever
    [JSON.parse] returned, and TypeScript annotations are erased, as they
    are at run time.  Console output, issued requests and exceptions are
    threaded through a small state-and-exception monad. *)

From Stdlib Require Import String Ascii List Bool Arith Lia DecimalString.
From stdpp Require Import gmap strings.

Set Warnings "-register-all".

Open Scope string_scope.
Open Scope list_scope.
Open Scope stdpp_scope.

(* ================================================================== *)
(** ** JavaScript values, errors and completions *)
(* ================================================================== *)

(** A value as [JSON.parse] produces it, plus [undefined].  A number is
    carried by its canonical rendering (what [Number.prototype.toString]
    yields, e.g. [22], [8.3]); the program never computes with payload
    numbers, it only prints them and tests their truthiness. *)
Inductive Value : Type :=
| VUndefined
| VNull
| VBool (b : bool)
| VNum (repr : string)
| VStr (s : string)
| VArr (items : list Value)
| VObj (props : list (string * Value)).

(** An [Error] object: its constructor name and its [message]. *)
Record JsError : Type := mkError { err_name : string; message : string }.

Definition Error (msg : string) : JsError := mkError "Error" msg.
Definition TypeError (msg : string) : JsError := mkError "TypeError" msg.

(** The completion of an evaluation: a normal value, a thrown error, or
    [Never] when the evaluation is parked at an [await] on a promise that
    does not settle. *)
Inductive Completion (A : Type) : Type :=
| Normal (a : A)
| Throw (e : JsError)
| Never.
Arguments Normal {A} a.
Arguments Throw {A} e.
Arguments Never {A}.

(** The built-ins of the host that the program calls and that are not
    part of the repository. *)
Record Runtime : Type := {
  (** [JSON.parse(text)]: the parsed value, or the [SyntaxError] thrown. *)
  JSON_parse : string -> Value + JsError;
  (** [StringToNumber(s) > 0], the string case of the relational
      comparison against the number literal [0]. *)
  string_gt_zero : string -> bool
}.

Definition nl : string := String (ascii_of_nat 10) EmptyString.

(** Decimal rendering of a natural number, as a template literal renders
    a non-negative integer. *)
Definition show_nat (n : nat) : string :=
  NilEmpty.string_of_uint (Nat.to_uint n).

Definition str_is_empty (s : string) : bool :=
  match s with EmptyString => true | String _ _ => false end.

(** [ToBoolean]. *)
Definition truthy (v : Value) : bool :=
  match v with
  | VUndefined | VNull => false
  | VBool b => b
  | VNum r => negb (String.eqb r "0" || String.eqb r "NaN")
  | VStr s => negb (str_is_empty s)
  | VArr _ | VObj _ => true
  end.

Definition nullish (v : Value) : bool :=
  match v with VUndefined | VNull => true | _ => false end.

(** First binding of [k] among the properties of a parsed object. *)
Fixpoint own_prop (k : string) (props : list (string * Value)) : option Value :=
  match props with
  | [] => None
  | (k', v) :: rest => if String.eqb k k' then Some v else own_prop k rest
  end.

(** [v.k] for a value [v] that is neither [null] nor [undefined], and for
    the data keys the program reads ([current_weather], [temperature],
    [windspeed], [articles], [posts], [title]); none of them is defined
    on a built-in prototype, so only objects can answer. *)
Definition get_prop (v : Value) (k : string) : Value :=
  match v with
  | VObj props => match own_prop k props with Some x => x | None => VUndefined end
  | _ => VUndefined
  end.

(** Optional chaining [v?.k]. *)
Definition opt_get (v : Value) (k : string) : Value :=
  if nullish v then VUndefined else get_prop v k.

(** Plain member access [v.k]: a [TypeError] on [null] and [undefined]. *)
Definition get_member (v : Value) (k : string) : Completion Value :=
  match v with
  | VUndefined =>
      Throw (TypeError ("Cannot read properties of undefined (reading '" +:+ k +:+ "')"))
  | VNull =>
      Throw (TypeError ("Cannot read properties of null (reading '" +:+ k +:+ "')"))
  | _ => Normal (get_prop v k)
  end.

(** Nullish coalescing [v ?? d]. *)
Definition coalesce (v d : Value) : Value := if nullish v then d else v.

Definition has_own (k : string) (props : list (string * Value)) : bool :=
  match own_prop k props with Some _ => true | None => false end.

Definition cannot_convert : JsError :=
  TypeError "Cannot convert object to primitive value".

(** [ToString], as a template literal applies it.  An array joins its
    elements with commas ([null] and [undefined] elements render empty).
    A plain object renders as [[object Object]] unless it has an own
    [toString] property: a parsed value is never callable, so no method
    is left that returns a primitive and the conversion throws. *)
Fixpoint to_string (v : Value) : Completion string :=
  match v with
  | VUndefined => Normal "undefined"
  | VNull => Normal "null"
  | VBool true => Normal "true"
  | VBool false => Normal "false"
  | VNum r => Normal r
  | VStr s => Normal s
  | VArr items =>
      (fix join (l : list Value) : Completion string :=
         match l with
         | [] => Normal EmptyString
         | x :: rest =>
             match (if nullish x then Normal EmptyString else to_string x) with
             | Normal sx =>
                 match rest with
                 | [] => Normal sx
                 | _ :: _ =>
                     match join rest with
                     | Normal sr => Normal (sx +:+ "," +:+ sr)
                     | Throw e => Throw e
                     | Never => Never
                     end
                 end
             | Throw e => Throw e
             | Never => Never
             end
         end) items
  | VObj props =>
      if has_own "toString" props then Throw cannot_convert
      else Normal "[object Object]"
  end.

(** ** The observable world *)

Inductive Stream : Type := Stdout | Stderr.

(** One call of [console.log] ([Stdout]) or [console.error] ([Stderr])
    with its arguments. *)
Record Line : Type := mkLine { stream : Stream; args : list Value }.

Definition out (s : string) : Line := mkLine Stdout [VStr s].
Definition err (s : string) : Line := mkLine Stderr [VStr s].

(** A GET request as handed to [https.get]. *)
Record Request : Type := mkRequest {
  url : string;
  req_headers : gmap string string
}.

(** The continuation registered with a request: one of the callbacks of
    the callback-style programs, or the [resolve]/[reject] pair of the
    promise a promise-style fetch returns. *)
Inductive Handler : Type :=
| OnWeather | OnNews | OnSecondWeather
| LegacyOnWeather | LegacyOnNews | LegacyOnSecondWeather
| SettlePromise.

Record World : Type := mkWorld {
  console : list Line;                     (* oldest line first *)
  issued : list (Request * Handler);       (* oldest request first *)
  unhandled : list JsError;                (* rejections nobody handles *)
  uncaught : option JsError                (* exception that ended the process *)
}.

Definition world0 : World := mkWorld [] [] [] None.

(** State-and-exception monad of a piece of JavaScript code. *)
Definition Js (A : Type) : Type := World -> Completion A * World.

Definition js_ret {A} (a : A) : Js A := fun w => (Normal a, w).

Definition js_bind {A B} (m : Js A) (k : A -> Js B) : Js B :=
  fun w =>
    match m w with
    | (Normal a, w') => k a w'
    | (Throw e, w') => (Throw e, w')
    | (Never, w') => (Never, w')
    end.

#[global] Instance Js_ret : MRet Js := @js_ret.
#[global] Instance Js_bind : MBind Js := fun A B k m => js_bind m k.

Definition throw {A} (e : JsError) : Js A := fun w => (Throw e, w).

(** [try { body } catch (e) { handler e }]. *)
Definition try_catch {A} (body : Js A) (handler : JsError -> Js A) : Js A :=
  fun w =>
    match body w with
    | (Normal a, w') => (Normal a, w')
    | (Throw e, w') => handler e w'
    | (Never, w') => (Never, w')
    end.

(** [try { body } finally { final }]: [final] runs however [body]
    completed, unless [body] never resumes. *)
Definition try_finally {A} (body : Js A) (final : Js unit) : Js A :=
  fun w =>
    match body w with
    | (Never, w') => (Never, w')
    | (c, w') =>
        match final w' with
        | (Normal _, w'') => (c, w'')
        | (Throw e, w'') => (Throw e, w'')
        | (Never, w'') => (Never, w'')
        end
    end.

Definition lift {A} (c : Completion A) : Js A := fun w => (c, w).

(** A call of a built-in that returns or throws. *)
Definition call {A} (r : A + JsError) : Js A :=
  match r with
  | inl a => mret a
  | inr e => throw e
  end.

Definition emit (l : Line) : Js unit :=
  fun w => (Normal tt, mkWorld (console w ++ [l]) (issued w) (unhandled w) (uncaught w)).

Definition console_log (s : string) : Js unit := emit (out s).
Definition console_error (s : string) : Js unit := emit (err s).
Definition console_log_args (vs : list Value) : Js unit := emit (mkLine Stdout vs).
Definition console_error_args (vs : list Value) : Js unit := emit (mkLine Stderr vs).

(** Hands a request to [https.get]; the answer is its index among the
    requests issued so far. *)
Definition issue (r : Request) (h : Handler) : Js nat :=
  fun w => (Normal (length (issued w)),
            mkWorld (console w) (issued w ++ [(r, h)]) (unhandled w) (uncaught w)).

(** Template-literal interpolation [`${v}`]. *)
Definition interp (v : Value) : Js string := lift (to_string v).

(* ================================================================== *)
(** ** views/dashboardView.ts *)
(* ================================================================== *)

Module View.

(** [DEFAULT_LOCATION.city] of config/apiConfig.ts. *)
Definition city : string := "Pretoria".

(** ["=".repeat(50)] *)
Definition rule : string := String.concat EmptyString (repeat "=" 50).

Definition displayHeader (version : string) : Js unit :=
  console_log (nl +:+ rule);;
  console_log "🌦️  Async Weather & News Dashboard";;
  console_log ("📋  Version: " +:+ version);;
  console_log (rule +:+ nl).

(** [label ? `[${label}] ` : ε], [ε] being the empty string *)
Definition prefix_of (label : string) : string :=
  if str_is_empty label then EmptyString else "[" +:+ label +:+ "] ".

Definition displayWeather (data : Value) (label : string) : Js unit :=
  let prefix := prefix_of label in
  let weather := opt_get data "current_weather" in
  if truthy weather then
    temperature ← lift (get_member weather "temperature");
    t ← interp temperature;
    console_log (prefix +:+ "🌡️  Temperature in " +:+ city +:+ ": " +:+ t +:+ "°C");;
    windspeed ← lift (get_member weather "windspeed");
    ws ← interp windspeed;
    console_log (prefix +:+ "💨  Wind Speed: " +:+ ws +:+ " km/h")
  else
    console_log (prefix +:+ "⚠️  Weather data unavailable.").

(** The sign test of a canonical number rendering. *)
Definition num_positive (r : string) : bool :=
  negb (String.eqb r "0" || String.eqb r "NaN" || String.prefix "-" r).

(** [x > 0] for an arbitrary value [x]: [ToPrimitive] with hint number
    (on a parsed array or object [valueOf] yields the object itself, so
    the conversion falls through to [toString]), then [ToNumber]. *)
Definition gt_zero (rt : Runtime) (x : Value) : Completion bool :=
  match x with
  | VUndefined | VNull => Normal false
  | VBool b => Normal b
  | VNum r => Normal (num_positive r)
  | VStr s => Normal (string_gt_zero rt s)
  | VArr _ | VObj _ =>
      match to_string x with
      | Normal s => Normal (string_gt_zero rt s)
      | Throw e => Throw e
      | Never => Never
      end
  end.

(** [articles.length > 0] *)
Definition length_positive (rt : Runtime) (articles : Value) : Completion bool :=
  match articles with
  | VUndefined => Throw (TypeError "Cannot read properties of undefined (reading 'length')")
  | VNull => Throw (TypeError "Cannot read properties of null (reading 'length')")
  | VArr items => Normal (match items with [] => false | _ :: _ => true end)
  | VStr s => Normal (negb (str_is_empty s))
  | VBool _ | VNum _ => Normal false
  | VObj props => gt_zero rt (get_prop articles "length")
  end.

(** The loop of [Array.prototype.forEach], [index] being the index of
    the head of [items]. *)
Fixpoint forEach_from (index : nat) (items : list Value)
         (f : Value -> nat -> Js unit) : Js unit :=
  match items with
  | [] => mret tt
  | item :: rest => f item index;; forEach_from (S index) rest f
  end.

(** [xs.forEach(f)]: only an array has the method. *)
Definition forEach (what : string) (xs : Value) (f : Value -> nat -> Js unit) : Js unit :=
  match xs with
  | VArr items => forEach_from 0 items f
  | VUndefined => throw (TypeError "Cannot read properties of undefined (reading 'forEach')")
  | VNull => throw (TypeError "Cannot read properties of null (reading 'forEach')")
  | _ => throw (TypeError (what +:+ ".forEach is not a function"))
  end.

Definition displayNews (rt : Runtime) (articles : Value) (label : string) : Js unit :=
  let prefix := prefix_of label in
  nonempty ← lift (length_positive rt articles);
  if nonempty : bool then
    console_log (nl +:+ prefix +:+ "📰  Top News Headlines:");;
    forEach "articles" articles (fun article index =>
      title ← lift (get_member article "title");
      t ← interp title;
      console_log ("   " +:+ show_nat (index + 1) +:+ ". " +:+ t))
  else
    console_log (prefix +:+ "⚠️  No news articles available.").

Definition displayFooter (version : string) : Js unit :=
  console_log (nl +:+ rule);;
  console_log ("✅  " +:+ version +:+ " — Complete");;
  console_log (rule +:+ nl).

Definition displayError (context : string) (error : JsError) : Js unit :=
  console_error ("❌  Error [" +:+ context +:+ "]: " +:+ message error).

End View.

(* ================================================================== *)
(** ** The network, as a test double sees it *)
(* ================================================================== *)

(** The result of one fetch as the caller receives it: the argument pair
    of an error-first callback ([cb(null, data)] or [cb(err)]), or the
    settlement of a promise ([resolve(data)] or [reject(err)]). *)
Inductive Outcome : Type :=
| Success (payload : Value)
| Failure (error : JsError).

(** What [https.get] emits for one request. *)
Inductive NetEvent : Type :=
| EvError (e : JsError)                 (* 'error' on the request *)
| EvResponse (statusCode : option nat)  (* the response callback *)
| EvData (chunk : string)               (* 'data' on the response *)
| EvEnd.                                (* 'end' on the response *)

(** A complete exchange: a transport fault, or a response with its
    status line and its body split into chunks. *)
Inductive NetResult : Type :=
| NetFailed (e : JsError)
| NetResponse (statusCode : option nat) (chunks : list string).

Definition events_of (r : NetResult) : list NetEvent :=
  match r with
  | NetFailed e => [EvError e]
  | NetResponse sc chunks => EvResponse sc :: map EvData chunks ++ [EvEnd]
  end.

(** The listeners a response callback has installed on the response. *)
Inductive Listening : Type :=
| AwaitingResponse
| ReadingErrorBody (statusCode : nat) (errorBody : string)
| ReadingBody (rawData : string)
| Ended.

(** [statusCode && statusCode >= 400], with the status it tested. *)
Definition error_status (sc : option nat) : option nat :=
  match sc with
  | Some n => if negb (Nat.eqb n 0) && Nat.leb 400 n then Some n else None
  | None => None
  end.

(** [resolve]/[reject] of a promise: only the first call has an effect. *)
Definition settle {A} (r : A) (p : option A) : option A :=
  match p with
  | None => Some r
  | Some _ => p
  end.

(** The body as the listeners accumulate it: [acc += chunk] per chunk. *)
Definition body_of (chunks : list string) : string := foldr String.append EmptyString chunks.

(** Runs the listeners of one request over the events it receives. *)
Fixpoint run_events {S : Type} (step : S -> NetEvent -> Js S)
         (evs : list NetEvent) (st : S) : Js S :=
  match evs with
  | [] => mret st
  | ev :: rest => st' ← step st ev; run_events step rest st'
  end.

(* ================================================================== *)
(** ** utils/httpClient.ts *)
(* ================================================================== *)

Module HttpClient.

(** [HttpRequestOptions]: [headers] is optional. *)
Record HttpRequestOptions : Type := { headers : option (gmap string string) }.

Definition no_options : HttpRequestOptions := {| headers := None |}.

Definition USER_AGENT : string := "AsyncWeatherNewsDashboard/1.0".

(** [{ "User-Agent": "...", ...options.headers }], the [headers] literal
    that [httpGetJson] and [httpGetJsonPromise] both build: the spread
    copies the caller's own properties onto the literal after
    [User-Agent] was defined, so on equal keys the caller's value
    replaces the earlier one; spreading [undefined] copies nothing.
    This is the object handed to [https.get], not what goes on the
    wire: its keys are property names, equal only when spelled alike,
    and the code folds no case; what Node makes of two names that differ
    only in case is Node's business. *)
Definition request_headers (options : HttpRequestOptions) : gmap string string :=
  let base : gmap string string := {[ "User-Agent" := USER_AGENT ]} in
  match headers options with
  | Some custom => custom ∪ base
  | None => base
  end.

(** [reqOptions]; the URL is kept whole instead of being split into
    [hostname] and [path]. *)
Definition reqOptions (url : string) (options : HttpRequestOptions) : Request :=
  mkRequest url (request_headers options).

Definition http_error (statusCode : nat) (errorBody : string) : JsError :=
  Error ("HTTP request failed with status " +:+ show_nat statusCode
         +:+ ": " +:+ errorBody).

(** The listeners of [httpGetJson], one event at a time.  The ['error']
    listener stays on the request whatever the response does. *)
Definition httpGetJson_step (rt : Runtime) (cb : Outcome -> Js unit)
           (st : Listening) (ev : NetEvent) : Js Listening :=
  match ev, st with
  | EvError networkError, _ => cb (Failure networkError);; mret st
  | EvResponse sc, AwaitingResponse =>
      match error_status sc with
      | Some statusCode => mret (ReadingErrorBody statusCode EmptyString)
      | None => mret (ReadingBody EmptyString)
      end
  | EvData chunk, ReadingErrorBody statusCode errorBody =>
      mret (ReadingErrorBody statusCode (errorBody +:+ chunk))
  | EvEnd, ReadingErrorBody statusCode errorBody =>
      cb (Failure (http_error statusCode errorBody));; mret Ended
  | EvData chunk, ReadingBody rawData => mret (ReadingBody (rawData +:+ chunk))
  | EvEnd, ReadingBody rawData =>
      try_catch
        (parsedData ← call (JSON_parse rt rawData);
         cb (Success parsedData))
        (fun parseError => cb (Failure parseError));;
      mret Ended
  | _, _ => mret st
  end.

(** [httpGetJson(url, options, cb)] from the moment the request is out:
    the listeners run over everything the exchange emits. *)
Definition httpGetJson (rt : Runtime) (r : NetResult) (cb : Outcome -> Js unit) : Js unit :=
  run_events (httpGetJson_step rt cb) (events_of r) AwaitingResponse;; mret tt.

(** The executor of [httpGetJsonPromise], one event at a time, together
    with the state of the promise it settles. *)
Definition httpGetJsonPromise_step (rt : Runtime)
           (s : Listening * option Outcome) (ev : NetEvent)
  : Listening * option Outcome :=
  let '(st, p) := s in
  match ev, st with
  | EvError networkError, _ => (st, settle (Failure networkError) p)
  | EvResponse sc, AwaitingResponse =>
      match error_status sc with
      | Some statusCode => (ReadingErrorBody statusCode EmptyString, p)
      | None => (ReadingBody EmptyString, p)
      end
  | EvData chunk, ReadingErrorBody statusCode errorBody =>
      (ReadingErrorBody statusCode (errorBody +:+ chunk), p)
  | EvEnd, ReadingErrorBody statusCode errorBody =>
      (Ended, settle (Failure (http_error statusCode errorBody)) p)
  | EvData chunk, ReadingBody rawData => (ReadingBody (rawData +:+ chunk), p)
  | EvEnd, ReadingBody rawData =>
      (Ended,
       match JSON_parse rt rawData with
       | inl parsedData => settle (Success parsedData) p
       | inr parseError => settle (Failure parseError) p
       end)
  | _, _ => s
  end.

(** The state of the promise [httpGetJsonPromise] returned once the
    exchange is over: [None] while pending. *)
Definition httpGetJsonPromise (rt : Runtime) (r : NetResult) : option Outcome :=
  snd (fold_left (httpGetJsonPromise_step rt) (events_of r) (AwaitingResponse, None)).

(** The outcome of a complete exchange in one piece: the transport
    fault, the HTTP error with the drained body, or the parse of the
    drained body. *)
Definition outcome (rt : Runtime) (r : NetResult) : Outcome :=
  match r with
  | NetFailed networkError => Failure networkError
  | NetResponse sc chunks =>
      match error_status sc with
      | Some statusCode => Failure (http_error statusCode (body_of chunks))
      | None =>
          match JSON_parse rt (body_of chunks) with
          | inl parsedData => Success parsedData
          | inr parseError => Failure parseError
          end
      end
  end.

End HttpClient.

(* ================================================================== *)
(** ** The fetch helpers of the [*Version.ts] scripts *)
(* ================================================================== *)

Module Legacy.

Definition status_error (statusCode : nat) : JsError :=
  Error ("Request failed. Status code: " +:+ show_nat statusCode).

(** [httpsGetJson] of callbackVersion.ts.  On an error status the
    callback is called at once and [res.resume()] lets the body flow
    away unread: no listener is installed on the response. *)
Definition httpsGetJson_step (rt : Runtime) (callback : Outcome -> Js unit)
           (st : Listening) (ev : NetEvent) : Js Listening :=
  match ev, st with
  | EvError e, _ => callback (Failure e);; mret st
  | EvResponse sc, AwaitingResponse =>
      match error_status sc with
      | Some statusCode => callback (Failure (status_error statusCode));; mret Ended
      | None => mret (ReadingBody EmptyString)
      end
  | EvData chunk, ReadingBody raw => mret (ReadingBody (raw +:+ chunk))
  | EvEnd, ReadingBody raw =>
      try_catch
        (parsed ← call (JSON_parse rt raw);
         callback (Success parsed))
        (fun e => callback (Failure e));;
      mret Ended
  | _, _ => mret st
  end.

Definition httpsGetJson (rt : Runtime) (r : NetResult) (callback : Outcome -> Js unit) : Js unit :=
  run_events (httpsGetJson_step rt callback) (events_of r) AwaitingResponse;; mret tt.

(** [httpsGetJsonPromise] of promiseVersion.ts and asyncAwaitVersion.ts. *)
Definition httpsGetJsonPromise_step (rt : Runtime)
           (s : Listening * option Outcome) (ev : NetEvent)
  : Listening * option Outcome :=
  let '(st, p) := s in
  match ev, st with
  | EvError e, _ => (st, settle (Failure e) p)
  | EvResponse sc, AwaitingResponse =>
      match error_status sc with
      | Some statusCode => (Ended, settle (Failure (status_error statusCode)) p)
      | None => (ReadingBody EmptyString, p)
      end
  | EvData chunk, ReadingBody raw => (ReadingBody (raw +:+ chunk), p)
  | EvEnd, ReadingBody raw =>
      (Ended,
       match JSON_parse rt raw with
       | inl parsed => settle (Success parsed) p
       | inr e => settle (Failure e) p
       end)
  | _, _ => s
  end.

Definition httpsGetJsonPromise (rt : Runtime) (r : NetResult) : option Outcome :=
  snd (fold_left (httpsGetJsonPromise_step rt) (events_of r) (AwaitingResponse, None)).

(** The outcome of a complete exchange in one piece. *)
Definition outcome (rt : Runtime) (r : NetResult) : Outcome :=
  match r with
  | NetFailed e => Failure e
  | NetResponse sc chunks =>
      match error_status sc with
      | Some statusCode => Failure (status_error statusCode)
      | None =>
          match JSON_parse rt (body_of chunks) with
          | inl parsed => Success parsed
          | inr e => Failure e
          end
      end
  end.

End Legacy.

(* ================================================================== *)
(** ** The event loop and the promise combinators of the host *)
(* ================================================================== *)

Definition with_uncaught (e : JsError) (w : World) : World :=
  mkWorld (console w) (issued w) (unhandled w) (Some e).

Definition with_unhandled (e : JsError) (w : World) : World :=
  mkWorld (console w) (issued w) (unhandled w ++ [e]) (uncaught w).

(** Runs a piece of code on a stack of its own (the main script or an
    event listener): an exception nobody caught ends the process. *)
Definition run_task (task : Js unit) (w : World) : World :=
  match uncaught w with
  | Some _ => w
  | None =>
      match task w with
      | (Throw e, w') => with_uncaught e w'
      | (_, w') => w'
      end
  end.

(** Runs a promise reaction whose resulting promise has no handler: a
    rejection is reported as unhandled. *)
Definition run_reaction (job : Js unit) (w : World) : World :=
  match job w with
  | (Throw e, w') => with_unhandled e w'
  | (_, w') => w'
  end.

(** The event loop of a callback-style program whose requests complete in
    the order they were issued: the exchange of request [i] is delivered
    to the listeners [fetch] installed, which call the callback
    registered with the request. *)
Fixpoint event_loop (fuel : nat)
         (fetch : NetResult -> (Outcome -> Js unit) -> Js unit)
         (dispatch : Handler -> Outcome -> Js unit)
         (net : nat -> NetResult) (i : nat) (w : World) : World :=
  match fuel with
  | 0 => w
  | S fuel' =>
      match issued w !! i with
      | None => w
      | Some (_, h) =>
          event_loop fuel' fetch dispatch net (S i)
                     (run_task (fetch (net i) (dispatch h)) w)
      end
  end.

(** [await p] for a promise in state [p]. *)
Definition await {A} (p : option (A + JsError)) : Js A :=
  match p with
  | None => fun w => (Never, w)
  | Some (inl a) => mret a
  | Some (inr e) => throw e
  end.

(** The state of a fetch promise as [await] and the combinators read it. *)
Definition promise_state (p : option Outcome) : option (Value + JsError) :=
  match p with
  | None => None
  | Some (Success v) => Some (inl v)
  | Some (Failure e) => Some (inr e)
  end.

(** The promise [Promise.all] returns, with the slots its resolve-element
    functions fill. *)
Record AllState : Type := mkAll {
  values : list (option Value);
  all_result : option (list Value + JsError)
}.

Definition all_init (n : nat) : AllState := mkAll (replicate n None) None.

(** The reaction [Promise.all] attached to its [k]-th input, run when
    that input settles with [o]. *)
Definition all_settle (k : nat) (o : Outcome) (st : AllState) : AllState :=
  match o with
  | Failure e => mkAll (values st) (settle (inr e) (all_result st))
  | Success v =>
      let values' := <[k := Some v]> (values st) in
      match mapM id values' with
      | Some vs => mkAll values' (settle (inl vs) (all_result st))
      | None => mkAll values' (all_result st)
      end
  end.

(** The reaction [Promise.race] attached to each input. *)
Definition race_settle (o : Outcome) (st : option (Value + JsError))
  : option (Value + JsError) :=
  match o with
  | Success v => settle (inl v) st
  | Failure e => settle (inr e) st
  end.

(** Settlements reach a combinator in the order [schedule] lists the
    positions of its inputs; an input that is still pending ([None])
    delivers nothing. *)
Definition promise_all (inputs : list (option Outcome)) (schedule : list nat)
  : option (list Value + JsError) :=
  all_result
    (fold_left
       (fun st k =>
          match inputs !! k with
          | Some (Some o) => all_settle k o st
          | _ => st
          end)
       schedule (all_init (length inputs))).

Definition promise_race (inputs : list (option Outcome)) (schedule : list nat)
  : option (Value + JsError) :=
  fold_left
    (fun st k =>
       match inputs !! k with
       | Some (Some o) => race_settle o st
       | _ => st
       end)
    schedule None.

(** [p.then(onFulfilled).catch(onRejected)] once [p] is in state [p]:
    nothing runs while [p] is pending; an exception in [onFulfilled]
    rejects the intermediate promise and reaches [onRejected]. *)
Definition then_catch {A} (p : option (A + JsError))
           (onFulfilled : A -> Js unit) (onRejected : JsError -> Js unit) : Js unit :=
  match p with
  | None => mret tt
  | Some (inl a) => try_catch (onFulfilled a) onRejected
  | Some (inr e) => onRejected e
  end.

(* ================================================================== *)
(** ** config/apiConfig.ts, models/weatherModel.ts, models/newsModel.ts *)
(* ================================================================== *)

Module Model.

(** [buildWeatherUrl(DEFAULT_LOCATION.latitude, DEFAULT_LOCATION.longitude)] *)
Definition weatherUrl : string :=
  "https://api.open-meteo.com/v1/forecast?latitude=-25.7479&longitude=28.2293&current_weather=true".

(** [buildNewsUrl("us", 5)] *)
Definition newsUrl : string :=
  "https://newsapi.org/v2/top-headlines?country=us&pageSize=5".

(** [NEWS_API.apiKey]; the key is a credential and is not reproduced,
    the placeholder the source's comment names stands for it. *)
Definition NEWS_API_KEY : string := "YOUR_NEWS_API_KEY_HERE".

Definition getNewsHeaders : gmap string string := {[ "X-Api-Key" := NEWS_API_KEY ]}.

Definition weatherRequest : Request :=
  HttpClient.reqOptions weatherUrl HttpClient.no_options.

Definition newsRequest : Request :=
  HttpClient.reqOptions newsUrl {| HttpClient.headers := Some getNewsHeaders |}.

Definition getWeatherCallback (callback : Handler) : Js unit :=
  issue weatherRequest callback;; mret tt.

Definition getNewsCallback (callback : Handler) : Js unit :=
  issue newsRequest callback;; mret tt.

(** The promise-style fetches answer with the index of their request,
    which identifies the promise they return. *)
Definition getWeatherPromise : Js nat := issue weatherRequest SettlePromise.
Definition getNewsPromise : Js nat := issue newsRequest SettlePromise.

(** The state of the promise of request [i] once its exchange is over. *)
Definition promise (rt : Runtime) (net : nat -> NetResult) (i : nat) : option Outcome :=
  HttpClient.httpGetJsonPromise rt (net i).

End Model.

(* ================================================================== *)
(** ** controllers/callbackController.ts *)
(* ================================================================== *)

Module CallbackController.
Import View Model.

Definition VERSION : string := "Callback".

Definition empty_array : Value := VArr [].

(** Step 3: the innermost callback. *)
Definition on_second_weather (o : Outcome) : Js unit :=
  match o with
  | Failure err3 => displayError "Second Weather Fetch" err3
  | Success weather2 =>
      displayWeather weather2 "Callback - Second Fetch";;
      displayFooter VERSION
  end.

(** Step 2: the callback of the news fetch. *)
Definition on_news (rt : Runtime) (o : Outcome) : Js unit :=
  match o with
  | Failure err2 => displayError "News Fetch" err2
  | Success newsData =>
      let articles := coalesce (opt_get newsData "articles") empty_array in
      displayNews rt articles "Callback";;
      getWeatherCallback OnSecondWeather
  end.

(** Step 1: the callback of the first weather fetch. *)
Definition on_weather (o : Outcome) : Js unit :=
  match o with
  | Failure err => displayError "Weather Fetch" err
  | Success weatherData =>
      displayWeather weatherData "Callback";;
      getNewsCallback OnNews
  end.

Definition dispatch (rt : Runtime) (h : Handler) (o : Outcome) : Js unit :=
  match h with
  | OnWeather => on_weather o
  | OnNews => on_news rt o
  | OnSecondWeather => on_second_weather o
  | _ => mret tt
  end.

Definition main : Js unit :=
  displayHeader VERSION;;
  getWeatherCallback OnWeather.

(** The whole script, run until no exchange is outstanding (it issues
    at most three requests). *)
Definition run (rt : Runtime) (net : nat -> NetResult) : World :=
  event_loop 3 (HttpClient.httpGetJson rt) (dispatch rt) net 0 (run_task main world0).

End CallbackController.

(* ================================================================== *)
(** ** callbackVersion.ts *)
(* ================================================================== *)

Module CallbackVersion.
Import View.

Definition weatherUrl : string := Model.weatherUrl.

(** [buildNewsUrl(5)] of config.ts *)
Definition newsUrl : string := "https://dummyjson.com/posts?limit=5".

(** [https.get(url, ...)]: no header is added. *)
Definition get (url : string) (callback : Handler) : Js unit :=
  issue (mkRequest url ∅) callback;; mret tt.

(** [posts.slice(0, 5).forEach(f)]: an array keeps its first five
    elements; a string has [slice] but its result has no [forEach];
    nothing else has [slice]. *)
Definition slice5_forEach (posts : Value) (f : Value -> nat -> Js unit) : Js unit :=
  match posts with
  | VArr items => forEach_from 0 (firstn 5 items) f
  | VStr _ => throw (TypeError "posts.slice(...).forEach is not a function")
  | VUndefined => throw (TypeError "Cannot read properties of undefined (reading 'slice')")
  | VNull => throw (TypeError "Cannot read properties of null (reading 'slice')")
  | _ => throw (TypeError "posts.slice is not a function")
  end.

(** [weatherData?.current_weather?.temperature] *)
Definition temperature_of (weatherData : Value) : Value :=
  opt_get (opt_get weatherData "current_weather") "temperature".

Definition on_second_weather (o : Outcome) : Js unit :=
  match o with
  | Failure err3 =>
      console_error_args [VStr "Second weather fetch error (callback):"; VStr (message err3)]
  | Success weather2 =>
      console_log_args [VStr "Second weather fetch done (callback). Temp:"; temperature_of weather2];;
      console_log "=== Callback Version Done ==="
  end.

Definition on_news (o : Outcome) : Js unit :=
  match o with
  | Failure err2 =>
      console_error_args [VStr "News error (callback):"; VStr (message err2)]
  | Success newsData =>
      let posts := coalesce (opt_get newsData "posts") (VArr []) in
      console_log "News (callback) received. Top headlines:";;
      slice5_forEach posts (fun p i =>
        title ← lift (get_member p "title");
        t ← interp title;
        console_log (show_nat (i + 1) +:+ ". " +:+ t));;
      get weatherUrl LegacyOnSecondWeather
  end.

Definition on_weather (o : Outcome) : Js unit :=
  match o with
  | Failure err =>
      console_error_args [VStr "Weather error (callback):"; VStr (message err)]
  | Success weatherData =>
      console_log_args [VStr "Weather (callback) received, temperature:"; temperature_of weatherData];;
      get newsUrl LegacyOnNews
  end.

Definition dispatch (h : Handler) (o : Outcome) : Js unit :=
  match h with
  | LegacyOnWeather => on_weather o
  | LegacyOnNews => on_news o
  | LegacyOnSecondWeather => on_second_weather o
  | _ => mret tt
  end.

Definition main : Js unit :=
  console_log "=== Callback Version ===";;
  get weatherUrl LegacyOnWeather.

Definition run (rt : Runtime) (net : nat -> NetResult) : World :=
  event_loop 3 (Legacy.httpsGetJson rt) dispatch net 0 (run_task main world0).

End CallbackVersion.

(* ================================================================== *)
(** ** controllers/promiseController.ts *)
(* ================================================================== *)

Module PromiseController.
Import View Model.

Definition VERSION : string := "Promise".

(** [const [a, b] = values]: a missing element is [undefined]. *)
Definition element (i : nat) (vals : list Value) : Value :=
  match vals !! i with Some v => v | None => VUndefined end.

(** 1. The sequential [.then()] chain with its single [.catch()]:
    the handlers first, then the chain. *)
Definition then_weather (weatherData : Value) : Js nat :=
  displayWeather weatherData "Promise - Sequential";;
  getNewsPromise.

Definition then_news (rt : Runtime) (newsData : Value) : Js unit :=
  let articles := coalesce (opt_get newsData "articles") (VArr []) in
  displayNews rt articles "Promise - Sequential".

Definition then_complete : Js unit :=
  console_log (nl +:+ "✅  Sequential promise chain complete.").

Definition catch_chain (err : JsError) : Js unit :=
  displayError "Sequential Chain" err.

Definition sequential_chain (rt : Runtime) (net : nat -> NetResult) : Js unit :=
  try_catch
    (p ← getWeatherPromise;
     weatherData ← await (promise_state (promise rt net p));
     q ← then_weather weatherData;
     newsData ← await (promise_state (promise rt net q));
     then_news rt newsData;;
     then_complete)
    catch_chain.

(** 2. [Promise.all([...]).then(...).catch(...)] *)
Definition on_all_fulfilled (rt : Runtime) (vals : list Value) : Js unit :=
  let weatherData := element 0 vals in
  let newsData := element 1 vals in
  console_log (nl +:+ "--- Promise.all() Results (Parallel Fetch) ---");;
  displayWeather weatherData "Promise.all";;
  let articles := coalesce (opt_get newsData "articles") (VArr []) in
  displayNews rt articles "Promise.all".

Definition on_all_rejected (err : JsError) : Js unit :=
  displayError "Promise.all" err.

Definition parallel_all (rt : Runtime) (net : nat -> NetResult)
           (schedule : list nat) : Js unit :=
  p ← getWeatherPromise;
  q ← getNewsPromise;
  then_catch (promise_all [promise rt net p; promise rt net q] schedule)
             (on_all_fulfilled rt) on_all_rejected.

(** 3. [Promise.race([...]).then(...).catch(...)] *)
Definition on_race_fulfilled (rt : Runtime) (firstResult : Value) : Js unit :=
  console_log (nl +:+ "--- Promise.race() Winner (First Response) ---");;
  if truthy (opt_get firstResult "current_weather") then
    console_log "🏆  Weather API responded first!";;
    displayWeather firstResult "Promise.race"
  else if truthy (opt_get firstResult "articles") then
    console_log "🏆  News API responded first!";;
    articles ← lift (get_member firstResult "articles");
    displayNews rt articles "Promise.race"
  else mret tt.

Definition on_race_rejected (err : JsError) : Js unit :=
  displayError "Promise.race" err.

Definition race (rt : Runtime) (net : nat -> NetResult)
           (schedule : list nat) : Js unit :=
  p ← getWeatherPromise;
  q ← getNewsPromise;
  then_catch (promise_race [promise rt net p; promise rt net q] schedule)
             (on_race_fulfilled rt) on_race_rejected.

(** Each orchestration on its own, after the header. *)
Definition run_sequential (rt : Runtime) (net : nat -> NetResult) : World :=
  run_reaction (sequential_chain rt net) (run_task (displayHeader VERSION) world0).

Definition run_all (rt : Runtime) (net : nat -> NetResult) (schedule : list nat) : World :=
  run_reaction (parallel_all rt net schedule) (run_task (displayHeader VERSION) world0).

Definition run_race (rt : Runtime) (net : nat -> NetResult) (schedule : list nat) : World :=
  run_reaction (race rt net schedule) (run_task (displayHeader VERSION) world0).

End PromiseController.

(* ================================================================== *)
(** ** controllers/asyncController.ts *)
(* ================================================================== *)

Module AsyncController.
Import View Model.

Definition VERSION : string := "Async/Await".

(** The nested [try]/[catch] around the additional weather fetch. *)
Definition additional_fetch (rt : Runtime) (net : nat -> NetResult) : Js unit :=
  try_catch
    (r ← getWeatherPromise;
     additionalWeather ← await (promise_state (promise rt net r));
     displayWeather additionalWeather "Async/Await - Additional Fetch")
    (fun innerErr => displayError "Additional Weather Fetch" innerErr).

(** What [run] does with the pair [Promise.all] fulfilled with. *)
Definition display_results (rt : Runtime) (vals : list Value) : Js unit :=
  let weatherData := PromiseController.element 0 vals in
  let newsData := PromiseController.element 1 vals in
  displayWeather weatherData "Async/Await";;
  let articles := coalesce (opt_get newsData "articles") (VArr []) in
  displayNews rt articles "Async/Await".

(** The parallel fetch and its display. *)
Definition parallel_stage (rt : Runtime) (net : nat -> NetResult)
           (schedule : list nat) : Js unit :=
  p ← getWeatherPromise;
  q ← getNewsPromise;
  vals ← await (promise_all [promise rt net p; promise rt net q] schedule);
  display_results rt vals.

(** The body of the outer [try]. *)
Definition fetch_and_display (rt : Runtime) (net : nat -> NetResult)
           (schedule : list nat) : Js unit :=
  parallel_stage rt net schedule;;
  additional_fetch rt net.

(** [async function run()] *)
Definition run_body (rt : Runtime) (net : nat -> NetResult)
           (schedule : list nat) : Js unit :=
  displayHeader VERSION;;
  try_finally
    (try_catch (fetch_and_display rt net schedule)
               (fun err => displayError "Async/Await Run" err))
    (displayFooter VERSION).

(** [run();] the promise it returns has no handler. *)
Definition run (rt : Runtime) (net : nat -> NetResult) (schedule : list nat) : World :=
  run_reaction (run_body rt net schedule) world0.

End AsyncController.

(* ================================================================== *)
(** ** promiseVersion.ts: the race *)
(* ================================================================== *)

Module PromiseVersion.

Definition get (url : string) : Js nat := issue (mkRequest url ∅) SettlePromise.

Definition promise (rt : Runtime) (net : nat -> NetResult) (i : nat) : option Outcome :=
  Legacy.httpsGetJsonPromise rt (net i).

(** [x[0]] for a truthy [x].  The first unit of a string is only ever
    read through [?.title], which it does not have. *)
Definition index0 (x : Value) : Value :=
  match x with
  | VArr items => match items with v :: _ => v | [] => VUndefined end
  | VObj props => match own_prop "0" props with Some v => v | None => VUndefined end
  | VStr (String c _) => VStr (String c EmptyString)
  | _ => VUndefined
  end.

Definition on_race_fulfilled (first : Value) : Js unit :=
  console_log "--- Promise.race winner (first resolved) ---";;
  if truthy (opt_get first "current_weather") then
    current_weather ← lift (get_member first "current_weather");
    temperature ← lift (get_member current_weather "temperature");
    console_log_args [VStr "Winner is weather. Temp:"; temperature]
  else if truthy (opt_get first "posts") then
    posts ← lift (get_member first "posts");
    console_log_args [VStr "Winner is news. First headline:"; opt_get (index0 posts) "title"]
  else
    console_log_args [VStr "Race winner:"; first].

Definition on_race_rejected (err : JsError) : Js unit :=
  console_error_args [VStr "Promise.race error:"; VStr (message err)].

Definition race (rt : Runtime) (net : nat -> NetResult)
           (schedule : list nat) : Js unit :=
  p ← get CallbackVersion.weatherUrl;
  q ← get CallbackVersion.newsUrl;
  then_catch (promise_race [promise rt net p; promise rt net q] schedule)
             on_race_fulfilled on_race_rejected.

Definition run_race (rt : Runtime) (net : nat -> NetResult) (schedule : list nat) : World :=
  run_reaction (race rt net schedule) (run_task (console_log "=== Promise Version ===") world0).

End PromiseVersion.

(* ================================================================== *)
(** ** Test doubles *)
(* ================================================================== *)

Definition syntax_error : JsError :=
  mkError "SyntaxError" "Unexpected token in JSON".

(** A stand-in for the host: [JSON.parse] answers from a table of known
    texts and rejects every other text; no string compares above zero. *)
Definition table_runtime (table : list (string * Value)) : Runtime :=
  {| JSON_parse := fun text =>
       match own_prop text table with
       | Some v => inl v
       | None => inr syntax_error
       end;
     string_gt_zero := fun _ => false |}.

(** A network that answers the [i]-th request with the [i]-th scripted
    exchange, and refuses the connection for any further request. *)
Definition scripted (script : list NetResult) (i : nat) : NetResult :=
  match script !! i with
  | Some r => r
  | None => NetFailed (Error "connect ECONNREFUSED")
  end.

(** A callback that only records what it was called with. *)
Definition record (o : Outcome) : Js unit :=
  match o with
  | Success data => console_log_args [VStr "data"; data]
  | Failure e => console_error_args [VStr (err_name e); VStr (message e)]
  end.

(** [sub] occurs in [s]. *)
Fixpoint is_substring (sub s : string) : bool :=
  String.prefix sub s ||
  match s with
  | EmptyString => false
  | String _ s' => is_substring sub s'
  end.

Definition lines (w : World) : list Line := console w.
Definition requested (w : World) : list string := map (fun rh => url (fst rh)) (issued w).

(** A double quote, and texts and payloads used as concrete inputs. *)
Definition dq : string := String (ascii_of_nat 34) EmptyString.

(** The text [{"articles":[null]}] and its parse. *)
Definition null_article_text : string := "{" +:+ dq +:+ "articles" +:+ dq +:+ ":[null]}".
Definition null_article_payload : Value := VObj [("articles", VArr [VNull])].

(** The text of the end-to-end weather payload and its parse. *)
Definition weather_text : string :=
  "{" +:+ dq +:+ "current_weather" +:+ dq +:+ ":{" +:+ dq +:+ "temperature" +:+ dq
  +:+ ":22," +:+ dq +:+ "windspeed" +:+ dq +:+ ":8.3}}".
Definition weather_payload : Value :=
  VObj [("current_weather", VObj [("temperature", VNum "22"); ("windspeed", VNum "8.3")])].

(** The text of a news payload with two articles and its parse. *)
Definition news_text : string :=
  "{" +:+ dq +:+ "articles" +:+ dq +:+ ":[{" +:+ dq +:+ "title" +:+ dq +:+ ":" +:+ dq +:+ "X" +:+ dq
  +:+ "},{" +:+ dq +:+ "title" +:+ dq +:+ ":" +:+ dq +:+ "Y" +:+ dq +:+ "}]}".
Definition news_payload : Value :=
  VObj [("articles", VArr [VObj [("title", VStr "X")]; VObj [("title", VStr "Y")]])].

Definition sample_runtime : Runtime :=
  table_runtime [(weather_text, weather_payload); (news_text, news_payload);
                 (null_article_text, null_article_payload); ("{}", VObj [])].

Definition ok (chunks : list string) : NetResult := NetResponse (Some 200) chunks.

(* ================================================================== *)
(** ** The statements the properties are about *)
(* ================================================================== *)

(** A callback-style fetch answers the response [status], [chunks] with a
    single failure whose message shows the status code and the whole
    body. *)
Definition reports_status_and_body
           (fetch : NetResult -> (Outcome -> Js unit) -> Js unit)
           (status : nat) (chunks : list string) : Prop :=
  exists e : JsError,
    (forall (cb : Outcome -> Js unit) (w : World),
        fetch (NetResponse (Some status) chunks) cb w = cb (Failure e) w)
    /\ is_substring (show_nat status) (message e) = true
    /\ is_substring (body_of chunks) (message e) = true.

(** The aggregate of two fetches as the parallel-all combination rule
    words it: the pair in request order when both succeed, else the
    failure, the one observed first when both fail; [first] is the
    position of the fetch that settled first. *)
Definition combined (o1 o2 : Outcome) (first : nat) : list Value + JsError :=
  match o1, o2 with
  | Success v1, Success v2 => inl [v1; v2]
  | Failure e1, Success _ => inr e1
  | Success _, Failure e2 => inr e2
  | Failure e1, Failure e2 => inr (if Nat.eqb first 0 then e1 else e2)
  end.

(** The outcome at position [k] of a pair. *)
Definition pick (o0 o1 : Outcome) (k : nat) : Outcome :=
  if Nat.eqb k 0 then o0 else o1.

(** Frames: what a piece of code leaves as it found it.  The process
    frame holds when no rejection was reported unhandled and the process
    was not ended; the request frame holds when, moreover, no request
    was issued. *)
Definition process_frame (w w' : World) : Prop :=
  unhandled w' = unhandled w /\ uncaught w' = uncaught w.

Definition request_frame (w w' : World) : Prop :=
  issued w' = issued w /\ process_frame w w'.

Definition preserves (R : World -> World -> Prop) {A} (m : Js A) : Prop :=
  forall w, R w (snd (m w)).

(** [quiet m]: [m] only prints and issues requests. *)
Definition quiet {A} (m : Js A) : Prop := preserves process_frame m.

(** [console_only m]: [m] only prints. *)
Definition console_only {A} (m : Js A) : Prop := preserves request_frame m.

(** The request a callback issues when it is called with a payload and
    gets to its end: the next stage of its script. *)
Definition follow_up (h : Handler) : list (Request * Handler) :=
  match h with
  | OnWeather => [(Model.newsRequest, OnNews)]
  | OnNews => [(Model.weatherRequest, OnSecondWeather)]
  | LegacyOnWeather => [(mkRequest CallbackVersion.newsUrl ∅, LegacyOnNews)]
  | LegacyOnNews => [(mkRequest CallbackVersion.weatherUrl ∅, LegacyOnSecondWeather)]
  | _ => []
  end.

(** The world [w] after the lines [ls] were printed. *)
Definition printed (ls : list Line) (w : World) : World :=
  mkWorld (console w ++ ls) (issued w) (unhandled w) (uncaught w).

(** [safe m]: [m] does not complete by throwing. *)
Definition safe {A} (m : Js A) : Prop :=
  forall w e w', m w <> (Throw e, w').

(** A line that tells the reader there is no article. *)
Definition is_empty_notice (l : Line) : bool :=
  match args l with
  | [VStr s] => is_substring "No news articles available." s
  | _ => false
  end.

Definition header_lines (version : string) : list Line :=
  console (snd (View.displayHeader version world0)).

Definition footer_lines (version : string) : list Line :=
  console (snd (View.displayFooter version world0)).

(** A value a template literal can render. *)
Definition printable (v : Value) : bool :=
  match to_string v with Normal _ => true | _ => false end.

(** An element [displayNews] can render: not [null] or [undefined], with
    a printable [title]; every [NewsArticle] is one. *)
Definition renderable_article (a : Value) : bool :=
  negb (nullish a) && printable (get_prop a "title").

(** A payload [displayWeather] can render: [current_weather] is absent
    or falsy, or its [temperature] and [windspeed] are printable; every
    [WeatherResponse] is one. *)
Definition renderable_weather (data : Value) : bool :=
  let weather := opt_get data "current_weather" in
  negb (truthy weather)
  || (printable (get_prop weather "temperature") && printable (get_prop weather "windspeed")).

(* ================================================================== *)
(** ** promiseVersion.ts: the sequential chain *)
(* ================================================================== *)

Module PromiseVersionChain.

(** [posts.slice(0, 5).forEach((p, i) => console.log(`${i + 1}. ${p.title}`))] *)
Definition print_headlines (posts : Value) : Js unit :=
  CallbackVersion.slice5_forEach posts (fun p i =>
    title ← lift (get_member p "title");
    t ← interp title;
    console_log (show_nat (i + 1) +:+ ". " +:+ t)).

Definition then_weather (weatherData : Value) : Js nat :=
  console_log_args [VStr "Weather (promise) temperature:";
                    CallbackVersion.temperature_of weatherData];;
  PromiseVersion.get CallbackVersion.newsUrl.

(** The second handler returns [Promise.resolve("done sequential")]. *)
Definition then_news (newsData : Value) : Js string :=
  let posts := coalesce (opt_get newsData "posts") (VArr []) in
  console_log "News (promise) top headlines:";;
  print_headlines posts;;
  mret "done sequential".

Definition then_complete (msg : string) : Js unit :=
  console_log_args [VStr "Sequential chain complete:"; VStr msg].

Definition catch_chain (err : JsError) : Js unit :=
  console_error_args [VStr "Error in promise chain:"; VStr (message err)].

Definition sequential_chain (rt : Runtime) (net : nat -> NetResult) : Js unit :=
  try_catch
    (p ← PromiseVersion.get CallbackVersion.weatherUrl;
     weatherData ← await (promise_state (PromiseVersion.promise rt net p));
     q ← then_weather weatherData;
     newsData ← await (promise_state (PromiseVersion.promise rt net q));
     msg ← then_news newsData;
     then_complete msg)
    catch_chain.

End PromiseVersionChain.

(* ================================================================== *)
(** ** asyncAwaitVersion.ts *)
(* ================================================================== *)

Module AsyncAwaitVersion.

(** The nested [try]/[catch] around the single weather fetch. *)
Definition single_fetch (rt : Runtime) (net : nat -> NetResult) : Js unit :=
  try_catch
    (r ← PromiseVersion.get CallbackVersion.weatherUrl;
     singleWeather ← await (promise_state (PromiseVersion.promise rt net r));
     console_log_args [VStr "Single weather fetch (nested try):";
                       CallbackVersion.temperature_of singleWeather])
    (fun innerErr =>
       console_error_args [VStr "Inner weather fetch error:"; VStr (message innerErr)]).

(** The parallel fetch and what is printed from it. *)
Definition parallel_stage (rt : Runtime) (net : nat -> NetResult)
           (schedule : list nat) : Js unit :=
  p ← PromiseVersion.get CallbackVersion.weatherUrl;
  q ← PromiseVersion.get CallbackVersion.newsUrl;
  vals ← await (promise_all [PromiseVersion.promise rt net p;
                             PromiseVersion.promise rt net q] schedule);
  let weatherData := PromiseController.element 0 vals in
  let newsData := PromiseController.element 1 vals in
  console_log_args [VStr "Weather (async) temp:"; CallbackVersion.temperature_of weatherData];;
  let posts := coalesce (opt_get newsData "posts") (VArr []) in
  console_log "News (async) top headlines:";;
  PromiseVersionChain.print_headlines posts.

(** [async function run()] *)
Definition run_body (rt : Runtime) (net : nat -> NetResult)
           (schedule : list nat) : Js unit :=
  try_finally
    (try_catch (parallel_stage rt net schedule;; single_fetch rt net)
               (fun err => console_error_args [VStr "Async/Await run error:"; VStr (message err)]))
    (console_log "=== Async/Await Version Done ===").

(** The script: its banner, then [run()]. *)
Definition run (rt : Runtime) (net : nat -> NetResult) (schedule : list nat) : World :=
  run_reaction (run_body rt net schedule)
               (run_task (console_log "=== Async/Await Version ===") world0).

End AsyncAwaitVersion.

(* ================================================================== *)
(** ** Further statements *)
(* ================================================================== *)

(** The element [a] is an article (or post) titled [t]: it is not [null]
    or [undefined] and its [title] is the string [t]. *)
Definition titled (t : string) (a : Value) : Prop :=
  nullish a = false /\ get_prop a "title" = VStr t.

(** The numbered lines [indent n. title], counting from [start + 1]. *)
Fixpoint numbered (indent : string) (start : nat) (titles : list string) : list Line :=
  match titles with
  | [] => []
  | t :: rest =>
      out (indent +:+ show_nat (start + 1) +:+ ". " +:+ t) :: numbered indent (S start) rest
  end.

(** The requests of a callback script, in the order of its stages. *)
Definition controller_requests : list (Request * Handler) :=
  [(Model.weatherRequest, OnWeather); (Model.newsRequest, OnNews);
   (Model.weatherRequest, OnSecondWeather)].

Definition version_requests : list (Request * Handler) :=
  [(mkRequest CallbackVersion.weatherUrl ∅, LegacyOnWeather);
   (mkRequest CallbackVersion.newsUrl ∅, LegacyOnNews);
   (mkRequest CallbackVersion.weatherUrl ∅, LegacyOnSecondWeather)].

(** [resumes m]: [m] completes, normally or by throwing; it does not
    wait for a settlement that never comes. *)
Definition resumes {A} (m : Js A) : Prop :=
  forall w w', m w <> (Never, w').

(** [printer m]: [m] only appends lines to the console; which lines, and
    how [m] completes, does not depend on the world it runs in. *)
Definition printer {A} (m : Js A) : Prop :=
  forall w, m w = (fst (m world0), printed (console (snd (m world0))) w).

(** What the view prints for a payload. *)
Definition weather_lines (data : Value) (label : string) : list Line :=
  console (snd (View.displayWeather data label world0)).

Definition news_lines (rt : Runtime) (articles : Value) (label : string) : list Line :=
  console (snd (View.displayNews rt articles label world0)).

(** The console only grows. *)
Definition console_grows (w w' : World) : Prop :=
  exists ls, console w' = console w ++ ls.

(** The requests of the two parallel fetches of the promise-style
    controllers. *)
Definition parallel_requests : list (Request * Handler) :=
  [(Model.weatherRequest, SettlePromise); (Model.newsRequest, SettlePromise)].

Definition legacy_parallel_requests : list (Request * Handler) :=
  [(mkRequest CallbackVersion.weatherUrl ∅, SettlePromise);
   (mkRequest CallbackVersion.newsUrl ∅, SettlePromise)].

(** A run that ended with no uncaught exception and no unhandled
    rejection. *)
Definition clean (w : World) : Prop :=
  unhandled w = [] /\ uncaught w = None.

(* ================================================================== *)
(** * Properties *)
(* ================================================================== *)

(** ** Strings *)

Lemma append_cons (c : ascii) (s t : string) : String c s +:+ t = String c (s +:+ t).
Proof. reflexivity. Qed.

Lemma append_nil_l (s : string) : EmptyString +:+ s = s.
Proof. reflexivity. Qed.

Lemma append_nil_r (s : string) : s +:+ EmptyString = s.
Proof.
  induction s as [|c s IH]; [reflexivity|].
  rewrite append_cons, IH. reflexivity.
Qed.

Lemma append_assoc (s1 s2 s3 : string) : (s1 +:+ s2) +:+ s3 = s1 +:+ (s2 +:+ s3).
Proof.
  induction s1 as [|c s1 IH]; [reflexivity|].
  rewrite !append_cons, IH. reflexivity.
Qed.

Lemma prefix_append (sub rest : string) : String.prefix sub (sub +:+ rest) = true.
Proof.
  induction sub as [|c sub IH].
  - now destruct rest.
  - rewrite append_cons. simpl.
    destruct (ascii_dec c c) as [_|Hne]; [exact IH | now elim Hne].
Qed.

Lemma is_substring_unfold (sub s : string) :
  is_substring sub s
  = String.prefix sub s
    || match s with EmptyString => false | String _ s' => is_substring sub s' end.
Proof. destruct s; reflexivity. Qed.

Lemma is_substring_here (sub rest : string) : is_substring sub (sub +:+ rest) = true.
Proof. rewrite is_substring_unfold, prefix_append. reflexivity. Qed.

Lemma is_substring_append (pre sub post : string) :
  is_substring sub (pre +:+ sub +:+ post) = true.
Proof.
  induction pre as [|c pre IH].
  - exact (is_substring_here sub post).
  - rewrite append_cons, is_substring_unfold, IH. apply orb_true_r.
Qed.

(** ** The monad *)

Lemma bind_unit_r (m : Js unit) (w : World) : (m;; mret tt) w = m w.
Proof.
  unfold mbind, Js_bind, js_bind, mret, Js_ret, js_ret.
  destruct (m w) as [[[]|e|] w']; reflexivity.
Qed.

(** Discarding the state a run of listeners ends in. *)
Lemma bind_unit_r' {S : Type} (m : Js S) (w : World) :
  (m;; mret tt) w
  = match m w with
    | (Normal _, w') => (Normal tt, w')
    | (Throw e, w') => (Throw e, w')
    | (Never, w') => (Never, w')
    end.
Proof. reflexivity. Qed.

Ltac js_unfold :=
  unfold mbind, mret, Js_bind, Js_ret, js_bind, js_ret, try_catch, call, throw, lift in *.

(** ** The fetch primitive, event by event *)

Section Fetch.
Variable rt : Runtime.
Variable cb : Outcome -> Js unit.

(** While data arrives the listeners only accumulate: the callback is
    not called and nothing is observable. *)
Lemma httpGetJson_reading (chunks : list string) (rawData : string) (w : World) :
  run_events (HttpClient.httpGetJson_step rt cb) (map EvData chunks) (ReadingBody rawData) w
  = (Normal (ReadingBody (rawData +:+ body_of chunks)), w).
Proof.
  revert rawData. induction chunks as [|c chunks IH]; intros rawData; simpl.
  - now rewrite append_nil_r.
  - unfold mbind, Js_bind, js_bind at 1. simpl.
    rewrite IH, append_assoc. reflexivity.
Qed.

Lemma httpGetJson_reading_error (chunks : list string) (n : nat) (errorBody : string) (w : World) :
  run_events (HttpClient.httpGetJson_step rt cb) (map EvData chunks) (ReadingErrorBody n errorBody) w
  = (Normal (ReadingErrorBody n (errorBody +:+ body_of chunks)), w).
Proof.
  revert errorBody. induction chunks as [|c chunks IH]; intros errorBody; simpl.
  - now rewrite append_nil_r.
  - unfold mbind, Js_bind, js_bind at 1. simpl.
    rewrite IH, append_assoc. reflexivity.
Qed.

Lemma run_events_app {S : Type} (step : S -> NetEvent -> Js S)
      (evs1 evs2 : list NetEvent) (st : S) (w : World) :
  run_events step (evs1 ++ evs2) st w
  = (st' ← run_events step evs1 st; run_events step evs2 st') w.
Proof.
  revert st w. induction evs1 as [|ev evs1 IH]; intros st w; simpl.
  - reflexivity.
  - unfold mbind, Js_bind, js_bind.
    destruct (step st ev w) as [[st'|e|] w']; [|reflexivity..].
    rewrite IH. reflexivity.
Qed.

(** Up to the last chunk nothing has been handed to the callback;
    this holds for every prefix of the body, since [chunks] is
    arbitrary. *)
Lemma httpGetJson_before_end (sc : option nat) (chunks : list string) (w : World) :
  run_events (HttpClient.httpGetJson_step rt cb) (EvResponse sc :: map EvData chunks)
             AwaitingResponse w
  = (Normal match error_status sc with
            | Some n => ReadingErrorBody n (body_of chunks)
            | None => ReadingBody (body_of chunks)
            end, w).
Proof.
  simpl. unfold mbind, Js_bind, js_bind at 1.
  destruct (error_status sc) as [n|]; simpl.
  - now rewrite httpGetJson_reading_error.
  - now rewrite httpGetJson_reading.
Qed.

(** A failed exchange reaches the callback as one call. *)
Lemma httpGetJson_failure (r : NetResult) (e : JsError) (w : World) :
  HttpClient.outcome rt r = Failure e ->
  HttpClient.httpGetJson rt r cb w = cb (Failure e) w.
Proof.
  intros H. unfold HttpClient.httpGetJson. rewrite bind_unit_r'.
  destruct r as [e0|sc chunks]; simpl in H.
  - injection H as ->. simpl. js_unfold.
    destruct (cb (Failure e) w) as [[[]|?|] ?]; reflexivity.
  - unfold events_of. rewrite app_comm_cons, run_events_app.
    unfold mbind, Js_bind, js_bind at 1. rewrite httpGetJson_before_end.
    destruct (error_status sc) as [n|].
    + injection H as <-. simpl. js_unfold.
      destruct (cb _ w) as [[[]|?|] ?]; reflexivity.
    + destruct (JSON_parse rt (body_of chunks)) as [v|e0] eqn:E; [discriminate|].
      injection H as ->. simpl. js_unfold. rewrite E. js_unfold. simpl.
      destruct (cb _ w) as [[[]|?|] ?]; reflexivity.
Qed.

(** A well-formed body reaches the callback inside the [try] block
    that parsed it. *)
Lemma httpGetJson_success (r : NetResult) (v : Value) (w : World) :
  HttpClient.outcome rt r = Success v ->
  HttpClient.httpGetJson rt r cb w
  = try_catch (cb (Success v)) (fun e => cb (Failure e)) w.
Proof.
  intros H. unfold HttpClient.httpGetJson. rewrite bind_unit_r'.
  destruct r as [e0|sc chunks]; simpl in H; [discriminate|].
  unfold events_of. rewrite app_comm_cons, run_events_app.
  unfold mbind, Js_bind, js_bind at 1. rewrite httpGetJson_before_end.
  destruct (error_status sc) as [n|]; [discriminate|].
  destruct (JSON_parse rt (body_of chunks)) as [v0|e0] eqn:E; [|discriminate].
  injection H as ->. simpl. js_unfold. rewrite E. js_unfold. simpl.
  destruct (cb (Success v) w) as [[[]|e|] w']; [reflexivity| |reflexivity].
  destruct (cb (Failure e) w') as [[[]|?|] ?]; reflexivity.
Qed.

(** The same facts for [httpsGetJson] of callbackVersion.ts. *)
Lemma httpsGetJson_reading (chunks : list string) (raw : string) (w : World) :
  run_events (Legacy.httpsGetJson_step rt cb) (map EvData chunks) (ReadingBody raw) w
  = (Normal (ReadingBody (raw +:+ body_of chunks)), w).
Proof.
  revert raw. induction chunks as [|c chunks IH]; intros raw; simpl.
  - now rewrite append_nil_r.
  - unfold mbind, Js_bind, js_bind at 1. simpl.
    rewrite IH, append_assoc. reflexivity.
Qed.

(** After an error status no listener is left: whatever the response
    still emits is ignored. *)
Lemma httpsGetJson_ended (evs : list NetEvent) (w : World) :
  Forall (fun ev => match ev with EvError _ => False | _ => True end) evs ->
  run_events (Legacy.httpsGetJson_step rt cb) evs Ended w = (Normal Ended, w).
Proof.
  induction 1 as [|ev evs Hev _ IH]; simpl; [reflexivity|].
  unfold mbind, Js_bind, js_bind at 1.
  destruct ev; try contradiction; simpl; exact IH.
Qed.

Lemma body_events_no_error (chunks : list string) :
  Forall (fun ev => match ev with EvError _ => False | _ => True end)
         (map EvData chunks ++ [EvEnd]).
Proof.
  apply Forall_app; split; [|repeat constructor].
  induction chunks; simpl; constructor; auto.
Qed.

Lemma httpsGetJson_failure (r : NetResult) (e : JsError) (w : World) :
  Legacy.outcome rt r = Failure e ->
  Legacy.httpsGetJson rt r cb w = cb (Failure e) w.
Proof.
  intros H. unfold Legacy.httpsGetJson. rewrite bind_unit_r'.
  destruct r as [e0|sc chunks]; simpl in H.
  - injection H as ->. simpl. js_unfold.
    destruct (cb (Failure e) w) as [[[]|?|] ?]; reflexivity.
  - unfold events_of. simpl. unfold mbind, Js_bind, js_bind at 1.
    destruct (error_status sc) as [n|].
    + injection H as <-. js_unfold.
      destruct (cb _ w) as [[[]|?|] w']; try reflexivity.
      fold (@js_bind Listening Listening). simpl.
      now rewrite (httpsGetJson_ended _ w' (body_events_no_error chunks)).
    + destruct (JSON_parse rt (body_of chunks)) as [v|e0] eqn:E; [discriminate|].
      injection H as ->. simpl. rewrite run_events_app.
      unfold mbind, Js_bind, js_bind at 1. rewrite httpsGetJson_reading, append_nil_l.
      simpl. js_unfold. rewrite E. js_unfold. simpl.
      destruct (cb _ w) as [[[]|?|] ?]; reflexivity.
Qed.

Lemma httpsGetJson_success (r : NetResult) (v : Value) (w : World) :
  Legacy.outcome rt r = Success v ->
  Legacy.httpsGetJson rt r cb w
  = try_catch (cb (Success v)) (fun e => cb (Failure e)) w.
Proof.
  intros H. unfold Legacy.httpsGetJson. rewrite bind_unit_r'.
  destruct r as [e0|sc chunks]; simpl in H; [discriminate|].
  unfold events_of. simpl. unfold mbind, Js_bind, js_bind at 1.
  destruct (error_status sc) as [n|]; [discriminate|].
  destruct (JSON_parse rt (body_of chunks)) as [v0|e0] eqn:E; [|discriminate].
  injection H as ->. simpl. rewrite run_events_app.
  unfold mbind, Js_bind, js_bind at 1. rewrite httpsGetJson_reading, append_nil_l.
  simpl. js_unfold. rewrite E. js_unfold. simpl.
  destruct (cb (Success v) w) as [[[]|e|] w']; [reflexivity| |reflexivity].
  destruct (cb (Failure e) w') as [[[]|?|] ?]; reflexivity.
Qed.

End Fetch.

(** ** The promise-returning fetches *)

Section FetchPromise.
Variable rt : Runtime.

Lemma httpGetJsonPromise_reading chunks rawData (p : option Outcome) :
  fold_left (HttpClient.httpGetJsonPromise_step rt) (map EvData chunks) (ReadingBody rawData, p)
  = (ReadingBody (rawData +:+ body_of chunks), p).
Proof.
  revert rawData. induction chunks as [|c chunks IH]; intros rawData; simpl.
  - now rewrite append_nil_r.
  - rewrite IH, append_assoc. reflexivity.
Qed.

Lemma httpGetJsonPromise_reading_error chunks n errorBody (p : option Outcome) :
  fold_left (HttpClient.httpGetJsonPromise_step rt) (map EvData chunks)
            (ReadingErrorBody n errorBody, p)
  = (ReadingErrorBody n (errorBody +:+ body_of chunks), p).
Proof.
  revert errorBody. induction chunks as [|c chunks IH]; intros errorBody; simpl.
  - now rewrite append_nil_r.
  - rewrite IH, append_assoc. reflexivity.
Qed.

(** The promise stays pending until the last chunk has arrived. *)
Lemma httpGetJsonPromise_before_end sc chunks :
  snd (fold_left (HttpClient.httpGetJsonPromise_step rt)
                 (EvResponse sc :: map EvData chunks) (AwaitingResponse, None))
  = None.
Proof.
  simpl. destruct (error_status sc) as [n|].
  - now rewrite httpGetJsonPromise_reading_error.
  - now rewrite httpGetJsonPromise_reading.
Qed.

(** Once the exchange is over the promise is settled, with the outcome
    of the exchange. *)
Lemma httpGetJsonPromise_outcome (r : NetResult) :
  HttpClient.httpGetJsonPromise rt r = Some (HttpClient.outcome rt r).
Proof.
  unfold HttpClient.httpGetJsonPromise.
  destruct r as [e|sc chunks]; [reflexivity|].
  unfold events_of. rewrite app_comm_cons, fold_left_app. simpl.
  destruct (error_status sc) as [n|].
  - now rewrite httpGetJsonPromise_reading_error.
  - rewrite httpGetJsonPromise_reading, append_nil_l. simpl.
    now destruct (JSON_parse rt (body_of chunks)).
Qed.

Lemma httpsGetJsonPromise_reading chunks raw (p : option Outcome) :
  fold_left (Legacy.httpsGetJsonPromise_step rt) (map EvData chunks) (ReadingBody raw, p)
  = (ReadingBody (raw +:+ body_of chunks), p).
Proof.
  revert raw. induction chunks as [|c chunks IH]; intros raw; simpl.
  - now rewrite append_nil_r.
  - rewrite IH, append_assoc. reflexivity.
Qed.

Lemma httpsGetJsonPromise_ended evs (p : option Outcome) :
  Forall (fun ev => match ev with EvError _ => False | _ => True end) evs ->
  fold_left (Legacy.httpsGetJsonPromise_step rt) evs (Ended, p) = (Ended, p).
Proof.
  induction 1 as [|ev evs Hev _ IH]; simpl; [reflexivity|].
  destruct ev; try contradiction; simpl; exact IH.
Qed.

Lemma httpsGetJsonPromise_outcome (r : NetResult) :
  Legacy.httpsGetJsonPromise rt r = Some (Legacy.outcome rt r).
Proof.
  unfold Legacy.httpsGetJsonPromise.
  destruct r as [e|sc chunks]; [reflexivity|].
  unfold events_of. simpl.
  destruct (error_status sc) as [n|].
  - now rewrite (httpsGetJsonPromise_ended _ _ (body_events_no_error chunks)).
  - rewrite fold_left_app, httpsGetJsonPromise_reading, append_nil_l. simpl.
    now destruct (JSON_parse rt (body_of chunks)).
Qed.

End FetchPromise.

(** ** Request headers (C7) *)

(** What the merged object holds under each key: the caller's value when
    the caller has that key, else the fixed value under [User-Agent]. *)
Lemma request_headers_lookup (custom : gmap string string) (k : string) :
  HttpClient.request_headers {| HttpClient.headers := Some custom |} !! k
  = match custom !! k with
    | Some v => Some v
    | None => if decide (k = "User-Agent") then Some HttpClient.USER_AGENT else None
    end.
Proof.
  unfold HttpClient.request_headers. simpl.
  rewrite lookup_union.
  destruct (custom !! k) as [v|] eqn:E.
  - now destruct ({[ "User-Agent" := HttpClient.USER_AGENT ]} !! k).
  - rewrite (left_id None _). rewrite lookup_singleton.
    destruct (decide ("User-Agent" = k)) as [->|Hne]; destruct (decide _); congruence.
Qed.

(** C7 as stated fails: a caller that supplies [User-Agent] replaces the
    identifying header's value; the object handed to [https.get] has
    the one key [User-Agent], with the caller's value. *)
Lemma C7_caller_overrides_user_agent :
  HttpClient.request_headers
    {| HttpClient.headers := Some {[ "User-Agent" := "curl/8.5.0" ]} |} !! "User-Agent"
  = Some "curl/8.5.0"
  /\ HttpClient.request_headers
       {| HttpClient.headers := Some {[ "User-Agent" := "curl/8.5.0" ]} |} !! "User-Agent"
     <> Some HttpClient.USER_AGENT.
Proof. split; [reflexivity | discriminate]. Qed.

(** C7, amended, about the [headers] object that [httpGetJson] and
    [httpGetJsonPromise] hand to [https.get]: it holds every key of the
    caller with the caller's value; under the key [User-Agent] it holds
    the fixed value when the caller has no key spelled [User-Agent]; it
    holds no key besides the caller's and [User-Agent]; without caller
    headers it is the fixed [User-Agent] alone.  Keys are compared as
    the object compares them, by exact spelling. *)
Theorem C7_merged_headers (url : string) (custom : gmap string string) :
  (forall k v, custom !! k = Some v ->
     req_headers (HttpClient.reqOptions url {| HttpClient.headers := Some custom |}) !! k
     = Some v)
  /\ (custom !! "User-Agent" = None ->
      req_headers (HttpClient.reqOptions url {| HttpClient.headers := Some custom |})
        !! "User-Agent"
      = Some HttpClient.USER_AGENT)
  /\ (forall k, k <> "User-Agent" -> custom !! k = None ->
      req_headers (HttpClient.reqOptions url {| HttpClient.headers := Some custom |}) !! k
      = None)
  /\ req_headers (HttpClient.reqOptions url HttpClient.no_options)
     = {[ "User-Agent" := HttpClient.USER_AGENT ]}.
Proof.
  unfold HttpClient.reqOptions. cbn [req_headers].
  split; [|split; [|split]].
  - intros k v H. now rewrite request_headers_lookup, H.
  - intros H. rewrite request_headers_lookup, H. now destruct (decide _).
  - intros k Hk H. rewrite request_headers_lookup, H. now destruct (decide _).
  - reflexivity.
Qed.

(** The object of the news request has the API key and the fixed
    [User-Agent]. *)
Lemma C7_merged_headers_witness :
  Model.getNewsHeaders !! "User-Agent" = None
  /\ req_headers Model.newsRequest !! "User-Agent" = Some HttpClient.USER_AGENT
  /\ req_headers Model.newsRequest !! "X-Api-Key" = Some Model.NEWS_API_KEY.
Proof.
  split; [reflexivity|]. split.
  - apply (C7_merged_headers Model.newsUrl Model.getNewsHeaders). reflexivity.
  - apply (C7_merged_headers Model.newsUrl Model.getNewsHeaders). reflexivity.
Defined.

(** The merge folds no case: a caller key that differs from [User-Agent]
    only in case is a second key of the object, beside the fixed one. *)
Example headers_object_keeps_both_spellings :
  HttpClient.request_headers
    {| HttpClient.headers := Some {[ "user-agent" := "curl/8.5.0" ]} |} !! "User-Agent"
  = Some HttpClient.USER_AGENT
  /\ HttpClient.request_headers
       {| HttpClient.headers := Some {[ "user-agent" := "curl/8.5.0" ]} |} !! "user-agent"
     = Some "curl/8.5.0"
  /\ size (HttpClient.request_headers
             {| HttpClient.headers := Some {[ "user-agent" := "curl/8.5.0" ]} |}) = 2.
Proof. repeat split; vm_compute; reflexivity. Qed.

(** ** Error statuses (C1) *)

Lemma error_status_ge (status : nat) :
  400 <= status -> error_status (Some status) = Some status.
Proof.
  intros H. unfold error_status.
  destruct (Nat.eqb_spec status 0) as [->|_]; [lia|].
  destruct (Nat.leb_spec 400 status); [reflexivity | lia].
Qed.

Lemma http_error_mentions (status : nat) (body : string) :
  is_substring (show_nat status) (message (HttpClient.http_error status body)) = true
  /\ is_substring body (message (HttpClient.http_error status body)) = true.
Proof.
  change (message (HttpClient.http_error status body))
    with ("HTTP request failed with status " +:+ show_nat status +:+ ": " +:+ body).
  split.
  - apply is_substring_append.
  - replace ("HTTP request failed with status " +:+ show_nat status +:+ ": " +:+ body)
      with (("HTTP request failed with status " +:+ show_nat status +:+ ": ") +:+ body +:+ EmptyString)
      by (now rewrite append_nil_r, !append_assoc).
    apply is_substring_append.
Qed.

(** C1 as stated fails on [httpsGetJson] of callbackVersion.ts: for the
    response [404] with body [not found] in two chunks, no failure it
    hands to the callback shows the body. *)
Lemma C1_legacy_drops_body :
  ~ reports_status_and_body (Legacy.httpsGetJson sample_runtime) 404 ["not "; "found"].
Proof.
  intros [e [H [_ Hbody]]].
  specialize (H record world0).
  rewrite (httpsGetJson_failure sample_runtime record _ (Legacy.status_error 404)) in H
    by reflexivity.
  destruct e as [name msg].
  injection H as Hname Hmsg. subst msg. vm_compute in Hbody. discriminate.
Qed.

(** C1, amended: for every response with status code >= 400,
    [httpGetJson] and [httpGetJsonPromise] of utils/httpClient.ts produce
    one failure (callback call or rejection) whose message contains the
    status code and the whole drained body, however the body is chunked;
    [httpsGetJson] and [httpsGetJsonPromise] of the older scripts produce
    one failure whose message names the status code only. *)
Theorem C1_error_status_failure (rt : Runtime) (status : nat) (chunks : list string) :
  400 <= status ->
  reports_status_and_body (HttpClient.httpGetJson rt) status chunks
  /\ HttpClient.httpGetJsonPromise rt (NetResponse (Some status) chunks)
     = Some (Failure (HttpClient.http_error status (body_of chunks)))
  /\ (forall cb w,
        Legacy.httpsGetJson rt (NetResponse (Some status) chunks) cb w
        = cb (Failure (Legacy.status_error status)) w)
  /\ Legacy.httpsGetJsonPromise rt (NetResponse (Some status) chunks)
     = Some (Failure (Legacy.status_error status))
  /\ message (Legacy.status_error status)
     = "Request failed. Status code: " +:+ show_nat status.
Proof.
  intros H. pose proof (error_status_ge status H) as Hs.
  assert (Hnew : HttpClient.outcome rt (NetResponse (Some status) chunks)
                 = Failure (HttpClient.http_error status (body_of chunks)))
    by (unfold HttpClient.outcome; now rewrite Hs).
  assert (Hold : Legacy.outcome rt (NetResponse (Some status) chunks)
                 = Failure (Legacy.status_error status))
    by (unfold Legacy.outcome; now rewrite Hs).
  repeat split.
  - exists (HttpClient.http_error status (body_of chunks)). split; [|apply http_error_mentions].
    intros cb w. now apply httpGetJson_failure.
  - now rewrite httpGetJsonPromise_outcome, Hnew.
  - intros cb w. now apply httpsGetJson_failure.
  - now rewrite httpsGetJsonPromise_outcome, Hold.
Qed.

Lemma C1_error_status_failure_witness :
  400 <= 503
  /\ reports_status_and_body (HttpClient.httpGetJson sample_runtime) 503 ["Service "; "Unavailable"].
Proof.
  split; [lia|].
  apply (C1_error_status_failure sample_runtime 503 ["Service "; "Unavailable"]). lia.
Defined.

(** ** Success statuses (C2) *)

(** When the callback returns normally from its call with the parsed
    payload, that call is the only one. *)
Lemma httpGetJson_once_when_callback_returns rt r v cb w :
  HttpClient.outcome rt r = Success v ->
  (forall e w', cb (Success v) w <> (Throw e, w')) ->
  HttpClient.httpGetJson rt r cb w = cb (Success v) w.
Proof.
  intros H Hreturns. rewrite (httpGetJson_success rt cb r v w H).
  unfold try_catch. destruct (cb (Success v) w) as [[a|e|] w'] eqn:E; try reflexivity.
  now elim (Hreturns e w').
Qed.

(** When it throws, the [catch] meant for the parse error calls it a
    second time, with what it threw. *)
Lemma httpGetJson_again_when_callback_throws rt r v cb w e w' :
  HttpClient.outcome rt r = Success v ->
  cb (Success v) w = (Throw e, w') ->
  HttpClient.httpGetJson rt r cb w = cb (Failure e) w'.
Proof.
  intros H Hthrows. rewrite (httpGetJson_success rt cb r v w H).
  unfold try_catch. now rewrite Hthrows.
Qed.

(** The promise variants settle exactly once, after the last chunk, with
    the parse of the whole body. *)
Lemma httpGetJsonPromise_parses_whole_body rt sc chunks :
  error_status sc = None ->
  snd (fold_left (HttpClient.httpGetJsonPromise_step rt)
                 (EvResponse sc :: map EvData chunks) (AwaitingResponse, None)) = None
  /\ HttpClient.httpGetJsonPromise rt (NetResponse sc chunks)
     = Some match JSON_parse rt (body_of chunks) with
            | inl parsedData => Success parsedData
            | inr parseError => Failure parseError
            end.
Proof.
  intros H. split; [apply httpGetJsonPromise_before_end|].
  rewrite httpGetJsonPromise_outcome. unfold HttpClient.outcome. now rewrite H.
Qed.

(** C2 fails on the callback-style primitive: the response [200] whose
    body, in two chunks, is [{"articles":[null]}] is well-formed JSON,
    yet the news callback of callbackController.ts is called twice for
    it, first with the payload (it prints the headline banner and throws
    on the [null] article) and then with a failure (it prints the error):
    two outcomes are produced for one response. *)
Theorem C2_callback_called_twice :
  body_of ["{" +:+ dq +:+ "articles"; dq +:+ ":[null]}"] = null_article_text
  /\ JSON_parse sample_runtime null_article_text = inl null_article_payload
  /\ HttpClient.httpGetJson sample_runtime
       (ok ["{" +:+ dq +:+ "articles"; dq +:+ ":[null]}"])
       (CallbackController.on_news sample_runtime) world0
     = (Normal tt,
        mkWorld [out (nl +:+ "[Callback] 📰  Top News Headlines:");
                 err "❌  Error [News Fetch]: Cannot read properties of null (reading 'title')"]
                [] [] None).
Proof. repeat split; vm_compute; reflexivity. Qed.

(** ** What a piece of code may touch *)

#[global] Instance process_frame_preorder : PreOrder process_frame.
Proof.
  split.
  - intros w. split; reflexivity.
  - intros w1 w2 w3 [H1 H2] [H3 H4]. split; congruence.
Qed.

#[global] Instance request_frame_preorder : PreOrder request_frame.
Proof.
  split.
  - intros w. split; reflexivity.
  - intros w1 w2 w3 [H1 H2] [H3 H4]. split; [congruence | now transitivity w2].
Qed.

Section Preserves.
Context (R : relation World) `{!PreOrder R}.

Lemma preserves_ret {A} (a : A) : preserves R (mret a : Js A).
Proof. intros w. reflexivity. Qed.

Lemma preserves_lift {A} (c : Completion A) : preserves R (lift c).
Proof. intros w. reflexivity. Qed.

Lemma preserves_throw {A} (e : JsError) : preserves R (throw e : Js A).
Proof. intros w. reflexivity. Qed.

Lemma preserves_await {A} (p : option (A + JsError)) : preserves R (await p).
Proof. destruct p as [[a|e]|]; intros w; reflexivity. Qed.

Lemma preserves_bind {A B} (m : Js A) (k : A -> Js B) :
  preserves R m -> (forall a, preserves R (k a)) -> preserves R (m ≫= k).
Proof.
  intros Hm Hk w. unfold mbind, Js_bind, js_bind.
  specialize (Hm w). destruct (m w) as [[a|e|] w1]; simpl in *; try exact Hm.
  transitivity w1; [exact Hm | apply Hk].
Qed.

Lemma preserves_try_catch {A} (body : Js A) (handler : JsError -> Js A) :
  preserves R body -> (forall e, preserves R (handler e)) ->
  preserves R (try_catch body handler).
Proof.
  intros Hb Hh w. unfold try_catch.
  specialize (Hb w). destruct (body w) as [[a|e|] w1]; simpl in *; try exact Hb.
  transitivity w1; [exact Hb | apply Hh].
Qed.

Lemma preserves_try_finally {A} (body : Js A) (final : Js unit) :
  preserves R body -> preserves R final -> preserves R (try_finally body final).
Proof.
  intros Hb Hf w. unfold try_finally.
  specialize (Hb w). destruct (body w) as [c w1]; simpl in *.
  specialize (Hf w1).
  destruct c; destruct (final w1) as [[[]|e'|] w2]; simpl in *;
    try exact Hb; now transitivity w1.
Qed.

Lemma preserves_forEach_from (items : list Value) (f : Value -> nat -> Js unit) (index : nat) :
  (forall item i, preserves R (f item i)) -> preserves R (View.forEach_from index items f).
Proof.
  intros Hf. revert index. induction items as [|item rest IH]; intros index; simpl.
  - apply preserves_ret.
  - apply preserves_bind; [apply Hf | intros _; apply IH].
Qed.

Lemma preserves_then_catch {A} (p : option (A + JsError)) onFulfilled onRejected :
  (forall a, preserves R (onFulfilled a)) -> (forall e, preserves R (onRejected e)) ->
  preserves R (then_catch p onFulfilled onRejected).
Proof.
  intros Hf Hr. destruct p as [[a|e]|]; simpl.
  - now apply preserves_try_catch.
  - apply Hr.
  - apply preserves_ret.
Qed.

End Preserves.

Lemma emit_console_only (l : Line) : console_only (emit l).
Proof. intros w. repeat split. Qed.

Lemma issue_quiet (r : Request) (h : Handler) : quiet (issue r h).
Proof. intros w. split; reflexivity. Qed.

Lemma console_only_quiet {A} (m : Js A) : console_only m -> quiet m.
Proof. intros H w. exact (proj2 (H w)). Qed.

(** One step of a frame proof, on a goal [preserves R m]. *)
Ltac frame_step :=
  first
    [ progress intros
    | apply preserves_bind | apply preserves_ret | apply preserves_lift
    | apply preserves_throw | apply preserves_await
    | apply preserves_try_catch | apply preserves_try_finally
    | apply preserves_forEach_from | apply preserves_then_catch
    | apply emit_console_only | apply (console_only_quiet _ (emit_console_only _))
    | apply issue_quiet
    | match goal with
      | |- PreOrder _ => exact _
      | H : context [preserves] |- preserves _ _ => apply H
      | |- preserves _ (if ?b then _ else _) => destruct b
      | |- preserves _ (match ?x with _ => _ end) => destruct x
      end ].

Ltac frame_tac := unfold quiet, console_only in *; repeat frame_step.

Lemma displayHeader_console_only version : console_only (View.displayHeader version).
Proof. unfold View.displayHeader, console_log. frame_tac. Qed.

Lemma displayFooter_console_only version : console_only (View.displayFooter version).
Proof. unfold View.displayFooter, console_log. frame_tac. Qed.

Lemma displayError_console_only context error : console_only (View.displayError context error).
Proof. unfold View.displayError, console_error. frame_tac. Qed.

Lemma displayWeather_console_only data label : console_only (View.displayWeather data label).
Proof. unfold View.displayWeather, console_log, interp. frame_tac. Qed.

Lemma displayNews_console_only rt articles label :
  console_only (View.displayNews rt articles label).
Proof. unfold View.displayNews, View.forEach, console_log, interp. frame_tac. Qed.

(** Frame proofs over code that calls the view. *)
Ltac frame_view :=
  unfold quiet, console_only in *;
  repeat first
    [ apply displayHeader_console_only | apply displayFooter_console_only
    | apply displayError_console_only | apply displayWeather_console_only
    | apply displayNews_console_only
    | apply (console_only_quiet _ (displayHeader_console_only _))
    | apply (console_only_quiet _ (displayFooter_console_only _))
    | apply (console_only_quiet _ (displayError_console_only _ _))
    | apply (console_only_quiet _ (displayWeather_console_only _ _))
    | apply (console_only_quiet _ (displayNews_console_only _ _ _))
    | frame_step ].

Lemma safe_displayError context error : safe (View.displayError context error).
Proof. intros w e w'. discriminate. Qed.

(** A handler chain that ends in a [catch] which cannot throw is safe. *)
Lemma safe_then_catch {A} (p : option (A + JsError)) onFulfilled onRejected :
  (forall e, safe (onRejected e)) -> safe (then_catch p onFulfilled onRejected).
Proof.
  intros Hc w e w'. destruct p as [[a|e0]|]; simpl.
  - unfold try_catch. destruct (onFulfilled a w) as [[[]|e1|] w1]; try discriminate.
    apply Hc.
  - apply Hc.
  - discriminate.
Qed.

(** A reaction that is safe and quiet leaves no unhandled rejection. *)
Lemma run_reaction_clean (job : Js unit) (w : World) :
  safe job -> quiet job ->
  unhandled (run_reaction job w) = unhandled w /\ uncaught (run_reaction job w) = uncaught w.
Proof.
  intros Hs Hq. unfold run_reaction. specialize (Hq w).
  destruct (job w) as [[[]|e|] w'] eqn:E; simpl in *; try exact Hq.
  now elim (Hs w e w').
Qed.

Lemma event_loop_step fuel fetch dispatch net i w :
  event_loop (S fuel) fetch dispatch net i w
  = match issued w !! i with
    | None => w
    | Some (_, h) =>
        event_loop fuel fetch dispatch net (S i) (run_task (fetch (net i) (dispatch h)) w)
    end.
Proof. reflexivity. Qed.

(** ** Sequential orchestration by callbacks (C3) *)

(** C3: in the sequential orchestrators, when the first fetch yields a
    failure the run issues that one request only (the news fetch and the
    second weather fetch are never invoked) and prints, after its
    banner, the first stage's error and nothing else. *)
Theorem C3_first_failure_stops_the_run (rt : Runtime) (net : nat -> NetResult) (e : JsError) :
  (HttpClient.outcome rt (net 0) = Failure e ->
   CallbackController.run rt net
   = mkWorld (header_lines "Callback"
              ++ [err ("❌  Error [Weather Fetch]: " +:+ message e)])
             [(Model.weatherRequest, OnWeather)] [] None)
  /\ (Legacy.outcome rt (net 0) = Failure e ->
      CallbackVersion.run rt net
      = mkWorld [out "=== Callback Version ===";
                 mkLine Stderr [VStr "Weather error (callback):"; VStr (message e)]]
                [(mkRequest CallbackVersion.weatherUrl ∅, LegacyOnWeather)] [] None).
Proof.
  split; intros H.
  - unfold CallbackController.run. rewrite event_loop_step.
    change (issued (run_task CallbackController.main world0) !! 0)
      with (Some (Model.weatherRequest, OnWeather)).
    cbv iota beta. unfold run_task at 1.
    change (uncaught (run_task CallbackController.main world0)) with (@None JsError).
    cbv iota. rewrite (httpGetJson_failure rt _ _ e _ H).
    reflexivity.
  - unfold CallbackVersion.run. rewrite event_loop_step.
    change (issued (run_task CallbackVersion.main world0) !! 0)
      with (Some (mkRequest CallbackVersion.weatherUrl ∅, LegacyOnWeather)).
    cbv iota beta. unfold run_task at 1.
    change (uncaught (run_task CallbackVersion.main world0)) with (@None JsError).
    cbv iota. rewrite (httpsGetJson_failure rt _ _ e _ H).
    reflexivity.
Qed.

Lemma C3_first_failure_stops_the_run_witness :
  HttpClient.outcome sample_runtime
    (scripted [NetFailed (Error "getaddrinfo ENOTFOUND api.open-meteo.com")] 0)
  = Failure (Error "getaddrinfo ENOTFOUND api.open-meteo.com")
  /\ requested (CallbackController.run sample_runtime
                  (scripted [NetFailed (Error "getaddrinfo ENOTFOUND api.open-meteo.com")]))
     = [Model.weatherUrl]
  /\ requested (CallbackVersion.run sample_runtime
                  (scripted [NetFailed (Error "getaddrinfo ENOTFOUND api.open-meteo.com")]))
     = [CallbackVersion.weatherUrl].
Proof.
  pose proof (C3_first_failure_stops_the_run sample_runtime
                (scripted [NetFailed (Error "getaddrinfo ENOTFOUND api.open-meteo.com")])
                (Error "getaddrinfo ENOTFOUND api.open-meteo.com")) as [Hnew Hold].
  split; [reflexivity|]. split.
  - rewrite (Hnew eq_refl). reflexivity.
  - rewrite (Hold eq_refl). reflexivity.
Defined.

(** ** Parallel-all (C4) *)

Lemma schedule_of_two (schedule : list nat) :
  schedule ≡ₚ [0; 1] -> schedule = [0; 1] \/ schedule = [1; 0].
Proof. intros H. symmetry in H. now apply Permutation_length_2_inv in H. Qed.

(** [Promise.all] over two settled fetches computes the combination rule,
    in either order of settlement. *)
Lemma promise_all_pair (o1 o2 : Outcome) (schedule : list nat) :
  schedule ≡ₚ [0; 1] ->
  promise_all [Some o1; Some o2] schedule = Some (combined o1 o2 (hd 0 schedule)).
Proof.
  intros H. destruct (schedule_of_two schedule H) as [-> | ->];
    destruct o1, o2; reflexivity.
Qed.

(** While one of the two is still outstanding, the aggregate is pending
    unless the one that settled failed. *)
Lemma promise_all_waits (o1 o2 : Outcome) (k : nat) (v : Value) :
  pick o1 o2 k = Success v -> k < 2 ->
  promise_all [Some o1; Some o2] [k] = None.
Proof.
  intros H Hk. destruct k as [|[|k]]; [| |lia]; unfold pick in H; simpl in H; subst;
    reflexivity.
Qed.

(** C4: in the parallel-all orchestrators ([Promise.all] of
    promiseController.ts and of [run] in asyncController.ts), for every
    pair of fetch outcomes and either order of completion, the aggregate
    is the pair in (first-request, second-request) order when both
    succeed, and otherwise the failure, the first one observed when both
    fail; the handlers receive exactly that aggregate. *)
Theorem C4_parallel_all_aggregate (rt : Runtime) (net : nat -> NetResult)
        (schedule : list nat) (w : World) :
  schedule ≡ₚ [0; 1] ->
  let i := length (issued w) in
  let aggregate :=
    combined (HttpClient.outcome rt (net i)) (HttpClient.outcome rt (net (S i)))
             (hd 0 schedule) in
  let w2 := snd ((Model.getWeatherPromise;; Model.getNewsPromise) w) in
  promise_all [Model.promise rt net i; Model.promise rt net (S i)] schedule = Some aggregate
  /\ PromiseController.parallel_all rt net schedule w
     = then_catch (Some aggregate) (PromiseController.on_all_fulfilled rt)
                  PromiseController.on_all_rejected w2
  /\ AsyncController.parallel_stage rt net schedule w
     = (vals ← await (Some aggregate); AsyncController.display_results rt vals) w2.
Proof.
  intros H i aggregate w2.
  assert (Hall : promise_all [Model.promise rt net i; Model.promise rt net (S i)] schedule
                 = Some aggregate).
  { unfold Model.promise. rewrite !httpGetJsonPromise_outcome. now apply promise_all_pair. }
  split; [exact Hall|]. split.
  - unfold PromiseController.parallel_all, Model.getWeatherPromise, Model.getNewsPromise.
    unfold mbind, Js_bind, js_bind, issue. simpl.
    rewrite length_app, Nat.add_1_r. fold i. rewrite Hall. reflexivity.
  - unfold AsyncController.parallel_stage, Model.getWeatherPromise, Model.getNewsPromise.
    unfold mbind, Js_bind, js_bind, issue. simpl.
    rewrite length_app, Nat.add_1_r. fold i. rewrite Hall. reflexivity.
Qed.

Lemma C4_parallel_all_aggregate_witness :
  [1; 0] ≡ₚ [0; 1]
  /\ promise_all [Model.promise sample_runtime (scripted [ok [weather_text]; ok [news_text]]) 0;
                  Model.promise sample_runtime (scripted [ok [weather_text]; ok [news_text]]) 1]
                 [1; 0]
     = Some (inl [weather_payload; news_payload]).
Proof.
  split; [apply perm_swap|].
  apply (C4_parallel_all_aggregate sample_runtime
           (scripted [ok [weather_text]; ok [news_text]]) [1; 0] world0).
  apply perm_swap.
Defined.

(** ** Race (C5) *)

Lemma safe_bind {A B} (m : Js A) (k : A -> Js B) :
  safe m -> (forall a, safe (k a)) -> safe (m ≫= k).
Proof.
  intros Hm Hk w e w'. unfold mbind, Js_bind, js_bind.
  destruct (m w) as [[a|e0|] w1] eqn:E.
  - apply Hk.
  - now elim (Hm w e0 w1).
  - discriminate.
Qed.

Lemma safe_issue (r : Request) (h : Handler) : safe (issue r h).
Proof. intros w e w'. discriminate. Qed.

(** Once the race has settled, later settlements change nothing. *)
Lemma promise_race_settled (inputs : list (option Outcome)) (rest : list nat)
      (r : Value + JsError) :
  fold_left (fun st k => match inputs !! k with
                         | Some (Some o) => race_settle o st
                         | _ => st
                         end) rest (Some r)
  = Some r.
Proof.
  induction rest as [|k rest IH]; simpl; [reflexivity|].
  destruct (inputs !! k) as [[[v|e]|]|]; simpl; exact IH.
Qed.

(** The first input to settle decides the race, by success or failure
    alike; what settles later is ignored. *)
Lemma promise_race_first_wins (inputs : list (option Outcome)) (k : nat) (o : Outcome)
      (rest : list nat) :
  inputs !! k = Some (Some o) ->
  promise_race inputs (k :: rest) = promise_state (Some o).
Proof.
  intros H. unfold promise_race. simpl. rewrite H.
  destruct o as [v|e]; simpl; apply promise_race_settled.
Qed.

Lemma pair_lookup (o0 o1 : Outcome) (schedule : list nat) :
  schedule ≡ₚ [0; 1] ->
  exists loser, schedule = [hd 0 schedule; loser]
    /\ [Some o0; Some o1] !! hd 0 schedule = Some (Some (pick o0 o1 (hd 0 schedule))).
Proof.
  intros H. destruct (schedule_of_two schedule H) as [-> | ->]; simpl.
  - now exists 1.
  - now exists 0.
Qed.

Lemma quiet_on_race_fulfilled rt firstResult :
  quiet (PromiseController.on_race_fulfilled rt firstResult).
Proof.
  unfold PromiseController.on_race_fulfilled, console_log.
  frame_view.
Qed.

Lemma quiet_legacy_on_race_fulfilled first :
  quiet (PromiseVersion.on_race_fulfilled first).
Proof.
  unfold PromiseVersion.on_race_fulfilled, console_log, console_log_args.
  frame_tac.
Qed.

(** C5: the race orchestrators ([Promise.race] of promiseController.ts
    and of promiseVersion.ts) settle with the outcome of whichever fetch
    settles first, a failure counting like a success; the settlement of
    the other fetch changes nothing at all (the run is the same as when
    the loser never settles, so its outcome is neither awaited nor
    rendered), and no rejection is left unhandled. *)
Theorem C5_race_settles_with_first (rt : Runtime) (net : nat -> NetResult)
        (schedule : list nat) (w : World) :
  schedule ≡ₚ [0; 1] ->
  let i := length (issued w) in
  let first := hd 0 schedule in
  (PromiseController.race rt net schedule w
   = then_catch
       (promise_state
          (Some (pick (HttpClient.outcome rt (net i)) (HttpClient.outcome rt (net (S i))) first)))
       (PromiseController.on_race_fulfilled rt) PromiseController.on_race_rejected
       (snd ((Model.getWeatherPromise;; Model.getNewsPromise) w))
   /\ PromiseController.race rt net schedule w = PromiseController.race rt net [first] w
   /\ unhandled (PromiseController.run_race rt net schedule) = []
   /\ uncaught (PromiseController.run_race rt net schedule) = None)
  /\ (PromiseVersion.race rt net schedule w
      = then_catch
          (promise_state
             (Some (pick (Legacy.outcome rt (net i)) (Legacy.outcome rt (net (S i))) first)))
          PromiseVersion.on_race_fulfilled PromiseVersion.on_race_rejected
          (snd ((PromiseVersion.get CallbackVersion.weatherUrl;;
                 PromiseVersion.get CallbackVersion.newsUrl) w))
      /\ PromiseVersion.race rt net schedule w = PromiseVersion.race rt net [first] w
      /\ unhandled (PromiseVersion.run_race rt net schedule) = []
      /\ uncaught (PromiseVersion.run_race rt net schedule) = None).
Proof.
  intros H i first. split.
  - destruct (pair_lookup (HttpClient.outcome rt (net i)) (HttpClient.outcome rt (net (S i)))
                          schedule H) as [loser [Hs Hk]].
    fold first in Hs, Hk.
    assert (Hrace : forall rest,
               promise_race [Model.promise rt net i; Model.promise rt net (S i)] (first :: rest)
               = promise_state
                   (Some (pick (HttpClient.outcome rt (net i))
                               (HttpClient.outcome rt (net (S i))) first))).
    { intros rest. apply promise_race_first_wins.
      unfold Model.promise. now rewrite !httpGetJsonPromise_outcome. }
    assert (Hrun : forall rest,
               PromiseController.race rt net (first :: rest) w
               = then_catch
                   (promise_state
                      (Some (pick (HttpClient.outcome rt (net i))
                                  (HttpClient.outcome rt (net (S i))) first)))
                   (PromiseController.on_race_fulfilled rt) PromiseController.on_race_rejected
                   (snd ((Model.getWeatherPromise;; Model.getNewsPromise) w))).
    { intros rest.
      unfold PromiseController.race, Model.getWeatherPromise, Model.getNewsPromise.
      unfold mbind, Js_bind, js_bind, issue. simpl.
      rewrite length_app, Nat.add_1_r. fold i. now rewrite Hrace. }
    split; [rewrite Hs; apply Hrun|].
    split; [rewrite Hs at 1; now rewrite !Hrun|].
    apply (run_reaction_clean (PromiseController.race rt net schedule)).
    + unfold PromiseController.race.
      apply safe_bind; [apply safe_issue|]. intros p.
      apply safe_bind; [apply safe_issue|]. intros q.
      apply safe_then_catch. intros e. apply safe_displayError.
    + unfold PromiseController.race, Model.getWeatherPromise, Model.getNewsPromise.
      apply preserves_bind; [exact _ | apply issue_quiet | intros p].
      apply preserves_bind; [exact _ | apply issue_quiet | intros q].
      apply preserves_then_catch; [exact _ | apply quiet_on_race_fulfilled |].
      intros e. apply (console_only_quiet _ (displayError_console_only _ _)).
  - destruct (pair_lookup (Legacy.outcome rt (net i)) (Legacy.outcome rt (net (S i)))
                          schedule H) as [loser [Hs Hk]].
    fold first in Hs, Hk.
    assert (Hrace : forall rest,
               promise_race [PromiseVersion.promise rt net i; PromiseVersion.promise rt net (S i)]
                            (first :: rest)
               = promise_state
                   (Some (pick (Legacy.outcome rt (net i))
                               (Legacy.outcome rt (net (S i))) first))).
    { intros rest. apply promise_race_first_wins.
      unfold PromiseVersion.promise. now rewrite !httpsGetJsonPromise_outcome. }
    assert (Hrun : forall rest,
               PromiseVersion.race rt net (first :: rest) w
               = then_catch
                   (promise_state
                      (Some (pick (Legacy.outcome rt (net i))
                                  (Legacy.outcome rt (net (S i))) first)))
                   PromiseVersion.on_race_fulfilled PromiseVersion.on_race_rejected
                   (snd ((PromiseVersion.get CallbackVersion.weatherUrl;;
                          PromiseVersion.get CallbackVersion.newsUrl) w))).
    { intros rest.
      unfold PromiseVersion.race, PromiseVersion.get.
      unfold mbind, Js_bind, js_bind, issue. simpl.
      rewrite length_app, Nat.add_1_r. fold i. now rewrite Hrace. }
    split; [rewrite Hs; apply Hrun|].
    split; [rewrite Hs at 1; now rewrite !Hrun|].
    apply (run_reaction_clean (PromiseVersion.race rt net schedule)).
    + unfold PromiseVersion.race.
      apply safe_bind; [apply safe_issue|]. intros p.
      apply safe_bind; [apply safe_issue|]. intros q.
      apply safe_then_catch. intros e w0 e0 w'. discriminate.
    + unfold PromiseVersion.race, PromiseVersion.get.
      apply preserves_bind; [exact _ | apply issue_quiet | intros p].
      apply preserves_bind; [exact _ | apply issue_quiet | intros q].
      apply preserves_then_catch; [exact _ | apply quiet_legacy_on_race_fulfilled |].
      intros e. unfold PromiseVersion.on_race_rejected, console_error_args. frame_tac.
Qed.

Lemma C5_race_settles_with_first_witness :
  [1; 0] ≡ₚ [0; 1]
  /\ PromiseController.race sample_runtime
       (scripted [NetFailed (Error "socket hang up"); ok [news_text]]) [1; 0] world0
     = PromiseController.race sample_runtime
         (scripted [NetFailed (Error "socket hang up"); ok [news_text]]) [1] world0
  /\ unhandled (PromiseController.run_race sample_runtime
                  (scripted [NetFailed (Error "socket hang up"); ok [news_text]]) [1; 0]) = [].
Proof.
  pose proof (C5_race_settles_with_first sample_runtime
                (scripted [NetFailed (Error "socket hang up"); ok [news_text]])
                [1; 0] world0 (perm_swap 0 1 [])) as [[_ [Hsame [Hclean _]]] _].
  split; [apply perm_swap|]. split; [exact Hsame | exact Hclean].
Defined.

(** ** The supplementary fetch (C6) *)

(** C6: in [run] of asyncController.ts, when the parallel fetch and its
    display completed and the additional weather fetch then fails, the
    run keeps every line printed so far, adds the error of the
    additional fetch and then its footer, and completes normally: the
    outer [catch] is not entered. *)
Theorem C6_supplementary_failure_is_local (rt : Runtime) (net : nat -> NetResult)
        (schedule : list nat) (w12 : World) (e : JsError) :
  AsyncController.parallel_stage rt net schedule
    (snd (View.displayHeader AsyncController.VERSION world0)) = (Normal tt, w12) ->
  HttpClient.outcome rt (net (length (issued w12))) = Failure e ->
  AsyncController.run_body rt net schedule world0
  = (Normal tt,
     mkWorld (console w12
              ++ [err ("❌  Error [Additional Weather Fetch]: " +:+ message e)]
              ++ footer_lines AsyncController.VERSION)
             (issued w12 ++ [(Model.weatherRequest, SettlePromise)])
             (unhandled w12) (uncaught w12)).
Proof.
  intros H12 He.
  unfold AsyncController.run_body.
  unfold mbind at 1. unfold Js_bind, js_bind.
  destruct (View.displayHeader AsyncController.VERSION world0) as [c wh] eqn:Eh.
  assert (c = Normal tt) as -> by (now inversion Eh).
  simpl in H12.
  unfold try_finally, try_catch, AsyncController.fetch_and_display.
  unfold mbind at 1. unfold Js_bind, js_bind. rewrite H12.
  unfold AsyncController.additional_fetch, try_catch, Model.getWeatherPromise.
  unfold mbind, Js_bind, js_bind, issue. simpl.
  unfold Model.promise. rewrite httpGetJsonPromise_outcome, He. simpl.
  unfold footer_lines. simpl. rewrite <- !app_assoc. reflexivity.
Qed.

Lemma C6_supplementary_failure_is_local_witness :
  let net := scripted [ok [weather_text]; ok [news_text]; NetFailed (Error "read ECONNRESET")] in
  let w12 := snd (AsyncController.parallel_stage sample_runtime net [0; 1]
                    (snd (View.displayHeader AsyncController.VERSION world0))) in
  HttpClient.outcome sample_runtime (net (length (issued w12)))
  = Failure (Error "read ECONNRESET")
  /\ lines (AsyncController.run sample_runtime net [0; 1])
     = console w12
       ++ [err "❌  Error [Additional Weather Fetch]: read ECONNRESET"]
       ++ footer_lines AsyncController.VERSION.
Proof.
  intros net w12.
  assert (H12 : AsyncController.parallel_stage sample_runtime net [0; 1]
                  (snd (View.displayHeader AsyncController.VERSION world0))
                = (Normal tt, w12)) by (vm_compute; reflexivity).
  assert (He : HttpClient.outcome sample_runtime (net (length (issued w12)))
               = Failure (Error "read ECONNRESET")) by (vm_compute; reflexivity).
  split; [exact He|].
  unfold AsyncController.run, run_reaction.
  rewrite (C6_supplementary_failure_is_local sample_runtime net [0; 1] w12 _ H12 He).
  reflexivity.
Defined.

(** ** The unclassified race winner (C8) *)

(** What the two race handlers do with a winner that has neither a
    truthy [current_weather] nor a truthy [articles] or [posts]: both
    take neither the weather branch nor the news branch and complete
    normally.  In promiseVersion.ts the final [else] renders the payload
    as [Race winner:]; in promiseController.ts, whose [if]/[else if]
    has no final [else], the section banner is all that is printed, the
    same one line whatever the payload. *)
Lemma unclassified_winner_output (rt : Runtime) (firstResult : Value) (w : World) :
  truthy (opt_get firstResult "current_weather") = false ->
  truthy (opt_get firstResult "articles") = false ->
  truthy (opt_get firstResult "posts") = false ->
  PromiseController.on_race_fulfilled rt firstResult w
  = (Normal tt,
     printed [out (nl +:+ "--- Promise.race() Winner (First Response) ---")] w)
  /\ PromiseVersion.on_race_fulfilled firstResult w
     = (Normal tt,
        printed [out "--- Promise.race winner (first resolved) ---";
                 mkLine Stdout [VStr "Race winner:"; firstResult]] w).
Proof.
  intros Hw Ha Hp. split.
  - unfold PromiseController.on_race_fulfilled. rewrite Hw, Ha. reflexivity.
  - unfold PromiseVersion.on_race_fulfilled. rewrite Hw, Hp.
    unfold printed. cbv [mbind Js_bind js_bind console_log console_log_args emit console
                         issued unhandled uncaught out].
    now rewrite <- app_assoc.
Qed.

(** C8 fails in promiseController.ts: an unclassified winner is not
    rendered.  When the weather API answers [{}] first, a payload with
    neither [current_weather] nor [articles] or [posts], the race of
    promiseVersion.ts prints its banner and the payload as
    [Race winner:], but the race of promiseController.ts prints, after
    the header, only the section banner: the line its [then] handler
    prints before it looks at the payload, the same for any other
    unclassified payload and also the first line for a weather payload.
    Neither run crashes or leaves a rejection. *)
Theorem C8_controller_renders_nothing :
  JSON_parse sample_runtime "{}" = inl (VObj [])
  /\ lines (PromiseVersion.run_race sample_runtime (scripted [ok ["{}"]; ok [news_text]]) [0; 1])
     = [out "=== Promise Version ===";
        out "--- Promise.race winner (first resolved) ---";
        mkLine Stdout [VStr "Race winner:"; VObj []]]
  /\ PromiseController.run_race sample_runtime (scripted [ok ["{}"]; ok [news_text]]) [0; 1]
     = mkWorld (header_lines "Promise"
                ++ [out (nl +:+ "--- Promise.race() Winner (First Response) ---")])
               parallel_requests [] None
  /\ PromiseController.on_race_fulfilled sample_runtime
       (VObj [("status", VStr "maintenance")]) world0
     = PromiseController.on_race_fulfilled sample_runtime (VObj []) world0
  /\ PromiseController.on_race_fulfilled sample_runtime (VNum "42") world0
     = PromiseController.on_race_fulfilled sample_runtime (VObj []) world0
  /\ hd_error (lines (snd (PromiseController.on_race_fulfilled sample_runtime
                              weather_payload world0)))
     = Some (out (nl +:+ "--- Promise.race() Winner (First Response) ---")).
Proof. repeat split; vm_compute; reflexivity. Qed.

(** ** The view (C9) *)

Lemma get_member_defined (v : Value) (k : string) :
  nullish v = false -> get_member v k = Normal (get_prop v k).
Proof. destruct v; simpl; intros H; try discriminate; reflexivity. Qed.

Lemma truthy_not_nullish (v : Value) : truthy v = true -> nullish v = false.
Proof. destruct v; simpl; intros H; try discriminate; reflexivity. Qed.

Lemma printable_to_string (v : Value) :
  printable v = true -> exists s, to_string v = Normal s.
Proof. unfold printable. destruct (to_string v) as [s| |]; try discriminate. now exists s. Qed.

(** [forEach] over renderable articles completes. *)
Lemma forEach_renderable (items : list Value) (index : nat) (w : World) :
  forallb renderable_article items = true ->
  exists w',
    View.forEach_from index items
      (fun article index =>
         title ← lift (get_member article "title");
         t ← interp title;
         console_log ("   " +:+ show_nat (index + 1) +:+ ". " +:+ t)) w
    = (Normal tt, w').
Proof.
  revert index w. induction items as [|item rest IH]; intros index w H.
  - now exists w.
  - simpl in H. apply andb_prop in H as [Hitem Hrest].
    unfold renderable_article in Hitem. apply andb_prop in Hitem as [Hnn Hp].
    apply negb_true_iff in Hnn. destruct (printable_to_string _ Hp) as [s Hs].
    simpl. unfold mbind at 1. unfold Js_bind, js_bind at 1.
    unfold mbind, Js_bind, js_bind, lift, interp at 1.
    rewrite (get_member_defined item "title" Hnn).
    unfold lift at 1. rewrite Hs. simpl.
    apply IH. exact Hrest.
Qed.

(** C9 as stated fails on a run-time input: an article list whose only
    element is [null] makes [displayNews] throw after the banner. *)
Lemma C9_displayNews_throws_on_null_article :
  View.displayNews sample_runtime (VArr [VNull]) "Callback" world0
  = (Throw (TypeError "Cannot read properties of null (reading 'title')"),
     mkWorld [out (nl +:+ "[Callback] 📰  Top News Headlines:")] [] [] None).
Proof. vm_compute. reflexivity. Qed.

(** C9, amended: on every input that has the shape its parameter type
    declares (an array of non-null articles whose titles can be
    rendered; a payload whose [current_weather], when present, has
    renderable [temperature] and [windspeed]; any error) the display
    functions complete without throwing; an empty article array renders
    the "No news articles available." notice and a payload without
    [current_weather] (or no payload at all) renders the "Weather data
    unavailable." notice. *)
Theorem C9_display_on_declared_inputs (rt : Runtime) (label : string) (w : World) :
  View.displayNews rt (VArr []) label w
  = console_log (View.prefix_of label +:+ "⚠️  No news articles available.") w
  /\ (forall data, truthy (opt_get data "current_weather") = false ->
      View.displayWeather data label w
      = console_log (View.prefix_of label +:+ "⚠️  Weather data unavailable.") w)
  /\ (forall items, forallb renderable_article items = true ->
      exists w', View.displayNews rt (VArr items) label w = (Normal tt, w'))
  /\ (forall data, renderable_weather data = true ->
      exists w', View.displayWeather data label w = (Normal tt, w'))
  /\ (forall context error,
      exists w', View.displayError context error w = (Normal tt, w'))
  /\ (exists w', View.displayHeader label w = (Normal tt, w'))
  /\ (exists w', View.displayFooter label w = (Normal tt, w')).
Proof.
  split; [reflexivity|].
  split; [intros data H; unfold View.displayWeather; now rewrite H|].
  split.
  { intros items H. unfold View.displayNews.
    destruct items as [|item rest]; [eexists; reflexivity|].
    change (View.length_positive rt (VArr (item :: rest))) with (Normal true).
    unfold View.forEach.
    match goal with
    | |- context [View.forEach_from 0 ?l ?f] =>
        destruct (forEach_renderable l 0
                    (snd (console_log
                            (nl +:+ View.prefix_of label +:+ "📰  Top News Headlines:") w)) H)
          as [w' Hw']
    end.
    exists w'. rewrite <- Hw'. reflexivity. }
  split.
  { intros data H. unfold renderable_weather in H. unfold View.displayWeather.
    destruct (truthy (opt_get data "current_weather")) eqn:Ht; [|eexists; reflexivity].
    simpl in H. apply andb_prop in H as [Hp1 Hp2].
    destruct (printable_to_string _ Hp1) as [s1 Hs1].
    destruct (printable_to_string _ Hp2) as [s2 Hs2].
    rewrite (get_member_defined _ "temperature" (truthy_not_nullish _ Ht)).
    rewrite (get_member_defined _ "windspeed" (truthy_not_nullish _ Ht)).
    unfold mbind, Js_bind, js_bind, lift, interp, console_log, emit.
    rewrite Hs1, Hs2. eexists; reflexivity. }
  split; [intros; eexists; reflexivity|].
  split; eexists; reflexivity.
Qed.

Lemma C9_display_on_declared_inputs_witness :
  forallb renderable_article [VObj [("title", VStr "X")]; VObj [("title", VStr "Y")]] = true
  /\ renderable_weather weather_payload = true
  /\ (exists w', View.displayNews sample_runtime
                   (VArr [VObj [("title", VStr "X")]; VObj [("title", VStr "Y")]])
                   "Callback" world0 = (Normal tt, w'))
  /\ (exists w', View.displayWeather weather_payload "Callback" world0 = (Normal tt, w')).
Proof.
  split; [reflexivity|]. split; [reflexivity|].
  pose proof (C9_display_on_declared_inputs sample_runtime "Callback" world0)
    as (_ & _ & Hnews & Hweather & _).
  split; [apply Hnews; reflexivity | apply Hweather; reflexivity].
Defined.

(** ** A news payload without articles (C10) *)

Lemma coalesce_nullish (v d : Value) : nullish v = true -> coalesce v d = d.
Proof. unfold coalesce. now intros ->. Qed.

(** C10 as stated fails in callbackVersion.ts: for the news payload [{}]
    the run defaults [posts] to the empty array and goes on, but it
    prints its headline banner with nothing under it and no notice that
    there is no article. *)
Lemma C10_legacy_prints_no_notice :
  lines (CallbackVersion.run sample_runtime
           (scripted [ok [weather_text]; ok ["{}"]; ok [weather_text]]))
  = [out "=== Callback Version ===";
     mkLine Stdout [VStr "Weather (callback) received, temperature:"; VNum "22"];
     out "News (callback) received. Top headlines:";
     mkLine Stdout [VStr "Second weather fetch done (callback). Temp:"; VNum "22"];
     out "=== Callback Version Done ==="]
  /\ existsb is_empty_notice
       (lines (CallbackVersion.run sample_runtime
                 (scripted [ok [weather_text]; ok ["{}"]; ok [weather_text]])))
     = false.
Proof. split; vm_compute; reflexivity. Qed.

(** C10, amended: in the sequential and parallel-all orchestrators of
    the three controllers (the news callback of callbackController.ts,
    the chain and the [Promise.all] handler of promiseController.ts, and
    [run] of asyncController.ts) a successful news fetch whose payload
    has no [articles], whatever else it has, is displayed as the empty
    list, that is as the "No news articles available." notice, without
    throwing, and the run goes on; callbackVersion.ts defaults a payload
    without [posts], whatever else it has, to the empty list too, prints
    its headline banner with no headline under it and goes on. *)
Theorem C10_missing_articles_default (rt : Runtime) (newsData : Value) (w : World) :
  (nullish (opt_get newsData "articles") = true ->
   CallbackController.on_news rt (Success newsData) w
   = (console_log "[Callback] ⚠️  No news articles available.";;
      Model.getWeatherCallback OnSecondWeather) w
   /\ PromiseController.then_news rt newsData w
      = console_log "[Promise - Sequential] ⚠️  No news articles available." w
   /\ (forall weatherData,
         PromiseController.on_all_fulfilled rt [weatherData; newsData] w
         = (console_log (nl +:+ "--- Promise.all() Results (Parallel Fetch) ---");;
            View.displayWeather weatherData "Promise.all";;
            console_log "[Promise.all] ⚠️  No news articles available.") w)
   /\ (forall weatherData,
         AsyncController.display_results rt [weatherData; newsData] w
         = (View.displayWeather weatherData "Async/Await";;
            console_log "[Async/Await] ⚠️  No news articles available.") w))
  /\ (nullish (opt_get newsData "posts") = true ->
      CallbackVersion.on_news (Success newsData) w
      = (console_log "News (callback) received. Top headlines:";;
         CallbackVersion.get CallbackVersion.weatherUrl LegacyOnSecondWeather) w).
Proof.
  split.
  - intros Ha. pose proof (coalesce_nullish _ (VArr []) Ha) as Hca.
    split; [|split; [|split]].
    + unfold CallbackController.on_news, CallbackController.empty_array. now rewrite Hca.
    + unfold PromiseController.then_news. now rewrite Hca.
    + intros weatherData. unfold PromiseController.on_all_fulfilled.
      change (PromiseController.element 1 [weatherData; newsData]) with newsData.
      now rewrite Hca.
    + intros weatherData. unfold AsyncController.display_results.
      change (PromiseController.element 1 [weatherData; newsData]) with newsData.
      now rewrite Hca.
  - intros Hp. pose proof (coalesce_nullish _ (VArr []) Hp) as Hcp.
    unfold CallbackVersion.on_news. now rewrite Hcp.
Qed.

(** A payload of the other API's shape on either side: [{"posts":[]}]
    has no [articles] and gives the notice in callbackController.ts;
    the two articles of the end-to-end payload are no [posts] and give
    the bare banner in callbackVersion.ts. *)
Lemma C10_missing_articles_default_witness :
  nullish (opt_get (VObj [("posts", VArr [])]) "articles") = true
  /\ CallbackController.on_news sample_runtime (Success (VObj [("posts", VArr [])])) world0
     = (console_log "[Callback] ⚠️  No news articles available.";;
        Model.getWeatherCallback OnSecondWeather) world0
  /\ nullish (opt_get news_payload "posts") = true
  /\ CallbackVersion.on_news (Success news_payload) world0
     = (console_log "News (callback) received. Top headlines:";;
        CallbackVersion.get CallbackVersion.weatherUrl LegacyOnSecondWeather) world0.
Proof.
  split; [reflexivity|]. split; [|split; [reflexivity|]].
  - apply (C10_missing_articles_default sample_runtime (VObj [("posts", VArr [])]) world0).
    reflexivity.
  - apply (C10_missing_articles_default sample_runtime news_payload world0).
    reflexivity.
Defined.

(** ** The callback scripts run to quiescence *)

(** Fuel beyond the last issued request changes nothing. *)
Lemma event_loop_enough fuel k fetch dispatch net i w :
  issued (event_loop fuel fetch dispatch net i w) !! (i + fuel) = None ->
  event_loop (fuel + k) fetch dispatch net i w = event_loop fuel fetch dispatch net i w.
Proof.
  revert i w. induction fuel as [|fuel IH]; intros i w H.
  - simpl in H. rewrite Nat.add_0_r in H. simpl.
    destruct k as [|k]; [reflexivity|]. rewrite event_loop_step. now rewrite H.
  - change (S fuel + k) with (S (fuel + k)). rewrite !event_loop_step.
    rewrite event_loop_step in H.
    destruct (issued w !! i) as [[req h]|]; [|reflexivity].
    apply IH. replace (S i + fuel) with (i + S fuel) by lia. exact H.
Qed.

Lemma event_loop_at fuel fetch dispatch net i w r h :
  issued w !! i = Some (r, h) ->
  event_loop (S fuel) fetch dispatch net i w
  = event_loop fuel fetch dispatch net (S i) (run_task (fetch (net i) (dispatch h)) w).
Proof. intros H. now rewrite event_loop_step, H. Qed.

Lemma event_loop_stop fuel fetch dispatch net i w :
  issued w !! i = None -> event_loop fuel fetch dispatch net i w = w.
Proof. intros H. destruct fuel; [reflexivity|]. now rewrite event_loop_step, H. Qed.

Section Stage.
Variable fetch : NetResult -> (Outcome -> Js unit) -> Js unit.
Variable dispatch : Handler -> Outcome -> Js unit.

(** The fetch calls the callback once with a failure, or with the
    payload inside its [try]. *)
Hypothesis fetch_calls : forall r cb w,
  (exists e, fetch r cb w = cb (Failure e) w)
  \/ (exists v, fetch r cb w = try_catch (cb (Success v)) (fun e => cb (Failure e)) w).

(** Called with a failure a callback issues nothing; called with a
    payload it issues its follow-up as its last act, or nothing. *)
Hypothesis on_failure : forall h e w, issued (snd (dispatch h (Failure e) w)) = issued w.
Hypothesis on_success : forall h v w,
  issued (snd (dispatch h (Success v) w)) = issued w
  \/ (fst (dispatch h (Success v) w) = Normal tt
      /\ issued (snd (dispatch h (Success v) w)) = issued w ++ follow_up h).

Lemma issued_with_uncaught e w : issued (with_uncaught e w) = issued w.
Proof. reflexivity. Qed.

Lemma run_task_issued (task : Js unit) (w : World) :
  uncaught w = None -> issued (run_task task w) = issued (snd (task w)).
Proof.
  intros H. unfold run_task. rewrite H. now destruct (task w) as [[[]|e|] w'].
Qed.

(** One delivery issues the follow-up of its callback, or nothing. *)
Lemma stage_issues (r : NetResult) (h : Handler) (w : World) :
  issued (run_task (fetch r (dispatch h)) w) = issued w
  \/ issued (run_task (fetch r (dispatch h)) w) = issued w ++ follow_up h.
Proof.
  destruct (uncaught w) as [e0|] eqn:Eu.
  { left. unfold run_task. now rewrite Eu. }
  rewrite (run_task_issued _ _ Eu).
  destruct (fetch_calls r (dispatch h) w) as [[e ->]|[v ->]].
  - left. apply on_failure.
  - unfold try_catch.
    destruct (on_success h v w) as [Hsame | [Hnormal Hmore]].
    + destruct (dispatch h (Success v) w) as [[[]|e|] w1]; simpl in *;
        [now left | | now left].
      left. rewrite on_failure. exact Hsame.
    + destruct (dispatch h (Success v) w) as [c w1]; simpl in *. subst c. now right.
Qed.

(** A script of three nested stages issues at most three requests, and
    its event loop is idle after three deliveries. *)
Lemma three_stages_idle (net : nat -> NetResult) (w : World)
      (r0 r1 r2 : Request) (h0 h1 h2 : Handler) :
  issued w = [(r0, h0)] ->
  follow_up h0 = [(r1, h1)] -> follow_up h1 = [(r2, h2)] -> follow_up h2 = [] ->
  issued (event_loop 3 fetch dispatch net 0 w) !! 3 = None.
Proof.
  intros Hw F0 F1 F2.
  rewrite (event_loop_at _ _ _ _ _ _ r0 h0) by now rewrite Hw.
  destruct (stage_issues (net 0) h0 w) as [H1|H1]; rewrite Hw in H1.
  { rewrite event_loop_stop by now rewrite H1. now rewrite H1. }
  rewrite F0 in H1.
  rewrite (event_loop_at _ _ _ _ _ _ r1 h1) by now rewrite H1.
  destruct (stage_issues (net 1) h1 (run_task (fetch (net 0) (dispatch h0)) w)) as [H2|H2];
    rewrite H1 in H2.
  { rewrite event_loop_stop by now rewrite H2. now rewrite H2. }
  rewrite F1 in H2.
  rewrite (event_loop_at _ _ _ _ _ _ r2 h2) by now rewrite H2.
  destruct (stage_issues (net 2) h2
              (run_task (fetch (net 1) (dispatch h1))
                        (run_task (fetch (net 0) (dispatch h0)) w))) as [H3|H3];
    rewrite H2 in H3; [|rewrite F2 in H3]; simpl; now rewrite H3.
Qed.

End Stage.

Lemma httpGetJson_calls rt r cb w :
  (exists e, HttpClient.httpGetJson rt r cb w = cb (Failure e) w)
  \/ (exists v, HttpClient.httpGetJson rt r cb w
                = try_catch (cb (Success v)) (fun e => cb (Failure e)) w).
Proof.
  destruct (HttpClient.outcome rt r) as [v|e] eqn:E.
  - right. exists v. now apply httpGetJson_success.
  - left. exists e. now apply httpGetJson_failure.
Qed.

Lemma httpsGetJson_calls rt r cb w :
  (exists e, Legacy.httpsGetJson rt r cb w = cb (Failure e) w)
  \/ (exists v, Legacy.httpsGetJson rt r cb w
                = try_catch (cb (Success v)) (fun e => cb (Failure e)) w).
Proof.
  destruct (Legacy.outcome rt r) as [v|e] eqn:E.
  - right. exists v. now apply httpsGetJson_success.
  - left. exists e. now apply httpsGetJson_failure.
Qed.

Lemma bind_assoc {A B C} (m : Js A) (k1 : A -> Js B) (k2 : B -> Js C) (w : World) :
  ((m ≫= k1) ≫= k2) w = (m ≫= (fun a => k1 a ≫= k2)) w.
Proof.
  unfold mbind, Js_bind, js_bind. now destruct (m w) as [[a|e|] w1].
Qed.

(** Printing, then issuing one request as the last act. *)
Lemma print_then_issue (m : Js unit) (req : Request) (h : Handler) (w : World) :
  console_only m ->
  issued (snd ((m;; issue req h;; mret tt) w)) = issued w
  \/ (fst ((m;; issue req h;; mret tt) w) = Normal tt
      /\ issued (snd ((m;; issue req h;; mret tt) w)) = issued w ++ [(req, h)]).
Proof.
  intros Hm. destruct (Hm w) as [Hi _].
  unfold mbind, Js_bind, js_bind.
  destruct (m w) as [[[]|e|] w1]; simpl in *; [right | now left | now left].
  split; [reflexivity | now rewrite Hi].
Qed.

Lemma forEach_console_only what xs f :
  (forall item i, console_only (f item i)) -> console_only (View.forEach what xs f).
Proof. intros Hf. unfold View.forEach. frame_tac. Qed.

Lemma slice5_forEach_console_only posts f :
  (forall item i, console_only (f item i)) ->
  console_only (CallbackVersion.slice5_forEach posts f).
Proof. intros Hf. unfold CallbackVersion.slice5_forEach. frame_tac. Qed.

Lemma callbackController_on_failure rt h e w :
  issued (snd (CallbackController.dispatch rt h (Failure e) w)) = issued w.
Proof. destruct h; reflexivity. Qed.

Lemma callbackController_on_success rt h v w :
  issued (snd (CallbackController.dispatch rt h (Success v) w)) = issued w
  \/ (fst (CallbackController.dispatch rt h (Success v) w) = Normal tt
      /\ issued (snd (CallbackController.dispatch rt h (Success v) w))
         = issued w ++ follow_up h).
Proof.
  destruct h; try (now left).
  - apply (print_then_issue (View.displayWeather v "Callback")).
    apply displayWeather_console_only.
  - apply (print_then_issue
             (View.displayNews rt (coalesce (opt_get v "articles") CallbackController.empty_array)
                               "Callback")).
    apply displayNews_console_only.
  - left.
    assert (H : console_only (CallbackController.on_second_weather (Success v))).
    { unfold CallbackController.on_second_weather. unfold console_only.
      apply preserves_bind; [exact _ | apply displayWeather_console_only|].
      intros _. apply displayFooter_console_only. }
    exact (proj1 (H w)).
Qed.

Lemma callbackVersion_on_failure h e w :
  issued (snd (CallbackVersion.dispatch h (Failure e) w)) = issued w.
Proof. destruct h; reflexivity. Qed.

Lemma callbackVersion_on_success h v w :
  issued (snd (CallbackVersion.dispatch h (Success v) w)) = issued w
  \/ (fst (CallbackVersion.dispatch h (Success v) w) = Normal tt
      /\ issued (snd (CallbackVersion.dispatch h (Success v) w))
         = issued w ++ follow_up h).
Proof.
  destruct h; try (now left).
  - right. split; reflexivity.
  - unfold CallbackVersion.dispatch, CallbackVersion.on_news, CallbackVersion.get.
    rewrite <- (bind_assoc (console_log "News (callback) received. Top headlines:")).
    apply print_then_issue.
    unfold console_only. apply preserves_bind; [exact _ | apply emit_console_only|].
    intros _. apply slice5_forEach_console_only.
    intros item i. unfold console_log, interp. frame_tac.
Qed.

(** The scripts of callbackController.ts and callbackVersion.ts have
    nothing left to do after three deliveries: more turns of the event
    loop change nothing. *)
Lemma callback_scripts_reach_quiescence (rt : Runtime) (net : nat -> NetResult) (k : nat) :
  event_loop (3 + k) (HttpClient.httpGetJson rt) (CallbackController.dispatch rt) net 0
             (run_task CallbackController.main world0)
  = CallbackController.run rt net
  /\ event_loop (3 + k) (Legacy.httpsGetJson rt) CallbackVersion.dispatch net 0
                (run_task CallbackVersion.main world0)
     = CallbackVersion.run rt net.
Proof.
  split; apply event_loop_enough.
  - apply (three_stages_idle _ _ (httpGetJson_calls rt)
             (callbackController_on_failure rt) (callbackController_on_success rt) net _
             Model.weatherRequest Model.newsRequest Model.weatherRequest
             OnWeather OnNews OnSecondWeather); reflexivity.
  - apply (three_stages_idle _ _ (httpsGetJson_calls rt)
             callbackVersion_on_failure callbackVersion_on_success net _
             (mkRequest CallbackVersion.weatherUrl ∅) (mkRequest CallbackVersion.newsUrl ∅)
             (mkRequest CallbackVersion.weatherUrl ∅)
             LegacyOnWeather LegacyOnNews LegacyOnSecondWeather); reflexivity.
Qed.

(** ** Worked runs *)

Example to_string_nested :
  to_string (VArr [VNum "1"; VNull; VArr [VStr "a"; VBool true]; VObj []])
  = Normal "1,,a,true,[object Object]".
Proof. reflexivity. Qed.

Example to_string_shadowed :
  to_string (VObj [("toString", VNum "1")]) = Throw cannot_convert.
Proof. reflexivity. Qed.

(** The end-to-end scenario: weather [22] and [8.3], two articles [X]
    and [Y]; the callback script prints the weather, the two numbered
    headlines, the weather again and its footer, all on standard
    output, and issues its three requests in order. *)
Example end_to_end_callback_run :
  CallbackController.run sample_runtime
    (scripted [ok [weather_text]; ok [news_text]; ok [weather_text]])
  = mkWorld
      (header_lines "Callback"
       ++ [out "[Callback] 🌡️  Temperature in Pretoria: 22°C";
           out "[Callback] 💨  Wind Speed: 8.3 km/h";
           out (nl +:+ "[Callback] 📰  Top News Headlines:");
           out "   1. X";
           out "   2. Y";
           out "[Callback - Second Fetch] 🌡️  Temperature in Pretoria: 22°C";
           out "[Callback - Second Fetch] 💨  Wind Speed: 8.3 km/h"]
       ++ footer_lines "Callback")
      [(Model.weatherRequest, OnWeather); (Model.newsRequest, OnNews);
       (Model.weatherRequest, OnSecondWeather)]
      [] None.
Proof. vm_compute. reflexivity. Qed.

(** The same payloads through [run] of asyncController.ts, the news
    fetch settling first. *)
Example end_to_end_async_run :
  lines (AsyncController.run sample_runtime
           (scripted [ok [weather_text]; ok [news_text]; ok [weather_text]]) [1; 0])
  = header_lines "Async/Await"
    ++ [out "[Async/Await] 🌡️  Temperature in Pretoria: 22°C";
        out "[Async/Await] 💨  Wind Speed: 8.3 km/h";
        out (nl +:+ "[Async/Await] 📰  Top News Headlines:");
        out "   1. X";
        out "   2. Y";
        out "[Async/Await - Additional Fetch] 🌡️  Temperature in Pretoria: 22°C";
        out "[Async/Await - Additional Fetch] 💨  Wind Speed: 8.3 km/h"]
    ++ footer_lines "Async/Await".
Proof. vm_compute. reflexivity. Qed.

(** A race in which the weather fetch fails first and the news fetch
    succeeds later settles on the failure. *)
Example race_settles_on_first_failure :
  lines (PromiseController.run_race sample_runtime
           (scripted [NetFailed (Error "socket hang up"); ok [news_text]]) [0; 1])
  = header_lines "Promise" ++ [err "❌  Error [Promise.race]: socket hang up"].
Proof. vm_compute. reflexivity. Qed.

(** One failure among two parallel fetches fails the whole, whenever it
    is observed. *)
Example parallel_all_one_failure :
  lines (PromiseController.run_all sample_runtime
           (scripted [ok [weather_text]; NetResponse (Some 401) ["apiKey"; "Invalid"]]) [0; 1])
  = header_lines "Promise"
    ++ [err "❌  Error [Promise.all]: HTTP request failed with status 401: apiKeyInvalid"].
Proof. vm_compute. reflexivity. Qed.

(** The [.then()] chain of promiseController.ts stops at a failed first
    fetch in the same way: one request, and the error through its single
    [.catch()]. *)
Lemma promise_chain_first_failure (rt : Runtime) (net : nat -> NetResult)
      (e : JsError) (w : World) :
  HttpClient.outcome rt (net (length (issued w))) = Failure e ->
  PromiseController.sequential_chain rt net w
  = (Normal tt,
     mkWorld (console w ++ [err ("❌  Error [Sequential Chain]: " +:+ message e)])
             (issued w ++ [(Model.weatherRequest, SettlePromise)])
             (unhandled w) (uncaught w)).
Proof.
  intros H. unfold PromiseController.sequential_chain, try_catch, Model.getWeatherPromise.
  unfold mbind at 1. unfold Js_bind, js_bind, issue.
  unfold Model.promise. rewrite httpGetJsonPromise_outcome, H. reflexivity.
Qed.

(* ================================================================== *)
(** * Further properties of the code *)
(* ================================================================== *)

(** ** The fetch helpers *)

Lemma httpGetJson_by_outcome rt r cb w :
  HttpClient.httpGetJson rt r cb w
  = match HttpClient.outcome rt r with
    | Failure e => cb (Failure e) w
    | Success v => try_catch (cb (Success v)) (fun e => cb (Failure e)) w
    end.
Proof.
  destruct (HttpClient.outcome rt r) as [v|e] eqn:E.
  - now apply httpGetJson_success.
  - now apply httpGetJson_failure.
Qed.

Lemma httpsGetJson_by_outcome rt r cb w :
  Legacy.httpsGetJson rt r cb w
  = match Legacy.outcome rt r with
    | Failure e => cb (Failure e) w
    | Success v => try_catch (cb (Success v)) (fun e => cb (Failure e)) w
    end.
Proof.
  destruct (Legacy.outcome rt r) as [v|e] eqn:E.
  - now apply httpsGetJson_success.
  - now apply httpsGetJson_failure.
Qed.

(** X1: how the body is cut into chunks does not matter: two responses
    with the same status whose chunks concatenate to the same text are
    answered alike by all four fetch helpers, for every callback. *)
Theorem fetch_ignores_chunking (rt : Runtime) (sc : option nat)
        (chunks1 chunks2 : list string) (cb : Outcome -> Js unit) (w : World) :
  body_of chunks1 = body_of chunks2 ->
  HttpClient.httpGetJson rt (NetResponse sc chunks1) cb w
  = HttpClient.httpGetJson rt (NetResponse sc chunks2) cb w
  /\ HttpClient.httpGetJsonPromise rt (NetResponse sc chunks1)
     = HttpClient.httpGetJsonPromise rt (NetResponse sc chunks2)
  /\ Legacy.httpsGetJson rt (NetResponse sc chunks1) cb w
     = Legacy.httpsGetJson rt (NetResponse sc chunks2) cb w
  /\ Legacy.httpsGetJsonPromise rt (NetResponse sc chunks1)
     = Legacy.httpsGetJsonPromise rt (NetResponse sc chunks2).
Proof.
  intros H.
  assert (Hnew : HttpClient.outcome rt (NetResponse sc chunks1)
                 = HttpClient.outcome rt (NetResponse sc chunks2))
    by (unfold HttpClient.outcome; now rewrite H).
  assert (Hold : Legacy.outcome rt (NetResponse sc chunks1)
                 = Legacy.outcome rt (NetResponse sc chunks2))
    by (unfold Legacy.outcome; now rewrite H).
  split; [now rewrite !httpGetJson_by_outcome, Hnew|].
  split; [now rewrite !httpGetJsonPromise_outcome, Hnew|].
  split; [now rewrite !httpsGetJson_by_outcome, Hold|].
  now rewrite !httpsGetJsonPromise_outcome, Hold.
Qed.

Lemma fetch_ignores_chunking_witness :
  body_of ["{" +:+ dq +:+ "articles"; dq +:+ ":[null]}"] = body_of [null_article_text]
  /\ HttpClient.httpGetJsonPromise sample_runtime
       (ok ["{" +:+ dq +:+ "articles"; dq +:+ ":[null]}"])
     = HttpClient.httpGetJsonPromise sample_runtime (ok [null_article_text]).
Proof.
  split; [reflexivity|].
  apply (fetch_ignores_chunking sample_runtime (Some 200)
           ["{" +:+ dq +:+ "articles"; dq +:+ ":[null]}"] [null_article_text]
           record world0).
  reflexivity.
Defined.

(** X2: nothing is delivered before the response has ended.  After the
    response callback and any number of chunks, [httpGetJson] has not
    called its callback (whatever the status and whatever the callback
    would do) and the promise of [httpGetJsonPromise] is still pending.
    [httpsGetJson] does the same for a status below 400, but on an error
    status it has already called its callback when the response callback
    returns, before any chunk. *)
Theorem nothing_delivered_before_end (rt : Runtime) (sc : option nat)
        (chunks : list string) (cb : Outcome -> Js unit) (w : World) :
  snd (run_events (HttpClient.httpGetJson_step rt cb) (EvResponse sc :: map EvData chunks)
                  AwaitingResponse w) = w
  /\ snd (fold_left (HttpClient.httpGetJsonPromise_step rt)
                    (EvResponse sc :: map EvData chunks) (AwaitingResponse, None)) = None
  /\ (error_status sc = None ->
      snd (run_events (Legacy.httpsGetJson_step rt cb) (EvResponse sc :: map EvData chunks)
                      AwaitingResponse w) = w)
  /\ (forall n, error_status sc = Some n ->
      run_events (Legacy.httpsGetJson_step rt cb) [EvResponse sc] AwaitingResponse w
      = (cb (Failure (Legacy.status_error n));; mret Ended) w).
Proof.
  split; [now rewrite httpGetJson_before_end|].
  split; [apply httpGetJsonPromise_before_end|].
  split.
  - intros H. simpl. unfold mbind at 1. unfold Js_bind, js_bind. rewrite H. simpl.
    now rewrite httpsGetJson_reading.
  - intros n H. simpl. unfold mbind, Js_bind, js_bind. rewrite H.
    destruct (cb (Failure (Legacy.status_error n)) w) as [[[]|e|] w']; reflexivity.
Qed.

Lemma nothing_delivered_before_end_witness :
  error_status (Some 200) = None
  /\ snd (run_events (Legacy.httpsGetJson_step sample_runtime record)
                     (EvResponse (Some 200) :: map EvData ["{"; "}"]) AwaitingResponse world0)
     = world0.
Proof.
  split; [reflexivity|].
  apply (nothing_delivered_before_end sample_runtime (Some 200) ["{"; "}"] record world0).
  reflexivity.
Defined.

(** X3: the callback helper and the promise helper classify every
    exchange alike: the promise settles, and a callback that does not
    throw when it is handed a payload is called exactly once, with the
    outcome the promise settles with.  This holds for [httpGetJson] with
    [httpGetJsonPromise] and for [httpsGetJson] with
    [httpsGetJsonPromise]. *)
Theorem callback_and_promise_agree (rt : Runtime) (r : NetResult)
        (cb : Outcome -> Js unit) (w : World) :
  (forall v e w', cb (Success v) w <> (Throw e, w')) ->
  (exists o, HttpClient.httpGetJsonPromise rt r = Some o
             /\ HttpClient.httpGetJson rt r cb w = cb o w)
  /\ (exists o, Legacy.httpsGetJsonPromise rt r = Some o
                /\ Legacy.httpsGetJson rt r cb w = cb o w).
Proof.
  intros Hcb. split.
  - exists (HttpClient.outcome rt r). split; [apply httpGetJsonPromise_outcome|].
    rewrite httpGetJson_by_outcome.
    destruct (HttpClient.outcome rt r) as [v|e]; [|reflexivity].
    unfold try_catch. destruct (cb (Success v) w) as [[a|e|] w'] eqn:E; try reflexivity.
    now elim (Hcb v e w').
  - exists (Legacy.outcome rt r). split; [apply httpsGetJsonPromise_outcome|].
    rewrite httpsGetJson_by_outcome.
    destruct (Legacy.outcome rt r) as [v|e]; [|reflexivity].
    unfold try_catch. destruct (cb (Success v) w) as [[a|e|] w'] eqn:E; try reflexivity.
    now elim (Hcb v e w').
Qed.

Lemma callback_and_promise_agree_witness :
  (forall v e w', record (Success v) world0 <> (Throw e, w'))
  /\ exists o, HttpClient.httpGetJsonPromise sample_runtime (ok [weather_text]) = Some o
               /\ HttpClient.httpGetJson sample_runtime (ok [weather_text]) record world0
                  = record o world0.
Proof.
  assert (H : forall v e w', record (Success v) world0 <> (Throw e, w'))
    by (intros v e w'; discriminate).
  split; [exact H|].
  exact (proj1 (callback_and_promise_agree sample_runtime (ok [weather_text]) record world0 H)).
Defined.

(** X4: a transport fault and a body that does not parse are reported
    exactly once, with the underlying error unchanged, whatever the
    callback does with it: the second call that a throwing callback
    provokes on a parsed payload cannot happen for a failure. *)
Theorem failure_reported_once (rt : Runtime) (cb : Outcome -> Js unit) (w : World) :
  (forall e, HttpClient.httpGetJson rt (NetFailed e) cb w = cb (Failure e) w
             /\ Legacy.httpsGetJson rt (NetFailed e) cb w = cb (Failure e) w)
  /\ (forall sc chunks parseError,
        error_status sc = None ->
        JSON_parse rt (body_of chunks) = inr parseError ->
        HttpClient.httpGetJson rt (NetResponse sc chunks) cb w = cb (Failure parseError) w
        /\ Legacy.httpsGetJson rt (NetResponse sc chunks) cb w = cb (Failure parseError) w).
Proof.
  split.
  - intros e. split; [now apply httpGetJson_failure | now apply httpsGetJson_failure].
  - intros sc chunks parseError Hs Hp. split.
    + apply httpGetJson_failure. unfold HttpClient.outcome. now rewrite Hs, Hp.
    + apply httpsGetJson_failure. unfold Legacy.outcome. now rewrite Hs, Hp.
Qed.

Lemma failure_reported_once_witness :
  error_status (Some 200) = None
  /\ JSON_parse sample_runtime (body_of ["<html>"; "</html>"]) = inr syntax_error
  /\ HttpClient.httpGetJson sample_runtime (ok ["<html>"; "</html>"]) record world0
     = record (Failure syntax_error) world0.
Proof.
  split; [reflexivity|]. split; [reflexivity|].
  apply (proj2 (failure_reported_once sample_runtime record world0)
               (Some 200) ["<html>"; "</html>"] syntax_error); reflexivity.
Defined.

(** X5: the two generations of the fetch helper differ only in how they
    report an error status: for a transport fault and for every response
    whose status is below 400 (or missing), [httpsGetJson] behaves as
    [httpGetJson] and [httpsGetJsonPromise] settles as
    [httpGetJsonPromise]. *)
Theorem generations_agree_below_400 (rt : Runtime) (r : NetResult)
        (cb : Outcome -> Js unit) (w : World) :
  match r with
  | NetFailed _ => True
  | NetResponse sc _ => error_status sc = None
  end ->
  Legacy.httpsGetJson rt r cb w = HttpClient.httpGetJson rt r cb w
  /\ Legacy.httpsGetJsonPromise rt r = HttpClient.httpGetJsonPromise rt r.
Proof.
  intros H.
  assert (Ho : Legacy.outcome rt r = HttpClient.outcome rt r).
  { destruct r as [e|sc chunks]; [reflexivity|].
    unfold Legacy.outcome, HttpClient.outcome. now rewrite H. }
  split.
  - now rewrite httpsGetJson_by_outcome, httpGetJson_by_outcome, Ho.
  - now rewrite httpsGetJsonPromise_outcome, httpGetJsonPromise_outcome, Ho.
Qed.

Lemma generations_agree_below_400_witness :
  error_status (Some 304) = None
  /\ Legacy.httpsGetJsonPromise sample_runtime (NetResponse (Some 304) [])
     = HttpClient.httpGetJsonPromise sample_runtime (NetResponse (Some 304) []).
Proof.
  split; [reflexivity|].
  apply (generations_agree_below_400 sample_runtime (NetResponse (Some 304) []) record world0).
  reflexivity.
Defined.

(** ** The view and the headline loops *)

Lemma printed_nil (w : World) : printed [] w = w.
Proof. destruct w. unfold printed. simpl. now rewrite app_nil_r. Qed.

Lemma printed_app (l1 l2 : list Line) (w : World) :
  printed l2 (printed l1 w) = printed (l1 ++ l2) w.
Proof. unfold printed. simpl. now rewrite app_assoc. Qed.

Lemma bind_normal {A B} (m : Js A) (k : A -> Js B) (w w1 : World) (a : A)
      (r : Completion B * World) :
  m w = (Normal a, w1) -> k a w1 = r -> (m ≫= k) w = r.
Proof. intros Hm Hk. unfold mbind, Js_bind, js_bind. now rewrite Hm. Qed.

Lemma bind_throw {A B} (m : Js A) (k : A -> Js B) (w w1 : World) (e : JsError) :
  m w = (Throw e, w1) -> (m ≫= k) w = (Throw e, w1).
Proof. intros Hm. unfold mbind, Js_bind, js_bind. now rewrite Hm. Qed.

(** One headline: the body of the [forEach] callbacks. *)
Lemma headline_line (indent : string) (a : Value) (i : nat) (t : string) (w : World) :
  titled t a ->
  (title ← lift (get_member a "title");
   s ← interp title;
   console_log (indent +:+ show_nat (i + 1) +:+ ". " +:+ s)) w
  = (Normal tt, printed [out (indent +:+ show_nat (i + 1) +:+ ". " +:+ t)] w).
Proof.
  intros [Hn Ht]. unfold mbind, Js_bind, js_bind, lift, interp.
  rewrite (get_member_defined _ _ Hn), Ht. reflexivity.
Qed.

Lemma forEach_from_numbered (indent : string) (f : Value -> nat -> Js unit) :
  (forall a i t w, titled t a ->
     f a i w = (Normal tt, printed [out (indent +:+ show_nat (i + 1) +:+ ". " +:+ t)] w)) ->
  forall titles items i w,
    Forall2 titled titles items ->
    View.forEach_from i items f w = (Normal tt, printed (numbered indent i titles) w).
Proof.
  intros Hf titles items i w H. revert i w.
  induction H as [|t a titles items Ht H IH]; intros i w.
  - simpl. now rewrite printed_nil.
  - change (View.forEach_from i (a :: items) f)
      with (f a i;; View.forEach_from (S i) items f).
    unfold mbind, Js_bind, js_bind. rewrite (Hf a i t w Ht), IH, printed_app. reflexivity.
Qed.

(** X6: given a non-empty array of articles with string titles,
    [displayNews] prints its banner and then one line per article, in
    the order of the array, numbered from 1 and indented by three
    spaces, and returns normally; it caps nothing. *)
Theorem displayNews_numbers_titles (rt : Runtime) (items : list Value)
        (titles : list string) (label : string) (w : World) :
  items <> [] ->
  Forall2 titled titles items ->
  View.displayNews rt (VArr items) label w
  = (Normal tt,
     printed (out (nl +:+ View.prefix_of label +:+ "📰  Top News Headlines:")
              :: numbered "   " 0 titles) w).
Proof.
  intros Hne H. destruct items as [|a items]; [now elim Hne|].
  unfold View.displayNews. cbv zeta.
  apply (bind_normal _ _ w w true); [reflexivity|]. cbv beta iota.
  apply (bind_normal _ _ w
           (printed [out (nl +:+ View.prefix_of label +:+ "📰  Top News Headlines:")] w) tt);
    [reflexivity|].
  unfold View.forEach.
  rewrite (forEach_from_numbered "   " _ (headline_line "   ") titles (a :: items) 0 _ H).
  rewrite printed_app. reflexivity.
Qed.

Lemma displayNews_numbers_titles_witness :
  [VObj [("title", VStr "X")]; VObj [("title", VStr "Y")]] <> []
  /\ Forall2 titled ["X"; "Y"] [VObj [("title", VStr "X")]; VObj [("title", VStr "Y")]]
  /\ View.displayNews sample_runtime
       (VArr [VObj [("title", VStr "X")]; VObj [("title", VStr "Y")]]) "Callback" world0
     = (Normal tt,
        printed (out (nl +:+ View.prefix_of "Callback" +:+ "📰  Top News Headlines:")
                 :: numbered "   " 0 ["X"; "Y"]) world0).
Proof.
  assert (Hne : [VObj [("title", VStr "X")]; VObj [("title", VStr "Y")]] <> [])
    by discriminate.
  assert (H : Forall2 titled ["X"; "Y"]
                [VObj [("title", VStr "X")]; VObj [("title", VStr "Y")]])
    by (repeat constructor).
  split; [exact Hne|]. split; [exact H|].
  exact (displayNews_numbers_titles sample_runtime _ _ "Callback" world0 Hne H).
Defined.

(** X7: the headline loops of the [*Version.ts] scripts print the first
    five posts only ([posts.slice(0, 5)]), numbered from 1 with no
    indentation, however many posts the payload holds.  The news
    callback of callbackVersion.ts then issues the second weather
    request; the [.then] handler of promiseVersion.ts answers
    ["done sequential"]. *)
Theorem legacy_prints_at_most_five (newsData : Value) (items : list Value)
        (titles : list string) (w : World) :
  nullish newsData = false ->
  get_prop newsData "posts" = VArr items ->
  Forall2 titled titles items ->
  CallbackVersion.on_news (Success newsData) w
  = (Normal tt,
     mkWorld (console w ++ out "News (callback) received. Top headlines:"
                           :: numbered EmptyString 0 (take 5 titles))
             (issued w ++ [(mkRequest CallbackVersion.weatherUrl ∅, LegacyOnSecondWeather)])
             (unhandled w) (uncaught w))
  /\ PromiseVersionChain.then_news newsData w
     = (Normal "done sequential",
        printed (out "News (promise) top headlines:"
                 :: numbered EmptyString 0 (take 5 titles)) w)
  /\ length (numbered EmptyString 0 (take 5 titles)) <= 5.
Proof.
  intros Hn Hp H.
  assert (H5 : Forall2 titled (take 5 titles) (take 5 items)) by now apply Forall2_take.
  assert (Hloop : forall w0,
    CallbackVersion.slice5_forEach (VArr items) (fun p i =>
        title ← lift (get_member p "title");
        t ← interp title;
        console_log (show_nat (i + 1) +:+ ". " +:+ t)) w0
    = (Normal tt, printed (numbered EmptyString 0 (take 5 titles)) w0)).
  { intros w0. unfold CallbackVersion.slice5_forEach.
    exact (forEach_from_numbered EmptyString _ (headline_line EmptyString) _ _ 0 w0 H5). }
  split; [|split].
  - unfold CallbackVersion.on_news, opt_get. rewrite Hn, Hp.
    change (coalesce (VArr items) (VArr [])) with (VArr items). cbv zeta.
    apply (bind_normal _ _ w (printed [out "News (callback) received. Top headlines:"] w) tt);
      [reflexivity|].
    eapply bind_normal; [apply Hloop|].
    rewrite printed_app. reflexivity.
  - unfold PromiseVersionChain.then_news, PromiseVersionChain.print_headlines, opt_get.
    rewrite Hn, Hp.
    change (coalesce (VArr items) (VArr [])) with (VArr items). cbv zeta.
    apply (bind_normal _ _ w (printed [out "News (promise) top headlines:"] w) tt);
      [reflexivity|].
    eapply bind_normal; [apply Hloop|].
    rewrite printed_app. reflexivity.
  - assert (Hlen : forall ts i, length (numbered EmptyString i ts) = length ts).
    { induction ts as [|t ts IH]; intros i; simpl; [reflexivity | now rewrite IH]. }
    rewrite Hlen, length_take. lia.
Qed.

Lemma legacy_prints_at_most_five_witness :
  nullish (VObj [("posts", VArr (replicate 7 (VObj [("title", VStr "t")])))]) = false
  /\ get_prop (VObj [("posts", VArr (replicate 7 (VObj [("title", VStr "t")])))]) "posts"
     = VArr (replicate 7 (VObj [("title", VStr "t")]))
  /\ Forall2 titled (replicate 7 "t") (replicate 7 (VObj [("title", VStr "t")]))
  /\ PromiseVersionChain.then_news
       (VObj [("posts", VArr (replicate 7 (VObj [("title", VStr "t")])))]) world0
     = (Normal "done sequential",
        printed (out "News (promise) top headlines:"
                 :: numbered EmptyString 0 (take 5 (replicate 7 "t"))) world0).
Proof.
  assert (H : Forall2 titled (replicate 7 "t") (replicate 7 (VObj [("title", VStr "t")])))
    by (repeat constructor).
  split; [reflexivity|]. split; [reflexivity|]. split; [exact H|].
  exact (proj1 (proj2 (legacy_prints_at_most_five
                         (VObj [("posts", VArr (replicate 7 (VObj [("title", VStr "t")])))])
                         (replicate 7 (VObj [("title", VStr "t")])) (replicate 7 "t") world0
                         eq_refl eq_refl H))).
Defined.

(** How [displayWeather] goes on a payload whose [current_weather] is
    truthy, by what the two interpolations give. *)
Lemma displayWeather_truthy (data : Value) (label : string) (w : World) :
  truthy (opt_get data "current_weather") = true ->
  View.displayWeather data label w
  = match to_string (get_prop (opt_get data "current_weather") "temperature") with
    | Normal t =>
        let first := out (View.prefix_of label +:+ "🌡️  Temperature in " +:+ View.city
                          +:+ ": " +:+ t +:+ "°C") in
        match to_string (get_prop (opt_get data "current_weather") "windspeed") with
        | Normal ws =>
            (Normal tt,
             printed [first; out (View.prefix_of label +:+ "💨  Wind Speed: " +:+ ws +:+ " km/h")] w)
        | Throw e => (Throw e, printed [first] w)
        | Never => (Never, printed [first] w)
        end
    | Throw e => (Throw e, w)
    | Never => (Never, w)
    end.
Proof.
  intros Ht. unfold View.displayWeather. cbv zeta. rewrite Ht.
  pose proof (get_member_defined _ "temperature" (truthy_not_nullish _ Ht)) as Hm1.
  pose proof (get_member_defined _ "windspeed" (truthy_not_nullish _ Ht)) as Hm2.
  apply (bind_normal _ _ w w (get_prop (opt_get data "current_weather") "temperature"));
    [unfold lift; now rewrite Hm1|].
  cbv beta. unfold interp.
  destruct (to_string (get_prop (opt_get data "current_weather") "temperature"))
    as [t|e|] eqn:E1; [|reflexivity|reflexivity].
  apply (bind_normal _ _ w w t); [reflexivity|].
  eapply bind_normal; [reflexivity|]. cbv zeta.
  eapply bind_normal; [unfold lift; rewrite Hm2; reflexivity|].
  cbv beta.
  destruct (to_string (get_prop (opt_get data "current_weather") "windspeed"))
    as [ws|e|] eqn:E2; [|reflexivity|reflexivity].
  eapply bind_normal; [reflexivity|].
  unfold console_log, emit, printed. cbn [console issued unhandled uncaught].
  rewrite <- app_assoc. reflexivity.
Qed.

(** X8: whenever [current_weather] is truthy, [displayWeather] prints
    whatever the two fields render as, and never the unavailable notice:
    a field that is missing, and any field of a [current_weather] that is
    not an object, shows as [undefined].  The two lines are not printed
    together: when the wind speed cannot be rendered the temperature line
    is already out when the exception leaves the function. *)
Theorem displayWeather_renders_what_it_finds (data : Value) (label : string) (w : World) :
  truthy (opt_get data "current_weather") = true ->
  (forall t ws,
      to_string (get_prop (opt_get data "current_weather") "temperature") = Normal t ->
      to_string (get_prop (opt_get data "current_weather") "windspeed") = Normal ws ->
      View.displayWeather data label w
      = (Normal tt,
         printed [out (View.prefix_of label +:+ "🌡️  Temperature in Pretoria: " +:+ t +:+ "°C");
                  out (View.prefix_of label +:+ "💨  Wind Speed: " +:+ ws +:+ " km/h")] w))
  /\ (get_prop (opt_get data "current_weather") "temperature" = VUndefined ->
      get_prop (opt_get data "current_weather") "windspeed" = VUndefined ->
      View.displayWeather data label w
      = (Normal tt,
         printed [out (View.prefix_of label +:+ "🌡️  Temperature in Pretoria: undefined°C");
                  out (View.prefix_of label +:+ "💨  Wind Speed: undefined km/h")] w))
  /\ (forall t e,
      to_string (get_prop (opt_get data "current_weather") "temperature") = Normal t ->
      to_string (get_prop (opt_get data "current_weather") "windspeed") = Throw e ->
      View.displayWeather data label w
      = (Throw e,
         printed [out (View.prefix_of label +:+ "🌡️  Temperature in Pretoria: " +:+ t +:+ "°C")] w)).
Proof.
  intros Ht. rewrite (displayWeather_truthy data label w Ht).
  split; [|split].
  - intros t ws -> ->. reflexivity.
  - intros -> ->. reflexivity.
  - intros t e -> ->. reflexivity.
Qed.

Lemma displayWeather_renders_what_it_finds_witness :
  truthy (opt_get (VObj [("current_weather", VBool true)]) "current_weather") = true
  /\ View.displayWeather (VObj [("current_weather", VBool true)]) "Callback" world0
     = (Normal tt,
        printed [out (View.prefix_of "Callback" +:+ "🌡️  Temperature in Pretoria: undefined°C");
                 out (View.prefix_of "Callback" +:+ "💨  Wind Speed: undefined km/h")] world0).
Proof.
  split; [reflexivity|].
  apply (proj1 (proj2 (displayWeather_renders_what_it_finds
                         (VObj [("current_weather", VBool true)]) "Callback" world0 eq_refl)));
    reflexivity.
Defined.

(** ** Crashes and unhandled rejections *)

Lemma safe_ret {A} (a : A) : safe (mret a : Js A).
Proof. intros w e w'. discriminate. Qed.

Lemma safe_emit (l : Line) : safe (emit l).
Proof. intros w e w'. discriminate. Qed.

Lemma safe_try_catch {A} (body : Js A) (handler : JsError -> Js A) :
  (forall e, safe (handler e)) -> safe (try_catch body handler).
Proof.
  intros Hh w e w'. unfold try_catch.
  destruct (body w) as [[a|e0|] w1]; try discriminate. apply Hh.
Qed.

Lemma safe_try_finally {A} (body : Js A) (final : Js unit) :
  safe body -> safe final -> safe (try_finally body final).
Proof.
  intros Hb Hf w e w'. unfold try_finally.
  destruct (body w) as [[a|e0|] w1] eqn:Eb; try discriminate.
  - destruct (final w1) as [[[]|e1|] w2] eqn:Ef; try discriminate.
    now elim (Hf w1 e1 w2).
  - now elim (Hb w e0 w1).
Qed.

Lemma safe_displayHeader version : safe (View.displayHeader version).
Proof. intros w e w'. discriminate. Qed.

Lemma safe_displayFooter version : safe (View.displayFooter version).
Proof. intros w e w'. discriminate. Qed.

Section Clean.
Variable fetch : NetResult -> (Outcome -> Js unit) -> Js unit.
Variable dispatch : Handler -> Outcome -> Js unit.

Hypothesis fetch_calls : forall r cb w,
  (exists e, fetch r cb w = cb (Failure e) w)
  \/ (exists v, fetch r cb w = try_catch (cb (Success v)) (fun e => cb (Failure e)) w).
Hypothesis dispatch_quiet : forall h o, quiet (dispatch h o).
Hypothesis dispatch_safe : forall h e, safe (dispatch h (Failure e)).

(** One delivery neither ends the process nor leaves a rejection: what
    the callback throws on a payload comes back to it as a failure, and
    on a failure it does not throw. *)
Lemma delivery_clean (r : NetResult) (h : Handler) (w : World) :
  process_frame w (run_task (fetch r (dispatch h)) w).
Proof.
  unfold run_task. destruct (uncaught w) as [e0|] eqn:Eu; [reflexivity|].
  destruct (fetch_calls r (dispatch h) w) as [[e ->]|[v ->]].
  - pose proof (dispatch_quiet h (Failure e) w) as Hq.
    destruct (dispatch h (Failure e) w) as [[[]|e1|] w1] eqn:E; simpl in Hq; try exact Hq.
    now elim (dispatch_safe h e w e1 w1).
  - unfold try_catch.
    pose proof (dispatch_quiet h (Success v) w) as Hq.
    destruct (dispatch h (Success v) w) as [[[]|e1|] w1] eqn:E; simpl in Hq; try exact Hq.
    pose proof (dispatch_quiet h (Failure e1) w1) as Hq1.
    destruct (dispatch h (Failure e1) w1) as [[[]|e2|] w2] eqn:E1; simpl in Hq1;
      try (etransitivity; [exact Hq | exact Hq1]).
    now elim (dispatch_safe h e1 w1 e2 w2).
Qed.

Lemma event_loop_clean (fuel : nat) (net : nat -> NetResult) (i : nat) (w : World) :
  process_frame w (event_loop fuel fetch dispatch net i w).
Proof.
  revert i w. induction fuel as [|fuel IH]; intros i w; [reflexivity|].
  rewrite event_loop_step. destruct (issued w !! i) as [[req h]|]; [|reflexivity].
  etransitivity; [apply delivery_clean | apply IH].
Qed.

End Clean.

Lemma issue_then_return_quiet (r : Request) (h : Handler) : quiet (issue r h;; mret tt).
Proof.
  unfold quiet. apply preserves_bind; [exact _ | apply issue_quiet|].
  intros _. apply preserves_ret. exact _.
Qed.

Lemma quiet_seq {A} (m : Js unit) (k : Js A) : quiet m -> quiet k -> quiet (m;; k).
Proof.
  intros Hm Hk. unfold quiet. apply preserves_bind; [exact _ | exact Hm|].
  intros _. exact Hk.
Qed.

Lemma callbackController_dispatch_quiet rt h o :
  quiet (CallbackController.dispatch rt h o).
Proof.
  destruct h;
    try (unfold CallbackController.dispatch, quiet; apply preserves_ret; exact _);
    destruct o as [v|e];
    try apply (console_only_quiet _ (displayError_console_only _ _)).
  - apply quiet_seq; [apply console_only_quiet, displayWeather_console_only|].
    apply issue_then_return_quiet.
  - apply quiet_seq; [apply console_only_quiet, displayNews_console_only|].
    apply issue_then_return_quiet.
  - apply quiet_seq; apply console_only_quiet;
      [apply displayWeather_console_only | apply displayFooter_console_only].
Qed.

Lemma headlines_console_only (posts : Value) :
  console_only (CallbackVersion.slice5_forEach posts (fun p i =>
    title ← lift (get_member p "title");
    t ← interp title;
    console_log (show_nat (i + 1) +:+ ". " +:+ t))).
Proof.
  apply slice5_forEach_console_only. intros item i.
  unfold console_log, interp. frame_tac.
Qed.

Lemma callbackVersion_dispatch_quiet h o : quiet (CallbackVersion.dispatch h o).
Proof.
  destruct h;
    try (unfold CallbackVersion.dispatch, quiet; apply preserves_ret; exact _);
    destruct o as [v|e];
    try apply (console_only_quiet _ (emit_console_only _)).
  - apply quiet_seq; [apply (console_only_quiet _ (emit_console_only _))|].
    apply issue_then_return_quiet.
  - apply quiet_seq; [apply (console_only_quiet _ (emit_console_only _))|].
    apply quiet_seq; [apply console_only_quiet, headlines_console_only|].
    apply issue_then_return_quiet.
  - apply quiet_seq; apply (console_only_quiet _ (emit_console_only _)).
Qed.

(** X9: the callback scripts cannot crash.  For every network and every
    [JSON.parse], also with payloads the display code throws on, the run
    of callbackController.ts and the run of callbackVersion.ts end with
    no uncaught exception (and no rejection, there being no promise):
    whatever a callback throws on a payload is caught by the fetch
    helper and handed back to the same callback as a failure, and no
    callback throws on a failure. *)
Theorem callback_scripts_never_crash (rt : Runtime) (net : nat -> NetResult) (fuel : nat) :
  uncaught (CallbackController.run rt net) = None
  /\ unhandled (CallbackController.run rt net) = []
  /\ uncaught (CallbackVersion.run rt net) = None
  /\ unhandled (CallbackVersion.run rt net) = []
  /\ uncaught (event_loop fuel (HttpClient.httpGetJson rt) (CallbackController.dispatch rt)
                          net 0 (run_task CallbackController.main world0)) = None
  /\ uncaught (event_loop fuel (Legacy.httpsGetJson rt) CallbackVersion.dispatch
                          net 0 (run_task CallbackVersion.main world0)) = None.
Proof.
  assert (Hnew : forall n,
    process_frame (run_task CallbackController.main world0)
      (event_loop n (HttpClient.httpGetJson rt) (CallbackController.dispatch rt) net 0
                  (run_task CallbackController.main world0))).
  { intros n. apply event_loop_clean.
    - apply httpGetJson_calls.
    - apply callbackController_dispatch_quiet.
    - intros h e w e' w'. destruct h; discriminate. }
  assert (Hold : forall n,
    process_frame (run_task CallbackVersion.main world0)
      (event_loop n (Legacy.httpsGetJson rt) CallbackVersion.dispatch net 0
                  (run_task CallbackVersion.main world0))).
  { intros n. apply event_loop_clean.
    - apply httpsGetJson_calls.
    - apply callbackVersion_dispatch_quiet.
    - intros h e w e' w'. destruct h; discriminate. }
  unfold CallbackController.run, CallbackVersion.run.
  destruct (Hnew 3) as [H1 H2], (Hold 3) as [H3 H4].
  destruct (Hnew fuel) as [_ H5], (Hold fuel) as [_ H6].
  repeat split; assumption.
Qed.

(** One step of a proof that a piece of controller code is quiet, by
    the shape of the code. *)
Ltac quiet_step :=
  match goal with
  | |- quiet _ => unfold quiet
  | |- PreOrder _ => exact _
  | |- forall _, _ => intro
  | |- preserves _ (View.displayHeader _) =>
      apply (console_only_quiet _ (displayHeader_console_only _))
  | |- preserves _ (View.displayFooter _) =>
      apply (console_only_quiet _ (displayFooter_console_only _))
  | |- preserves _ (View.displayError _ _) =>
      apply (console_only_quiet _ (displayError_console_only _ _))
  | |- preserves _ (View.displayWeather _ _) =>
      apply (console_only_quiet _ (displayWeather_console_only _ _))
  | |- preserves _ (View.displayNews _ _ _) =>
      apply (console_only_quiet _ (displayNews_console_only _ _ _))
  | |- preserves _ (CallbackVersion.slice5_forEach _ _) =>
      apply (console_only_quiet _ (headlines_console_only _))
  | |- preserves _ (PromiseController.on_race_fulfilled _ _) => apply quiet_on_race_fulfilled
  | |- preserves _ (PromiseVersion.on_race_fulfilled _) => apply quiet_legacy_on_race_fulfilled
  | |- preserves _ (mbind _ _) => apply preserves_bind
  | |- preserves _ (try_catch _ _) => apply preserves_try_catch
  | |- preserves _ (try_finally _ _) => apply preserves_try_finally
  | |- preserves _ (then_catch _ _ _) => apply preserves_then_catch
  | |- preserves _ (await _) => apply preserves_await
  | |- preserves _ (issue _ _) => apply issue_quiet
  | |- preserves _ (emit _) => apply (console_only_quiet _ (emit_console_only _))
  | |- preserves _ (mret _) => apply preserves_ret
  end.

Ltac quiet_tac := repeat quiet_step.

Lemma sequential_chain_quiet rt net : quiet (PromiseController.sequential_chain rt net).
Proof.
  unfold PromiseController.sequential_chain, PromiseController.then_weather,
    PromiseController.then_news, PromiseController.then_complete,
    PromiseController.catch_chain, Model.getWeatherPromise, Model.getNewsPromise, console_log.
  cbv zeta. quiet_tac.
Qed.

Lemma parallel_all_quiet rt net schedule : quiet (PromiseController.parallel_all rt net schedule).
Proof.
  unfold PromiseController.parallel_all, PromiseController.on_all_fulfilled,
    PromiseController.on_all_rejected, Model.getWeatherPromise, Model.getNewsPromise, console_log.
  cbv zeta. quiet_tac.
Qed.

Lemma race_quiet rt net schedule : quiet (PromiseController.race rt net schedule).
Proof.
  unfold PromiseController.race, PromiseController.on_race_rejected,
    Model.getWeatherPromise, Model.getNewsPromise.
  quiet_tac.
Qed.

Lemma async_run_body_quiet rt net schedule : quiet (AsyncController.run_body rt net schedule).
Proof.
  unfold AsyncController.run_body, AsyncController.fetch_and_display,
    AsyncController.parallel_stage, AsyncController.additional_fetch,
    AsyncController.display_results, Model.getWeatherPromise, Model.getNewsPromise.
  cbv zeta. quiet_tac.
Qed.

Lemma legacy_race_quiet rt net schedule : quiet (PromiseVersion.race rt net schedule).
Proof.
  unfold PromiseVersion.race, PromiseVersion.on_race_rejected, PromiseVersion.get,
    console_error_args.
  quiet_tac.
Qed.

Lemma legacy_chain_quiet rt net : quiet (PromiseVersionChain.sequential_chain rt net).
Proof.
  unfold PromiseVersionChain.sequential_chain, PromiseVersionChain.then_weather,
    PromiseVersionChain.then_news, PromiseVersionChain.then_complete,
    PromiseVersionChain.catch_chain, PromiseVersionChain.print_headlines, PromiseVersion.get,
    console_log, console_log_args, console_error_args.
  cbv zeta. quiet_tac.
Qed.

Lemma legacy_async_run_body_quiet rt net schedule :
  quiet (AsyncAwaitVersion.run_body rt net schedule).
Proof.
  unfold AsyncAwaitVersion.run_body, AsyncAwaitVersion.parallel_stage,
    AsyncAwaitVersion.single_fetch, PromiseVersionChain.print_headlines, PromiseVersion.get,
    console_log, console_log_args, console_error_args.
  cbv zeta. quiet_tac.
Qed.

Lemma run_reaction_keeps_clean (job : Js unit) (w : World) :
  safe job -> quiet job -> clean w -> clean (run_reaction job w).
Proof.
  intros Hs Hq [Hu Hc]. destruct (run_reaction_clean job w Hs Hq) as [H1 H2].
  split; congruence.
Qed.

(** X10: the promise-style programs leave no rejection unhandled and no
    exception uncaught, for every network, every [JSON.parse], every
    payload and every order (or absence) of settlement: each chain ends
    in a [.catch()] or a [catch] block whose handler only prints, so an
    error from any stage, and an exception from any handler before it,
    ends there. *)
Theorem promise_runs_leave_no_rejection (rt : Runtime) (net : nat -> NetResult)
        (schedule : list nat) :
  clean (PromiseController.run_sequential rt net)
  /\ clean (PromiseController.run_all rt net schedule)
  /\ clean (PromiseController.run_race rt net schedule)
  /\ clean (AsyncController.run rt net schedule)
  /\ clean (PromiseVersion.run_race rt net schedule)
  /\ clean (run_reaction (PromiseVersionChain.sequential_chain rt net)
                         (run_task (console_log "=== Promise Version ===") world0))
  /\ clean (AsyncAwaitVersion.run rt net schedule).
Proof.
  repeat match goal with |- _ /\ _ => split end.
  - apply run_reaction_keeps_clean; [| apply sequential_chain_quiet | now split].
    apply safe_try_catch. intros e. apply safe_displayError.
  - apply run_reaction_keeps_clean; [| apply parallel_all_quiet | now split].
    apply safe_bind; [apply safe_issue|]. intros p.
    apply safe_bind; [apply safe_issue|]. intros q.
    apply safe_then_catch. intros e. apply safe_displayError.
  - apply run_reaction_keeps_clean; [| apply race_quiet | now split].
    apply safe_bind; [apply safe_issue|]. intros p.
    apply safe_bind; [apply safe_issue|]. intros q.
    apply safe_then_catch. intros e. apply safe_displayError.
  - apply run_reaction_keeps_clean; [| apply async_run_body_quiet | now split].
    apply safe_bind; [apply safe_displayHeader|]. intros _.
    apply safe_try_finally; [|apply safe_displayFooter].
    apply safe_try_catch. intros e. apply safe_displayError.
  - apply run_reaction_keeps_clean; [| apply legacy_race_quiet | now split].
    apply safe_bind; [apply safe_issue|]. intros p.
    apply safe_bind; [apply safe_issue|]. intros q.
    apply safe_then_catch. intros e. apply safe_emit.
  - apply run_reaction_keeps_clean; [| apply legacy_chain_quiet | now split].
    apply safe_try_catch. intros e. apply safe_emit.
  - apply run_reaction_keeps_clean; [| apply legacy_async_run_body_quiet | now split].
    apply safe_try_finally; [|apply safe_emit].
    apply safe_try_catch. intros e. apply safe_emit.
Qed.

(** ** The requests of the callback scripts *)

(** A script of three nested stages issues the requests of its stages in
    order, and stops after any of them. *)
Lemma three_stages_in_order
      (fetch : NetResult -> (Outcome -> Js unit) -> Js unit)
      (dispatch : Handler -> Outcome -> Js unit)
      (fetch_calls : forall r cb w,
          (exists e, fetch r cb w = cb (Failure e) w)
          \/ (exists v, fetch r cb w = try_catch (cb (Success v)) (fun e => cb (Failure e)) w))
      (on_failure : forall h e w, issued (snd (dispatch h (Failure e) w)) = issued w)
      (on_success : forall h v w,
          issued (snd (dispatch h (Success v) w)) = issued w
          \/ (fst (dispatch h (Success v) w) = Normal tt
              /\ issued (snd (dispatch h (Success v) w)) = issued w ++ follow_up h))
      (net : nat -> NetResult) (w : World)
      (r0 r1 r2 : Request) (h0 h1 h2 : Handler) :
  issued w = [(r0, h0)] ->
  follow_up h0 = [(r1, h1)] -> follow_up h1 = [(r2, h2)] -> follow_up h2 = [] ->
  exists n, 1 <= n <= 3
    /\ issued (event_loop 3 fetch dispatch net 0 w) = take n [(r0, h0); (r1, h1); (r2, h2)].
Proof.
  intros Hw F0 F1 F2.
  pose proof (stage_issues fetch dispatch fetch_calls on_failure on_success) as Hstage.
  rewrite (event_loop_at _ _ _ _ _ _ r0 h0) by now rewrite Hw.
  destruct (Hstage (net 0) h0 w) as [H1|H1]; rewrite Hw in H1.
  { exists 1. split; [lia|]. rewrite event_loop_stop by now rewrite H1. exact H1. }
  rewrite F0 in H1.
  rewrite (event_loop_at _ _ _ _ _ _ r1 h1) by now rewrite H1.
  destruct (Hstage (net 1) h1 (run_task (fetch (net 0) (dispatch h0)) w)) as [H2|H2];
    rewrite H1 in H2.
  { exists 2. split; [lia|]. rewrite event_loop_stop by now rewrite H2. exact H2. }
  rewrite F1 in H2.
  rewrite (event_loop_at _ _ _ _ _ _ r2 h2) by now rewrite H2.
  exists 3. split; [lia|].
  destruct (Hstage (net 2) h2
              (run_task (fetch (net 1) (dispatch h1))
                        (run_task (fetch (net 0) (dispatch h0)) w))) as [H3|H3];
    rewrite H2 in H3; [|rewrite F2, app_nil_r in H3]; simpl; exact H3.
Qed.

(** X11: whatever the network answers, a callback script issues between
    one and three requests, and always the requests of its stages in
    their order (weather, news, weather again): a stage is never skipped
    or repeated, and nothing is requested after the third.  After three
    deliveries the script is idle: further turns of the event loop
    change nothing. *)
Theorem callback_scripts_request_in_stage_order (rt : Runtime) (net : nat -> NetResult) :
  (exists n, 1 <= n <= 3
     /\ issued (CallbackController.run rt net) = take n controller_requests)
  /\ (exists n, 1 <= n <= 3
        /\ issued (CallbackVersion.run rt net) = take n version_requests)
  /\ (forall k,
        event_loop (3 + k) (HttpClient.httpGetJson rt) (CallbackController.dispatch rt) net 0
                   (run_task CallbackController.main world0)
        = CallbackController.run rt net
        /\ event_loop (3 + k) (Legacy.httpsGetJson rt) CallbackVersion.dispatch net 0
                      (run_task CallbackVersion.main world0)
           = CallbackVersion.run rt net).
Proof.
  split; [|split].
  - apply (three_stages_in_order _ _ (httpGetJson_calls rt)
             (callbackController_on_failure rt) (callbackController_on_success rt) net _
             Model.weatherRequest Model.newsRequest Model.weatherRequest
             OnWeather OnNews OnSecondWeather); reflexivity.
  - apply (three_stages_in_order _ _ (httpsGetJson_calls rt)
             callbackVersion_on_failure callbackVersion_on_success net _
             (mkRequest CallbackVersion.weatherUrl ∅) (mkRequest CallbackVersion.newsUrl ∅)
             (mkRequest CallbackVersion.weatherUrl ∅)
             LegacyOnWeather LegacyOnNews LegacyOnSecondWeather); reflexivity.
  - intros k. apply callback_scripts_reach_quiescence.
Qed.

(** ** The view only prints *)

Lemma printer_ret {A} (a : A) : printer (mret a : Js A).
Proof. intros w. unfold mret, Js_ret, js_ret. simpl. now rewrite printed_nil. Qed.

Lemma printer_lift {A} (c : Completion A) : printer (lift c).
Proof. intros w. unfold lift. simpl. now rewrite printed_nil. Qed.

Lemma printer_throw {A} (e : JsError) : printer (throw e : Js A).
Proof. intros w. unfold throw. simpl. now rewrite printed_nil. Qed.

Lemma printer_emit (l : Line) : printer (emit l).
Proof. intros w. reflexivity. Qed.

Lemma printer_bind {A B} (m : Js A) (k : A -> Js B) :
  printer m -> (forall a, printer (k a)) -> printer (m ≫= k).
Proof.
  intros Hm Hk w. unfold mbind, Js_bind, js_bind. rewrite (Hm w).
  destruct (m world0) as [[a|e|] w0]; cbn [fst snd]; try reflexivity.
  rewrite (Hk a (printed (console w0) w)), (Hk a w0), printed_app. reflexivity.
Qed.

Lemma printer_forEach_from (items : list Value) (f : Value -> nat -> Js unit) (index : nat) :
  (forall item i, printer (f item i)) -> printer (View.forEach_from index items f).
Proof.
  intros Hf. revert index. induction items as [|item rest IH]; intros index.
  - apply printer_ret.
  - apply printer_bind; [apply Hf|]. intros _. apply IH.
Qed.

Lemma printer_displayError context error : printer (View.displayError context error).
Proof. apply printer_emit. Qed.

Lemma printer_displayWeather data label : printer (View.displayWeather data label).
Proof.
  unfold View.displayWeather. cbv zeta.
  destruct (truthy (opt_get data "current_weather")); [|apply printer_emit].
  apply printer_bind; [apply printer_lift|]. intros temperature.
  apply printer_bind; [apply printer_lift|]. intros t.
  apply printer_bind; [apply printer_emit|]. intros _.
  apply printer_bind; [apply printer_lift|]. intros windspeed.
  apply printer_bind; [apply printer_lift|]. intros ws.
  apply printer_emit.
Qed.

Lemma printer_displayNews rt articles label : printer (View.displayNews rt articles label).
Proof.
  unfold View.displayNews. cbv zeta.
  apply printer_bind; [apply printer_lift|]. intros [|]; [|apply printer_emit].
  apply printer_bind; [apply printer_emit|]. intros _.
  unfold View.forEach.
  destruct articles; try apply printer_throw.
  apply printer_forEach_from. intros item i.
  apply printer_bind; [apply printer_lift|]. intros title.
  apply printer_bind; [apply printer_lift|]. intros t.
  apply printer_emit.
Qed.

(** What [displayWeather] and [displayNews] do in any world, from what
    they do in the empty one. *)
Lemma displayWeather_lines data label w :
  View.displayWeather data label w
  = (fst (View.displayWeather data label world0), printed (weather_lines data label) w).
Proof. apply printer_displayWeather. Qed.

Lemma displayNews_lines rt articles label w :
  View.displayNews rt articles label w
  = (fst (View.displayNews rt articles label world0), printed (news_lines rt articles label) w).
Proof. apply printer_displayNews. Qed.

Lemma printed_header version w :
  View.displayHeader version w = (Normal tt, printed (header_lines version) w).
Proof.
  unfold View.displayHeader, header_lines, printed, console_log, emit, mbind, Js_bind, js_bind.
  cbn [console issued unhandled uncaught fst snd]. now rewrite <- !app_assoc.
Qed.

Lemma printed_footer version w :
  View.displayFooter version w = (Normal tt, printed (footer_lines version) w).
Proof.
  unfold View.displayFooter, footer_lines, printed, console_log, emit, mbind, Js_bind, js_bind.
  cbn [console issued unhandled uncaught fst snd]. now rewrite <- !app_assoc.
Qed.

Lemma renderable_weather_normal (data : Value) (label : string) (w : World) :
  renderable_weather data = true -> fst (View.displayWeather data label w) = Normal tt.
Proof.
  unfold renderable_weather. cbv zeta. intros H.
  destruct (truthy (opt_get data "current_weather")) eqn:Et.
  - simpl in H. apply andb_prop in H as [H1 H2].
    destruct (printable_to_string _ H1) as [t Ht], (printable_to_string _ H2) as [ws Hws].
    now rewrite (displayWeather_truthy data label w Et), Ht, Hws.
  - unfold View.displayWeather. cbv zeta. now rewrite Et.
Qed.

Lemma renderable_articles_normal (rt : Runtime) (items : list Value) (label : string)
      (w : World) :
  forallb renderable_article items = true ->
  fst (View.displayNews rt (VArr items) label w) = Normal tt.
Proof.
  intros H. destruct items as [|a items]; [reflexivity|].
  destruct (forEach_renderable (a :: items) 0
              (printed [out (nl +:+ View.prefix_of label +:+ "📰  Top News Headlines:")] w) H)
    as [w' Hw'].
  assert (Hx : View.displayNews rt (VArr (a :: items)) label w = (Normal tt, w')).
  { unfold View.displayNews. cbv zeta.
    apply (bind_normal _ _ w w true); [reflexivity|]. cbv beta iota.
    apply (bind_normal _ _ w
             (printed [out (nl +:+ View.prefix_of label +:+ "📰  Top News Headlines:")] w) tt);
      [reflexivity|].
    exact Hw'. }
  now rewrite Hx.
Qed.

(** ** Later stages of the callback controller *)

Lemma run_task_normal (task : Js unit) (w w' : World) :
  uncaught w = None -> task w = (Normal tt, w') -> run_task task w = w'.
Proof. intros Hu Ht. unfold run_task. now rewrite Hu, Ht. Qed.

Lemma on_weather_renders (v : Value) (w : World) :
  renderable_weather v = true ->
  CallbackController.on_weather (Success v) w
  = (Normal tt,
     mkWorld (console w ++ weather_lines v "Callback")
             (issued w ++ [(Model.newsRequest, OnNews)]) (unhandled w) (uncaught w)).
Proof.
  intros H. unfold CallbackController.on_weather.
  eapply bind_normal.
  - rewrite displayWeather_lines, (renderable_weather_normal v "Callback" world0 H). reflexivity.
  - reflexivity.
Qed.

Lemma on_news_renders (rt : Runtime) (n : Value) (items : list Value) (w : World) :
  coalesce (opt_get n "articles") (VArr []) = VArr items ->
  forallb renderable_article items = true ->
  CallbackController.on_news rt (Success n) w
  = (Normal tt,
     mkWorld (console w ++ news_lines rt (VArr items) "Callback")
             (issued w ++ [(Model.weatherRequest, OnSecondWeather)])
             (unhandled w) (uncaught w)).
Proof.
  intros Ha H. unfold CallbackController.on_news, CallbackController.empty_array.
  cbv zeta. rewrite Ha.
  eapply bind_normal.
  - rewrite displayNews_lines, (renderable_articles_normal rt items "Callback" world0 H).
    reflexivity.
  - reflexivity.
Qed.

(** X13: a failure at a later stage of callbackController.ts.  After a
    weather payload that renders, a failed news fetch ends the run with
    two requests issued and its error, labelled [News Fetch], as the
    last line.  After news that render as well, a failed second weather
    fetch ends the run with all three requests issued and its error,
    labelled [Second Weather Fetch], as the last line: what the earlier
    stages printed stays, and the footer is not printed. *)
Theorem callbackController_later_failure (rt : Runtime) (net : nat -> NetResult)
        (v : Value) (e : JsError) :
  HttpClient.outcome rt (net 0) = Success v ->
  renderable_weather v = true ->
  (HttpClient.outcome rt (net 1) = Failure e ->
   CallbackController.run rt net
   = mkWorld (header_lines "Callback" ++ weather_lines v "Callback"
              ++ [err ("❌  Error [News Fetch]: " +:+ message e)])
             (take 2 controller_requests) [] None)
  /\ (forall n items,
        HttpClient.outcome rt (net 1) = Success n ->
        coalesce (opt_get n "articles") (VArr []) = VArr items ->
        forallb renderable_article items = true ->
        HttpClient.outcome rt (net 2) = Failure e ->
        CallbackController.run rt net
        = mkWorld (header_lines "Callback" ++ weather_lines v "Callback"
                   ++ news_lines rt (VArr items) "Callback"
                   ++ [err ("❌  Error [Second Weather Fetch]: " +:+ message e)])
                  controller_requests [] None).
Proof.
  intros H0 Hv.
  assert (H1 : run_task (HttpClient.httpGetJson rt (net 0)
                           (CallbackController.dispatch rt OnWeather))
                        (run_task CallbackController.main world0)
               = mkWorld (header_lines "Callback" ++ weather_lines v "Callback")
                         (take 2 controller_requests) [] None).
  { apply run_task_normal; [reflexivity|].
    rewrite (httpGetJson_success rt _ _ v _ H0). unfold try_catch.
    change (CallbackController.dispatch rt OnWeather (Success v))
      with (CallbackController.on_weather (Success v)).
    now rewrite (on_weather_renders v _ Hv). }
  unfold CallbackController.run.
  rewrite (event_loop_at _ _ _ _ _ _ Model.weatherRequest OnWeather) by reflexivity.
  rewrite H1.
  rewrite (event_loop_at _ _ _ _ _ _ Model.newsRequest OnNews) by reflexivity.
  split.
  - intros He.
    rewrite (run_task_normal _ _
               (mkWorld (header_lines "Callback" ++ weather_lines v "Callback"
                         ++ [err ("❌  Error [News Fetch]: " +:+ message e)])
                        (take 2 controller_requests) [] None)).
    + now apply event_loop_stop.
    + reflexivity.
    + rewrite (httpGetJson_failure rt _ _ e _ He).
      unfold CallbackController.dispatch, CallbackController.on_news, View.displayError,
        console_error, emit.
      cbn [console issued unhandled uncaught]. now rewrite <- app_assoc.
  - intros n items Hn Ha Hi He.
    rewrite (run_task_normal _ _
               (mkWorld (header_lines "Callback" ++ weather_lines v "Callback"
                         ++ news_lines rt (VArr items) "Callback")
                        controller_requests [] None)).
    + rewrite (event_loop_at _ _ _ _ _ _ Model.weatherRequest OnSecondWeather) by reflexivity.
      rewrite (run_task_normal _ _
                 (mkWorld (header_lines "Callback" ++ weather_lines v "Callback"
                           ++ news_lines rt (VArr items) "Callback"
                           ++ [err ("❌  Error [Second Weather Fetch]: " +:+ message e)])
                          controller_requests [] None)).
      * now apply event_loop_stop.
      * reflexivity.
      * rewrite (httpGetJson_failure rt _ _ e _ He).
        unfold CallbackController.dispatch, CallbackController.on_second_weather,
          View.displayError, console_error, emit.
        cbn [console issued unhandled uncaught]. now rewrite <- !app_assoc.
    + reflexivity.
    + rewrite (httpGetJson_success rt _ _ n _ Hn). unfold try_catch.
      change (CallbackController.dispatch rt OnNews (Success n))
        with (CallbackController.on_news rt (Success n)).
      rewrite (on_news_renders rt n items _ Ha Hi).
      cbn [console issued unhandled uncaught]. now rewrite <- app_assoc.
Qed.

Lemma callbackController_later_failure_witness :
  HttpClient.outcome sample_runtime
    (scripted [ok [weather_text]; NetResponse (Some 401) ["Unauthorized"]] 0)
  = Success weather_payload
  /\ renderable_weather weather_payload = true
  /\ HttpClient.outcome sample_runtime
       (scripted [ok [weather_text]; NetResponse (Some 401) ["Unauthorized"]] 1)
     = Failure (HttpClient.http_error 401 "Unauthorized")
  /\ CallbackController.run sample_runtime
       (scripted [ok [weather_text]; NetResponse (Some 401) ["Unauthorized"]])
     = mkWorld (header_lines "Callback" ++ weather_lines weather_payload "Callback"
                ++ [err ("❌  Error [News Fetch]: "
                         +:+ message (HttpClient.http_error 401 "Unauthorized"))])
               (take 2 controller_requests) [] None.
Proof.
  split; [reflexivity|]. split; [reflexivity|]. split; [reflexivity|].
  apply (proj1 (callbackController_later_failure sample_runtime
                  (scripted [ok [weather_text]; NetResponse (Some 401) ["Unauthorized"]])
                  weather_payload (HttpClient.http_error 401 "Unauthorized")
                  eq_refl eq_refl)).
  reflexivity.
Defined.

(** X14: an exception thrown by the display code inside a callback of
    callbackController.ts is reported as if the fetch had failed.  The
    fetch helper catches it and calls the same callback again with the
    exception as its error, so the run prints what the display had
    already printed, then the exception under the label of the stage's
    fetch ([Weather Fetch], [News Fetch]), and issues no further
    request. *)
Theorem callbackController_display_exception (rt : Runtime) (net : nat -> NetResult)
        (v : Value) (e : JsError) :
  HttpClient.outcome rt (net 0) = Success v ->
  (fst (View.displayWeather v "Callback" world0) = Throw e ->
   CallbackController.run rt net
   = mkWorld (header_lines "Callback" ++ weather_lines v "Callback"
              ++ [err ("❌  Error [Weather Fetch]: " +:+ message e)])
             (take 1 controller_requests) [] None)
  /\ (renderable_weather v = true ->
      forall n,
        HttpClient.outcome rt (net 1) = Success n ->
        fst (View.displayNews rt (coalesce (opt_get n "articles") (VArr [])) "Callback" world0)
        = Throw e ->
        CallbackController.run rt net
        = mkWorld (header_lines "Callback" ++ weather_lines v "Callback"
                   ++ news_lines rt (coalesce (opt_get n "articles") (VArr [])) "Callback"
                   ++ [err ("❌  Error [News Fetch]: " +:+ message e)])
                  (take 2 controller_requests) [] None).
Proof.
  intros H0. unfold CallbackController.run.
  rewrite (event_loop_at _ _ _ _ _ _ Model.weatherRequest OnWeather) by reflexivity.
  split.
  - intros Hthrow.
    rewrite (run_task_normal _ _
               (mkWorld (header_lines "Callback" ++ weather_lines v "Callback"
                         ++ [err ("❌  Error [Weather Fetch]: " +:+ message e)])
                        (take 1 controller_requests) [] None)).
    + now apply event_loop_stop.
    + reflexivity.
    + rewrite (httpGetJson_success rt _ _ v _ H0). unfold try_catch.
      change (CallbackController.dispatch rt OnWeather (Success v))
        with (CallbackController.on_weather (Success v)).
      unfold CallbackController.on_weather.
      rewrite (bind_throw _ _ _ (printed (weather_lines v "Callback")
                                        (run_task CallbackController.main world0)) e)
        by now rewrite displayWeather_lines, Hthrow.
      unfold CallbackController.dispatch, CallbackController.on_weather, View.displayError,
        console_error, emit.
      cbn [console issued unhandled uncaught printed]. now rewrite <- app_assoc.
  - intros Hv n Hn Hthrow.
    assert (H1 : run_task (HttpClient.httpGetJson rt (net 0)
                             (CallbackController.dispatch rt OnWeather))
                          (run_task CallbackController.main world0)
                 = mkWorld (header_lines "Callback" ++ weather_lines v "Callback")
                           (take 2 controller_requests) [] None).
    { apply run_task_normal; [reflexivity|].
      rewrite (httpGetJson_success rt _ _ v _ H0). unfold try_catch.
      change (CallbackController.dispatch rt OnWeather (Success v))
        with (CallbackController.on_weather (Success v)).
      now rewrite (on_weather_renders v _ Hv). }
    rewrite H1.
    rewrite (event_loop_at _ _ _ _ _ _ Model.newsRequest OnNews) by reflexivity.
    rewrite (run_task_normal _ _
               (mkWorld (header_lines "Callback" ++ weather_lines v "Callback"
                         ++ news_lines rt (coalesce (opt_get n "articles") (VArr [])) "Callback"
                         ++ [err ("❌  Error [News Fetch]: " +:+ message e)])
                        (take 2 controller_requests) [] None)).
    + now apply event_loop_stop.
    + reflexivity.
    + rewrite (httpGetJson_success rt _ _ n _ Hn). unfold try_catch.
      change (CallbackController.dispatch rt OnNews (Success n))
        with (CallbackController.on_news rt (Success n)).
      unfold CallbackController.on_news, CallbackController.empty_array. cbv zeta.
      erewrite bind_throw by (rewrite displayNews_lines, Hthrow; reflexivity).
      unfold CallbackController.dispatch, CallbackController.on_news, View.displayError,
        console_error, emit.
      cbn [console issued unhandled uncaught printed]. now rewrite <- !app_assoc.
Qed.

Lemma callbackController_display_exception_witness :
  HttpClient.outcome sample_runtime (scripted [ok [weather_text]; ok [null_article_text]] 0)
  = Success weather_payload
  /\ renderable_weather weather_payload = true
  /\ HttpClient.outcome sample_runtime (scripted [ok [weather_text]; ok [null_article_text]] 1)
     = Success null_article_payload
  /\ CallbackController.run sample_runtime (scripted [ok [weather_text]; ok [null_article_text]])
     = mkWorld (header_lines "Callback" ++ weather_lines weather_payload "Callback"
                ++ news_lines sample_runtime
                     (coalesce (opt_get null_article_payload "articles") (VArr [])) "Callback"
                ++ [err ("❌  Error [News Fetch]: "
                         +:+ message (TypeError "Cannot read properties of null (reading 'title')"))])
               (take 2 controller_requests) [] None.
Proof.
  split; [reflexivity|]. split; [reflexivity|]. split; [reflexivity|].
  apply (proj2 (callbackController_display_exception sample_runtime
                  (scripted [ok [weather_text]; ok [null_article_text]])
                  weather_payload
                  (TypeError "Cannot read properties of null (reading 'title')")
                  eq_refl) eq_refl null_article_payload eq_refl).
  reflexivity.
Defined.

(** ** The async functions *)

Lemma issue_pair_then {B} (r1 r2 : Request) (k : nat -> nat -> Js B) (w : World) :
  (p ← issue r1 SettlePromise; q ← issue r2 SettlePromise; k p q) w
  = k (length (issued w)) (S (length (issued w)))
      (mkWorld (console w) (issued w ++ [(r1, SettlePromise); (r2, SettlePromise)])
               (unhandled w) (uncaught w)).
Proof.
  unfold mbind, Js_bind, js_bind, issue. cbn [console issued unhandled uncaught].
  now rewrite length_app, Nat.add_1_r, <- app_assoc.
Qed.

Lemma parallel_stage_fails rt net schedule (w : World) (e : JsError) :
  schedule ≡ₚ [0; 1] ->
  combined (HttpClient.outcome rt (net (length (issued w))))
           (HttpClient.outcome rt (net (S (length (issued w))))) (hd 0 schedule) = inr e ->
  AsyncController.parallel_stage rt net schedule w
  = (Throw e, mkWorld (console w) (issued w ++ parallel_requests) (unhandled w) (uncaught w)).
Proof.
  intros Hs He. unfold AsyncController.parallel_stage, Model.getWeatherPromise,
    Model.getNewsPromise.
  rewrite issue_pair_then. unfold Model.promise.
  rewrite !httpGetJsonPromise_outcome, (promise_all_pair _ _ _ Hs), He. reflexivity.
Qed.

Lemma legacy_parallel_stage_fails rt net schedule (w : World) (e : JsError) :
  schedule ≡ₚ [0; 1] ->
  combined (Legacy.outcome rt (net (length (issued w))))
           (Legacy.outcome rt (net (S (length (issued w))))) (hd 0 schedule) = inr e ->
  AsyncAwaitVersion.parallel_stage rt net schedule w
  = (Throw e,
     mkWorld (console w) (issued w ++ legacy_parallel_requests) (unhandled w) (uncaught w)).
Proof.
  intros Hs He. unfold AsyncAwaitVersion.parallel_stage, PromiseVersion.get.
  rewrite issue_pair_then. unfold PromiseVersion.promise.
  rewrite !httpsGetJsonPromise_outcome, (promise_all_pair _ _ _ Hs), He. reflexivity.
Qed.

(** X15: when the aggregate of the two parallel fetches is a failure,
    [run] of asyncController.ts prints its header, that failure under
    the label [Async/Await Run] and its footer, and nothing else: the
    payload of the fetch that succeeded is not displayed and the
    additional weather fetch is never issued.  [run] of
    asyncAwaitVersion.ts does the same with its own lines. *)
Theorem async_run_outer_catch (rt : Runtime) (net : nat -> NetResult)
        (schedule : list nat) (e : JsError) :
  schedule ≡ₚ [0; 1] ->
  (combined (HttpClient.outcome rt (net 0)) (HttpClient.outcome rt (net 1)) (hd 0 schedule)
   = inr e ->
   AsyncController.run rt net schedule
   = mkWorld (header_lines "Async/Await"
              ++ [err ("❌  Error [Async/Await Run]: " +:+ message e)]
              ++ footer_lines "Async/Await")
             parallel_requests [] None)
  /\ (combined (Legacy.outcome rt (net 0)) (Legacy.outcome rt (net 1)) (hd 0 schedule)
      = inr e ->
      AsyncAwaitVersion.run rt net schedule
      = mkWorld [out "=== Async/Await Version ===";
                 mkLine Stderr [VStr "Async/Await run error:"; VStr (message e)];
                 out "=== Async/Await Version Done ==="]
                legacy_parallel_requests [] None).
Proof.
  intros Hs. split; intros He.
  - unfold AsyncController.run, run_reaction, AsyncController.run_body.
    rewrite (bind_normal _ _ world0 (printed (header_lines "Async/Await") world0) tt
               (Normal tt,
                mkWorld (header_lines "Async/Await"
                         ++ [err ("❌  Error [Async/Await Run]: " +:+ message e)]
                         ++ footer_lines "Async/Await")
                        parallel_requests [] None)); [reflexivity | apply printed_header |].
    unfold try_finally, try_catch, AsyncController.fetch_and_display.
    rewrite (bind_throw _ _ _ _ e
               (parallel_stage_fails rt net schedule
                  (printed (header_lines "Async/Await") world0) e Hs He)).
    reflexivity.
  - unfold AsyncAwaitVersion.run, run_reaction, AsyncAwaitVersion.run_body.
    unfold try_finally, try_catch.
    rewrite (bind_throw _ _ _ _ e
               (legacy_parallel_stage_fails rt net schedule
                  (run_task (console_log "=== Async/Await Version ===") world0) e Hs He)).
    reflexivity.
Qed.

Lemma async_run_outer_catch_witness :
  [1; 0] ≡ₚ [0; 1]
  /\ combined (HttpClient.outcome sample_runtime
                 (scripted [ok [weather_text]; NetFailed (Error "socket hang up")] 0))
              (HttpClient.outcome sample_runtime
                 (scripted [ok [weather_text]; NetFailed (Error "socket hang up")] 1))
              (hd 0 [1; 0])
     = inr (Error "socket hang up")
  /\ AsyncController.run sample_runtime
       (scripted [ok [weather_text]; NetFailed (Error "socket hang up")]) [1; 0]
     = mkWorld (header_lines "Async/Await"
                ++ [err ("❌  Error [Async/Await Run]: " +:+ message (Error "socket hang up"))]
                ++ footer_lines "Async/Await")
               parallel_requests [] None.
Proof.
  assert (Hs : [1; 0] ≡ₚ [0; 1]) by apply perm_swap.
  split; [exact Hs|]. split; [reflexivity|].
  apply (proj1 (async_run_outer_catch sample_runtime
                  (scripted [ok [weather_text]; NetFailed (Error "socket hang up")])
                  [1; 0] (Error "socket hang up") Hs)).
  reflexivity.
Defined.

(** ** What [finally] guarantees *)

Lemma to_string_resumes (v : Value) : to_string v <> Never.
Proof.
  revert v. fix IH 1. intros v.
  destruct v as [ | | [|] | r | s | items | props]; try discriminate.
  - simpl. induction items as [|x rest IHr]; [discriminate|].
    pose proof (IH x) as Hx. simpl.
    match goal with
    | |- context [?f rest] => set (j := f rest) in *
    end.
    destruct (nullish x); destruct (to_string x) as [sx|e|];
      destruct rest as [|y rest]; destruct j; congruence.
  - simpl. destruct (has_own "toString" props); discriminate.
Qed.

Lemma get_member_resumes (v : Value) (k : string) : get_member v k <> Never.
Proof. destruct v; discriminate. Qed.

Lemma gt_zero_resumes (rt : Runtime) (x : Value) : View.gt_zero rt x <> Never.
Proof.
  destruct x as [ | | b | r | s | items | props]; try discriminate;
    unfold View.gt_zero;
    match goal with
    | |- context [to_string ?v] =>
        pose proof (to_string_resumes v); destruct (to_string v); congruence
    end.
Qed.

Lemma length_positive_resumes (rt : Runtime) (articles : Value) :
  View.length_positive rt articles <> Never.
Proof.
  destruct articles; try discriminate. apply gt_zero_resumes.
Qed.

Lemma resumes_ret {A} (a : A) : resumes (mret a : Js A).
Proof. intros w w'. discriminate. Qed.

Lemma resumes_throw {A} (e : JsError) : resumes (throw e : Js A).
Proof. intros w w'. discriminate. Qed.

Lemma resumes_lift {A} (c : Completion A) : c <> Never -> resumes (lift c).
Proof. intros H w w' E. apply H. unfold lift in E. congruence. Qed.

Lemma resumes_emit (l : Line) : resumes (emit l).
Proof. intros w w'. discriminate. Qed.

Lemma resumes_issue (r : Request) (h : Handler) : resumes (issue r h).
Proof. intros w w'. discriminate. Qed.

Lemma resumes_await_settled {A} (x : A + JsError) : resumes (await (Some x)).
Proof. intros w w'. destruct x; discriminate. Qed.

Lemma resumes_bind {A B} (m : Js A) (k : A -> Js B) :
  resumes m -> (forall a, resumes (k a)) -> resumes (m ≫= k).
Proof.
  intros Hm Hk w w'. unfold mbind, Js_bind, js_bind.
  destruct (m w) as [[a|e|] w1] eqn:E.
  - apply Hk.
  - discriminate.
  - now elim (Hm w w1).
Qed.

Lemma resumes_try_catch {A} (body : Js A) (handler : JsError -> Js A) :
  resumes body -> (forall e, resumes (handler e)) -> resumes (try_catch body handler).
Proof.
  intros Hb Hh w w'. unfold try_catch.
  destruct (body w) as [[a|e|] w1] eqn:E.
  - discriminate.
  - apply Hh.
  - now elim (Hb w w1).
Qed.

Lemma resumes_forEach_from (items : list Value) (f : Value -> nat -> Js unit) (index : nat) :
  (forall item i, resumes (f item i)) -> resumes (View.forEach_from index items f).
Proof.
  intros Hf. revert index. induction items as [|item rest IH]; intros index.
  - apply resumes_ret.
  - apply resumes_bind; [apply Hf|]. intros _. apply IH.
Qed.

Lemma resumes_displayWeather data label : resumes (View.displayWeather data label).
Proof.
  unfold View.displayWeather. cbv zeta.
  destruct (truthy (opt_get data "current_weather")); [|apply resumes_emit].
  apply resumes_bind; [apply resumes_lift, get_member_resumes|]. intros temperature.
  apply resumes_bind; [apply resumes_lift, to_string_resumes|]. intros t.
  apply resumes_bind; [apply resumes_emit|]. intros _.
  apply resumes_bind; [apply resumes_lift, get_member_resumes|]. intros windspeed.
  apply resumes_bind; [apply resumes_lift, to_string_resumes|]. intros ws.
  apply resumes_emit.
Qed.

Lemma resumes_displayNews rt articles label : resumes (View.displayNews rt articles label).
Proof.
  unfold View.displayNews. cbv zeta.
  apply resumes_bind; [apply resumes_lift, length_positive_resumes|].
  intros [|]; [|apply resumes_emit].
  apply resumes_bind; [apply resumes_emit|]. intros _.
  unfold View.forEach.
  destruct articles; try apply resumes_throw.
  apply resumes_forEach_from. intros item i.
  apply resumes_bind; [apply resumes_lift, get_member_resumes|]. intros title.
  apply resumes_bind; [apply resumes_lift, to_string_resumes|]. intros t.
  apply resumes_emit.
Qed.

#[global] Instance console_grows_preorder : PreOrder console_grows.
Proof.
  split.
  - intros w. exists []. now rewrite app_nil_r.
  - intros w1 w2 w3 [l1 H1] [l2 H2]. exists (l1 ++ l2). now rewrite H2, H1, app_assoc.
Qed.

Lemma emit_grows (l : Line) : preserves console_grows (emit l).
Proof. intros w. now exists [l]. Qed.

Lemma issue_grows (r : Request) (h : Handler) : preserves console_grows (issue r h).
Proof. intros w. exists []. simpl. now rewrite app_nil_r. Qed.

Lemma printer_grows {A} (m : Js A) : printer m -> preserves console_grows m.
Proof. intros H w. rewrite (H w). now exists (console (snd (m world0))). Qed.

(** The body of the outer [try] of [run], with its [catch]. *)
Lemma async_guarded_body (rt : Runtime) (net : nat -> NetResult) (schedule : list nat)
      (w : World) :
  schedule ≡ₚ [0; 1] ->
  exists w1,
    try_catch (AsyncController.fetch_and_display rt net schedule)
              (fun err => View.displayError "Async/Await Run" err) w
    = (Normal tt, w1)
    /\ console_grows w w1.
Proof.
  intros Hs.
  set (body := try_catch (AsyncController.fetch_and_display rt net schedule)
                         (fun err => View.displayError "Async/Await Run" err)).
  assert (Hsafe : safe body).
  { apply safe_try_catch. intros e. apply safe_displayError. }
  assert (Hres : resumes body).
  { apply resumes_try_catch; [|intros e; apply resumes_emit].
    unfold AsyncController.fetch_and_display.
    apply resumes_bind.
    - unfold AsyncController.parallel_stage, Model.getWeatherPromise, Model.getNewsPromise.
      apply resumes_bind; [apply resumes_issue|]. intros p.
      apply resumes_bind; [apply resumes_issue|]. intros q.
      unfold Model.promise.
      rewrite !httpGetJsonPromise_outcome, (promise_all_pair _ _ _ Hs).
      apply resumes_bind; [apply resumes_await_settled|]. intros vals.
      unfold AsyncController.display_results. cbv zeta.
      apply resumes_bind; [apply resumes_displayWeather|]. intros _.
      apply resumes_displayNews.
    - intros _. unfold AsyncController.additional_fetch, Model.getWeatherPromise.
      apply resumes_try_catch; [|intros e; apply resumes_emit].
      apply resumes_bind; [apply resumes_issue|]. intros r.
      unfold Model.promise. rewrite httpGetJsonPromise_outcome.
      apply resumes_bind; [|intros additionalWeather; apply resumes_displayWeather].
      destruct (HttpClient.outcome rt (net r)); apply resumes_await_settled. }
  assert (Hgrows : preserves console_grows body).
  { unfold body, AsyncController.fetch_and_display, AsyncController.parallel_stage,
      AsyncController.additional_fetch, AsyncController.display_results,
      Model.getWeatherPromise, Model.getNewsPromise.
    cbv zeta.
    repeat match goal with
    | |- PreOrder _ => exact _
    | |- forall _, _ => intro
    | |- preserves _ (View.displayError _ _) => apply printer_grows, printer_displayError
    | |- preserves _ (View.displayWeather _ _) => apply printer_grows, printer_displayWeather
    | |- preserves _ (View.displayNews _ _ _) => apply printer_grows, printer_displayNews
    | |- preserves _ (mbind _ _) => apply preserves_bind
    | |- preserves _ (try_catch _ _) => apply preserves_try_catch
    | |- preserves _ (await _) => apply preserves_await
    | |- preserves _ (issue _ _) => apply issue_grows
    end. }
  specialize (Hgrows w).
  destruct (body w) as [[[]|e|] w1] eqn:E.
  - exists w1. split; [reflexivity | exact Hgrows].
  - now elim (Hsafe w e w1).
  - now elim (Hres w w1).
Qed.

(** X16: what the [finally] block of [run] in asyncController.ts
    guarantees.  Once both parallel fetches have settled, whatever they
    and the additional fetch answered and whatever the display code did
    with it, [run] completes normally and the footer is the last thing
    printed, after the header and the lines of the stages.  While the
    aggregate of the parallel fetches is pending, [run] is suspended at
    its first [await]: the header and the two requests are all there
    is, and no footer. *)
Theorem async_run_finally (rt : Runtime) (net : nat -> NetResult) (schedule : list nat) :
  (schedule ≡ₚ [0; 1] ->
   fst (AsyncController.run_body rt net schedule world0) = Normal tt
   /\ exists ls,
       lines (AsyncController.run rt net schedule)
       = header_lines "Async/Await" ++ ls ++ footer_lines "Async/Await")
  /\ (promise_all [Model.promise rt net 0; Model.promise rt net 1] schedule = None ->
      fst (AsyncController.run_body rt net schedule world0) = Never
      /\ AsyncController.run rt net schedule
         = mkWorld (header_lines "Async/Await") parallel_requests [] None).
Proof.
  split.
  - intros Hs.
    destruct (async_guarded_body rt net schedule
                (printed (header_lines "Async/Await") world0) Hs) as (w1 & Hbody & ls & Hls).
    assert (Hrun : AsyncController.run_body rt net schedule world0
                   = (Normal tt, printed (footer_lines "Async/Await") w1)).
    { unfold AsyncController.run_body, AsyncController.VERSION.
      eapply bind_normal; [apply printed_header|]. cbv beta.
      unfold try_finally. rewrite Hbody. now rewrite printed_footer. }
    split; [now rewrite Hrun|].
    exists ls. unfold AsyncController.run, run_reaction, lines. rewrite Hrun.
    unfold printed at 1. cbn [console]. rewrite Hls.
    unfold printed. cbn [console]. now rewrite app_assoc.
  - intros Hp.
    assert (Hrun : AsyncController.run_body rt net schedule world0
                   = (Never, mkWorld (header_lines "Async/Await") parallel_requests [] None)).
    { unfold AsyncController.run_body, AsyncController.VERSION.
      eapply bind_normal; [apply printed_header|]. cbv beta.
      unfold try_finally, try_catch, AsyncController.fetch_and_display,
        AsyncController.parallel_stage, Model.getWeatherPromise, Model.getNewsPromise.
      unfold mbind at 1. unfold Js_bind. unfold js_bind at 1.
      rewrite issue_pair_then.
      change (length (issued (printed (header_lines "Async/Await") world0))) with 0.
      rewrite Hp. reflexivity. }
    split; [now rewrite Hrun|].
    unfold AsyncController.run, run_reaction. now rewrite Hrun.
Qed.

Lemma async_run_finally_witness :
  [1; 0] ≡ₚ [0; 1]
  /\ fst (AsyncController.run_body sample_runtime
            (scripted [ok [weather_text]; ok [null_article_text]]) [1; 0] world0)
     = Normal tt
  /\ promise_all [Model.promise sample_runtime (scripted [ok [weather_text]]) 0;
                  Model.promise sample_runtime (scripted [ok [weather_text]]) 1] [0]
     = None
  /\ AsyncController.run sample_runtime (scripted [ok [weather_text]]) [0]
     = mkWorld (header_lines "Async/Await") parallel_requests [] None.
Proof.
  assert (Hs : [1; 0] ≡ₚ [0; 1]) by apply perm_swap.
  split; [exact Hs|]. split; [|split; [reflexivity|]].
  - exact (proj1 (proj1 (async_run_finally sample_runtime
                           (scripted [ok [weather_text]; ok [null_article_text]]) [1; 0]) Hs)).
  - exact (proj2 (proj2 (async_run_finally sample_runtime (scripted [ok [weather_text]]) [0])
                        eq_refl)).
Defined.

(** ** Settlements that are still outstanding *)

Lemma promise_all_one (o1 o2 : Outcome) (k : nat) :
  promise_all [Some o1; Some o2] [k]
  = match [o1; o2] !! k with
    | Some (Failure e) => Some (inr e)
    | _ => None
    end.
Proof. destruct k as [|[|k]]; destruct o1, o2; reflexivity. Qed.

(** X17: [Promise.all] of promiseController.ts waits for both fetches
    but fails fast.  When one fetch has settled and the other is still
    outstanding, a payload leaves the run as it was after the two
    requests (nothing is displayed yet), whereas a failure is rendered
    at once, under the label [Promise.all], without waiting for the
    other fetch. *)
Theorem parallel_all_waits_but_fails_fast (rt : Runtime) (net : nat -> NetResult) (k : nat) :
  (forall v, HttpClient.outcome rt (net k) = Success v ->
     PromiseController.run_all rt net [k]
     = mkWorld (header_lines "Promise") parallel_requests [] None)
  /\ (forall e, k < 2 -> HttpClient.outcome rt (net k) = Failure e ->
        PromiseController.run_all rt net [k]
        = mkWorld (header_lines "Promise" ++ [err ("❌  Error [Promise.all]: " +:+ message e)])
                  parallel_requests [] None).
Proof.
  assert (Hrun : PromiseController.run_all rt net [k]
                 = run_reaction
                     (then_catch
                        (promise_all [Some (HttpClient.outcome rt (net 0));
                                      Some (HttpClient.outcome rt (net 1))] [k])
                        (PromiseController.on_all_fulfilled rt)
                        PromiseController.on_all_rejected)
                     (mkWorld (header_lines "Promise") parallel_requests [] None)).
  { unfold PromiseController.run_all, PromiseController.parallel_all, run_reaction,
      Model.getWeatherPromise, Model.getNewsPromise.
    rewrite issue_pair_then. unfold Model.promise. now rewrite !httpGetJsonPromise_outcome. }
  rewrite Hrun, promise_all_one. split.
  - intros v Hv.
    destruct k as [|[|k]]; cbn [lookup list_lookup]; try rewrite Hv; reflexivity.
  - intros e Hk He.
    destruct k as [|[|k]]; [| |lia]; cbn [lookup list_lookup]; rewrite He; reflexivity.
Qed.

Lemma parallel_all_waits_but_fails_fast_witness :
  1 < 2
  /\ HttpClient.outcome sample_runtime
       (scripted [ok [weather_text]; NetResponse (Some 429) ["slow down"]] 1)
     = Failure (HttpClient.http_error 429 "slow down")
  /\ PromiseController.run_all sample_runtime
       (scripted [ok [weather_text]; NetResponse (Some 429) ["slow down"]]) [1]
     = mkWorld (header_lines "Promise"
                ++ [err ("❌  Error [Promise.all]: "
                         +:+ message (HttpClient.http_error 429 "slow down"))])
               parallel_requests [] None.
Proof.
  assert (Hk : 1 < 2) by lia.
  split; [exact Hk|]. split; [reflexivity|].
  exact (proj2 (parallel_all_waits_but_fails_fast sample_runtime
                  (scripted [ok [weather_text]; NetResponse (Some 429) ["slow down"]]) 1)
               (HttpClient.http_error 429 "slow down") Hk eq_refl).
Defined.

(** ** Later stages of the promise chain *)

Lemma bind_step {A B} (m : Js A) (k : A -> Js B) (w w1 : World) (a : A) :
  m w = (Normal a, w1) -> (m ≫= k) w = k a w1.
Proof. intros Hm. unfold mbind, Js_bind, js_bind. now rewrite Hm. Qed.

(** X18: the single [.catch()] of the [.then()] chain of
    promiseController.ts receives whatever goes wrong after a first
    fetch that succeeded.  A failed news fetch is reported under the
    label [Sequential Chain] after the weather lines; an exception of
    the weather display is reported in the same way and the news fetch
    is then never issued.  In both cases the chain itself completes
    normally and its closing line is not printed. *)
Theorem promise_chain_later_failure (rt : Runtime) (net : nat -> NetResult)
        (v : Value) (e : JsError) (w : World) :
  HttpClient.outcome rt (net (length (issued w))) = Success v ->
  (renderable_weather v = true ->
   HttpClient.outcome rt (net (S (length (issued w)))) = Failure e ->
   PromiseController.sequential_chain rt net w
   = (Normal tt,
      mkWorld (console w ++ weather_lines v "Promise - Sequential"
               ++ [err ("❌  Error [Sequential Chain]: " +:+ message e)])
              (issued w ++ parallel_requests) (unhandled w) (uncaught w)))
  /\ (fst (View.displayWeather v "Promise - Sequential" world0) = Throw e ->
      PromiseController.sequential_chain rt net w
      = (Normal tt,
         mkWorld (console w ++ weather_lines v "Promise - Sequential"
                  ++ [err ("❌  Error [Sequential Chain]: " +:+ message e)])
                 (issued w ++ [(Model.weatherRequest, SettlePromise)])
                 (unhandled w) (uncaught w))).
Proof.
  intros H0.
  set (w1 := mkWorld (console w) (issued w ++ [(Model.weatherRequest, SettlePromise)])
                     (unhandled w) (uncaught w)).
  assert (Hstart : forall k : Value -> Js unit,
    (p ← Model.getWeatherPromise;
     weatherData ← await (promise_state (Model.promise rt net p));
     k weatherData) w = k v w1).
  { intros k. eapply bind_normal; [reflexivity|]. cbv beta.
    eapply bind_normal; [|reflexivity].
    unfold Model.promise. now rewrite httpGetJsonPromise_outcome, H0. }
  unfold PromiseController.sequential_chain, try_catch. rewrite Hstart.
  split.
  - intros Hv He.
    assert (Hw : PromiseController.then_weather v w1
                 = (Normal (S (length (issued w))),
                    mkWorld (console w ++ weather_lines v "Promise - Sequential")
                            (issued w ++ parallel_requests) (unhandled w) (uncaught w))).
    { unfold PromiseController.then_weather. eapply bind_normal.
      - rewrite displayWeather_lines,
          (renderable_weather_normal v "Promise - Sequential" world0 Hv). reflexivity.
      - unfold Model.getNewsPromise, issue, printed, w1.
        cbn [console issued unhandled uncaught].
        now rewrite length_app, Nat.add_1_r, <- app_assoc. }
    rewrite (bind_step _ _ _ _ _ Hw).
    erewrite bind_throw
      by (unfold Model.promise; rewrite httpGetJsonPromise_outcome, He; reflexivity).
    unfold PromiseController.catch_chain, View.displayError, console_error, emit.
    cbn [console issued unhandled uncaught]. now rewrite <- app_assoc.
  - intros Hthrow.
    erewrite bind_throw.
    2:{ unfold PromiseController.then_weather. eapply bind_throw.
        rewrite displayWeather_lines, Hthrow. reflexivity. }
    unfold PromiseController.catch_chain, View.displayError, console_error, emit, printed, w1.
    cbn [console issued unhandled uncaught]. now rewrite <- app_assoc.
Qed.

Lemma promise_chain_later_failure_witness :
  HttpClient.outcome sample_runtime
    (scripted [ok [weather_text]; NetFailed (Error "socket hang up")] (length (issued world0)))
  = Success weather_payload
  /\ renderable_weather weather_payload = true
  /\ HttpClient.outcome sample_runtime
       (scripted [ok [weather_text]; NetFailed (Error "socket hang up")]
                 (S (length (issued world0))))
     = Failure (Error "socket hang up")
  /\ PromiseController.sequential_chain sample_runtime
       (scripted [ok [weather_text]; NetFailed (Error "socket hang up")]) world0
     = (Normal tt,
        mkWorld (console world0 ++ weather_lines weather_payload "Promise - Sequential"
                 ++ [err ("❌  Error [Sequential Chain]: " +:+ message (Error "socket hang up"))])
                (issued world0 ++ parallel_requests) (unhandled world0) (uncaught world0)).
Proof.
  split; [reflexivity|]. split; [reflexivity|]. split; [reflexivity|].
  exact (proj1 (promise_chain_later_failure sample_runtime
                  (scripted [ok [weather_text]; NetFailed (Error "socket hang up")])
                  weather_payload (Error "socket hang up") world0 eq_refl)
               eq_refl eq_refl).
Defined.

(** ** Events after the exchange is over *)

Lemma httpGetJsonPromise_settled rt (evs : list NetEvent) (st : Listening) (o : Outcome) :
  snd (fold_left (HttpClient.httpGetJsonPromise_step rt) evs (st, Some o)) = Some o.
Proof.
  revert st. induction evs as [|ev evs IH]; intros st; [reflexivity|].
  cbn [fold_left].
  assert (H : exists st', HttpClient.httpGetJsonPromise_step rt (st, Some o) ev = (st', Some o)).
  { destruct ev, st; simpl; try (now eexists).
    - destruct (error_status statusCode); now eexists.
    - destruct (JSON_parse rt rawData); now eexists. }
  destruct H as [st' ->]. apply IH.
Qed.

Lemma httpsGetJsonPromise_settled rt (evs : list NetEvent) (st : Listening) (o : Outcome) :
  snd (fold_left (Legacy.httpsGetJsonPromise_step rt) evs (st, Some o)) = Some o.
Proof.
  revert st. induction evs as [|ev evs IH]; intros st; [reflexivity|].
  cbn [fold_left].
  assert (H : exists st', Legacy.httpsGetJsonPromise_step rt (st, Some o) ev = (st', Some o)).
  { destruct ev, st; simpl; try (now eexists).
    - destruct (error_status statusCode); now eexists.
    - destruct (JSON_parse rt rawData); now eexists. }
  destruct H as [st' ->]. apply IH.
Qed.

(** X19: the settlement of a fetch promise is final, the call of a
    fetch callback is not.  Whatever events follow a complete exchange,
    the promise of [httpGetJsonPromise] and of [httpsGetJsonPromise]
    keeps the outcome it settled with.  The ['error'] listener of
    [httpGetJson] stays on the request: an error event that follows a
    complete exchange calls the callback once more, with that error. *)
Theorem settlement_is_final (rt : Runtime) (r : NetResult) :
  (forall evs,
     snd (fold_left (HttpClient.httpGetJsonPromise_step rt) (events_of r ++ evs)
                    (AwaitingResponse, None))
     = HttpClient.httpGetJsonPromise rt r)
  /\ (forall evs,
        snd (fold_left (Legacy.httpsGetJsonPromise_step rt) (events_of r ++ evs)
                       (AwaitingResponse, None))
        = Legacy.httpsGetJsonPromise rt r)
  /\ (forall cb e w,
        (run_events (HttpClient.httpGetJson_step rt cb) (events_of r ++ [EvError e])
                    AwaitingResponse;; mret tt) w
        = (HttpClient.httpGetJson rt r cb;; cb (Failure e)) w).
Proof.
  split; [|split].
  - intros evs. rewrite fold_left_app.
    pose proof (httpGetJsonPromise_outcome rt r) as H.
    unfold HttpClient.httpGetJsonPromise in *.
    destruct (fold_left _ (events_of r) _) as [st p]. simpl in H. subst p.
    apply httpGetJsonPromise_settled.
  - intros evs. rewrite fold_left_app.
    pose proof (httpsGetJsonPromise_outcome rt r) as H.
    unfold Legacy.httpsGetJsonPromise in *.
    destruct (fold_left _ (events_of r) _) as [st p]. simpl in H. subst p.
    apply httpsGetJsonPromise_settled.
  - intros cb e w. unfold HttpClient.httpGetJson.
    unfold mbind at 1. unfold Js_bind. unfold js_bind at 1.
    rewrite run_events_app.
    unfold mbind, Js_bind, js_bind.
    destruct (run_events (HttpClient.httpGetJson_step rt cb) (events_of r) AwaitingResponse w)
      as [[st'|e'|] w']; try reflexivity.
    simpl. unfold mbind, Js_bind, js_bind.
    destruct (cb (Failure e) w') as [[[]|e1|] w2]; reflexivity.
Qed.

(** ** The chain of promiseVersion.ts *)

Lemma legacy_then_news (newsData : Value) (items : list Value) (titles : list string)
      (w : World) :
  nullish newsData = false ->
  get_prop newsData "posts" = VArr items ->
  Forall2 titled titles items ->
  PromiseVersionChain.then_news newsData w
  = (Normal "done sequential",
     printed (out "News (promise) top headlines:"
              :: numbered EmptyString 0 (take 5 titles)) w).
Proof.
  intros Hn Hp H.
  assert (H5 : Forall2 titled (take 5 titles) (take 5 items)) by now apply Forall2_take.
  unfold PromiseVersionChain.then_news, PromiseVersionChain.print_headlines, opt_get.
  rewrite Hn, Hp.
  change (coalesce (VArr items) (VArr [])) with (VArr items). cbv zeta.
  apply (bind_normal _ _ w (printed [out "News (promise) top headlines:"] w) tt);
    [reflexivity|].
  eapply bind_normal.
  - unfold CallbackVersion.slice5_forEach.
    exact (forEach_from_numbered EmptyString _ (headline_line EmptyString) _ _ 0 _ H5).
  - rewrite printed_app. reflexivity.
Qed.

(** X20: the [.then()] chain of promiseVersion.ts on two successful
    fetches.  It prints the temperature it finds (read with optional
    chaining, so any weather payload will do), the banner, at most five
    numbered headlines and its closing line with the value the second
    handler returned; it issues its two requests in order and completes
    normally. *)
Theorem legacy_chain_success (rt : Runtime) (net : nat -> NetResult)
        (weatherData newsData : Value) (items : list Value) (titles : list string)
        (w : World) :
  Legacy.outcome rt (net (length (issued w))) = Success weatherData ->
  Legacy.outcome rt (net (S (length (issued w)))) = Success newsData ->
  nullish newsData = false ->
  get_prop newsData "posts" = VArr items ->
  Forall2 titled titles items ->
  PromiseVersionChain.sequential_chain rt net w
  = (Normal tt,
     mkWorld (console w
              ++ [mkLine Stdout [VStr "Weather (promise) temperature:";
                                 CallbackVersion.temperature_of weatherData];
                  out "News (promise) top headlines:"]
              ++ numbered EmptyString 0 (take 5 titles)
              ++ [mkLine Stdout [VStr "Sequential chain complete:"; VStr "done sequential"]])
             (issued w ++ legacy_parallel_requests) (unhandled w) (uncaught w)).
Proof.
  intros H0 H1 Hn Hp Ht.
  unfold PromiseVersionChain.sequential_chain, try_catch.
  erewrite bind_step by reflexivity.
  erewrite bind_step
    by (unfold PromiseVersion.promise; rewrite httpsGetJsonPromise_outcome, H0; reflexivity).
  erewrite bind_step by reflexivity.
  erewrite bind_step.
  2:{ unfold PromiseVersion.promise. rewrite httpsGetJsonPromise_outcome.
      cbn [console issued unhandled uncaught]. rewrite length_app, Nat.add_1_r, H1.
      reflexivity. }
  rewrite (bind_step _ _ _ _ _ (legacy_then_news newsData items titles _ Hn Hp Ht)).
  unfold PromiseVersionChain.then_complete, console_log_args, emit, printed.
  cbn [console issued unhandled uncaught].
  now rewrite <- !app_assoc.
Qed.

Lemma legacy_chain_success_witness :
  Legacy.outcome
    (table_runtime [("W", weather_payload);
                    ("N", VObj [("posts", VArr [VObj [("title", VStr "a")]])])])
    (scripted [ok ["W"]; ok ["N"]] (length (issued world0)))
  = Success weather_payload
  /\ Forall2 titled ["a"] [VObj [("title", VStr "a")]]
  /\ lines (snd (PromiseVersionChain.sequential_chain
                   (table_runtime [("W", weather_payload);
                                   ("N", VObj [("posts", VArr [VObj [("title", VStr "a")]])])])
                   (scripted [ok ["W"]; ok ["N"]]) world0))
     = [mkLine Stdout [VStr "Weather (promise) temperature:"; VNum "22"];
        out "News (promise) top headlines:";
        out "1. a";
        mkLine Stdout [VStr "Sequential chain complete:"; VStr "done sequential"]].
Proof.
  assert (Ht : Forall2 titled ["a"] [VObj [("title", VStr "a")]]) by (repeat constructor).
  split; [reflexivity|]. split; [exact Ht|].
  rewrite (legacy_chain_success
             (table_runtime [("W", weather_payload);
                             ("N", VObj [("posts", VArr [VObj [("title", VStr "a")]])])])
             (scripted [ok ["W"]; ok ["N"]])
             weather_payload (VObj [("posts", VArr [VObj [("title", VStr "a")]])])
             [VObj [("title", VStr "a")]] ["a"] world0
             eq_refl eq_refl eq_refl eq_refl Ht).
  reflexivity.
Defined.

(** ** The runs in which everything succeeds *)

(** X21: the complete run of callbackController.ts on three successful
    fetches whose payloads render: on the console the header, the lines
    of the first weather payload, of the articles and of the second
    weather payload under their labels, then the footer; the three
    requests issued in the order of the stages; no exception and no
    rejection. *)
Theorem callbackController_success (rt : Runtime) (net : nat -> NetResult)
        (v n v2 : Value) (items : list Value) :
  HttpClient.outcome rt (net 0) = Success v ->
  HttpClient.outcome rt (net 1) = Success n ->
  HttpClient.outcome rt (net 2) = Success v2 ->
  renderable_weather v = true ->
  coalesce (opt_get n "articles") (VArr []) = VArr items ->
  forallb renderable_article items = true ->
  renderable_weather v2 = true ->
  CallbackController.run rt net
  = mkWorld (header_lines "Callback" ++ weather_lines v "Callback"
             ++ news_lines rt (VArr items) "Callback"
             ++ weather_lines v2 "Callback - Second Fetch"
             ++ footer_lines "Callback")
            controller_requests [] None.
Proof.
  intros H0 H1 H2 Hv Ha Hi Hv2.
  unfold CallbackController.run.
  rewrite (event_loop_at _ _ _ _ _ _ Model.weatherRequest OnWeather) by reflexivity.
  rewrite (run_task_normal _ _
             (mkWorld (header_lines "Callback" ++ weather_lines v "Callback")
                      (take 2 controller_requests) [] None)).
  2: reflexivity.
  2:{ rewrite (httpGetJson_success rt _ _ v _ H0). unfold try_catch.
      change (CallbackController.dispatch rt OnWeather (Success v))
        with (CallbackController.on_weather (Success v)).
      now rewrite (on_weather_renders v _ Hv). }
  rewrite (event_loop_at _ _ _ _ _ _ Model.newsRequest OnNews) by reflexivity.
  rewrite (run_task_normal _ _
             (mkWorld (header_lines "Callback" ++ weather_lines v "Callback"
                       ++ news_lines rt (VArr items) "Callback")
                      controller_requests [] None)).
  2: reflexivity.
  2:{ rewrite (httpGetJson_success rt _ _ n _ H1). unfold try_catch.
      change (CallbackController.dispatch rt OnNews (Success n))
        with (CallbackController.on_news rt (Success n)).
      rewrite (on_news_renders rt n items _ Ha Hi).
      cbn [console issued unhandled uncaught]. now rewrite <- app_assoc. }
  rewrite (event_loop_at _ _ _ _ _ _ Model.weatherRequest OnSecondWeather) by reflexivity.
  rewrite (run_task_normal _ _
             (mkWorld (header_lines "Callback" ++ weather_lines v "Callback"
                       ++ news_lines rt (VArr items) "Callback"
                       ++ weather_lines v2 "Callback - Second Fetch"
                       ++ footer_lines "Callback")
                      controller_requests [] None)).
  - now apply event_loop_stop.
  - reflexivity.
  - rewrite (httpGetJson_success rt _ _ v2 _ H2). unfold try_catch.
    change (CallbackController.dispatch rt OnSecondWeather (Success v2))
      with (CallbackController.on_second_weather (Success v2)).
    unfold CallbackController.on_second_weather, CallbackController.VERSION.
    erewrite bind_step
      by (rewrite displayWeather_lines,
            (renderable_weather_normal v2 "Callback - Second Fetch" world0 Hv2); reflexivity).
    rewrite printed_footer. unfold printed. cbn [console issued unhandled uncaught].
    now rewrite <- !app_assoc.
Qed.

Lemma callbackController_success_witness :
  HttpClient.outcome sample_runtime
    (scripted [ok [weather_text]; ok [news_text]; ok [weather_text]] 0) = Success weather_payload
  /\ coalesce (opt_get news_payload "articles") (VArr [])
     = VArr [VObj [("title", VStr "X")]; VObj [("title", VStr "Y")]]
  /\ CallbackController.run sample_runtime
       (scripted [ok [weather_text]; ok [news_text]; ok [weather_text]])
     = mkWorld (header_lines "Callback" ++ weather_lines weather_payload "Callback"
                ++ news_lines sample_runtime
                     (VArr [VObj [("title", VStr "X")]; VObj [("title", VStr "Y")]]) "Callback"
                ++ weather_lines weather_payload "Callback - Second Fetch"
                ++ footer_lines "Callback")
               controller_requests [] None.
Proof.
  split; [reflexivity|]. split; [reflexivity|].
  exact (callbackController_success sample_runtime
           (scripted [ok [weather_text]; ok [news_text]; ok [weather_text]])
           weather_payload news_payload weather_payload
           [VObj [("title", VStr "X")]; VObj [("title", VStr "Y")]]
           eq_refl eq_refl eq_refl eq_refl eq_refl eq_refl eq_refl).
Defined.

(** X22: the complete run of [run] in asyncController.ts when the three
    fetches succeed with payloads that render, in either order of
    settlement of the parallel pair: the header, the weather lines and
    the article lines of the parallel fetch (weather first, whichever
    settled first), the lines of the additional fetch and the footer;
    the additional request is issued after the parallel pair. *)
Theorem async_run_success (rt : Runtime) (net : nat -> NetResult) (schedule : list nat)
        (v n v2 : Value) (items : list Value) :
  schedule ≡ₚ [0; 1] ->
  HttpClient.outcome rt (net 0) = Success v ->
  HttpClient.outcome rt (net 1) = Success n ->
  HttpClient.outcome rt (net 2) = Success v2 ->
  renderable_weather v = true ->
  coalesce (opt_get n "articles") (VArr []) = VArr items ->
  forallb renderable_article items = true ->
  renderable_weather v2 = true ->
  AsyncController.run rt net schedule
  = mkWorld (header_lines "Async/Await" ++ weather_lines v "Async/Await"
             ++ news_lines rt (VArr items) "Async/Await"
             ++ weather_lines v2 "Async/Await - Additional Fetch"
             ++ footer_lines "Async/Await")
            (parallel_requests ++ [(Model.weatherRequest, SettlePromise)]) [] None.
Proof.
  intros Hs H0 H1 H2 Hv Ha Hi Hv2.
  assert (Hrun : AsyncController.run_body rt net schedule world0
                 = (Normal tt,
                    mkWorld (header_lines "Async/Await" ++ weather_lines v "Async/Await"
                             ++ news_lines rt (VArr items) "Async/Await"
                             ++ weather_lines v2 "Async/Await - Additional Fetch"
                             ++ footer_lines "Async/Await")
                            (parallel_requests ++ [(Model.weatherRequest, SettlePromise)])
                            [] None)).
  { unfold AsyncController.run_body, AsyncController.VERSION.
    eapply bind_normal; [apply printed_header|]. cbv beta.
    unfold try_finally, try_catch, AsyncController.fetch_and_display.
    erewrite bind_step.
    2:{ unfold AsyncController.parallel_stage, Model.getWeatherPromise, Model.getNewsPromise.
        rewrite issue_pair_then. unfold Model.promise.
        rewrite !httpGetJsonPromise_outcome, (promise_all_pair _ _ _ Hs).
        change (length (issued (printed (header_lines "Async/Await") world0))) with 0.
        rewrite H0, H1.
        change (await (Some (combined (Success v) (Success n) (hd 0 schedule))))
          with (mret [v; n] : Js (list Value)).
        eapply bind_normal; [reflexivity|]. cbv beta.
        unfold AsyncController.display_results. cbv zeta.
        change (PromiseController.element 0 [v; n]) with v.
        change (PromiseController.element 1 [v; n]) with n.
        rewrite Ha.
        erewrite bind_step
          by (rewrite displayWeather_lines,
                (renderable_weather_normal v "Async/Await" world0 Hv); reflexivity).
        rewrite displayNews_lines, (renderable_articles_normal rt items "Async/Await" world0 Hi).
        reflexivity. }
    unfold AsyncController.additional_fetch, try_catch, Model.getWeatherPromise.
    erewrite bind_step by reflexivity.
    erewrite bind_step
      by (unfold Model.promise; rewrite httpGetJsonPromise_outcome;
          match goal with |- context [net ?i] => change i with 2 end;
          rewrite H2; reflexivity).
    rewrite displayWeather_lines,
      (renderable_weather_normal v2 "Async/Await - Additional Fetch" world0 Hv2).
    rewrite printed_footer. unfold printed. cbn [console issued unhandled uncaught app].
    now rewrite <- !app_assoc. }
  unfold AsyncController.run, run_reaction. now rewrite Hrun.
Qed.

Lemma async_run_success_witness :
  [1; 0] ≡ₚ [0; 1]
  /\ HttpClient.outcome sample_runtime
       (scripted [ok [weather_text]; ok [news_text]; ok [weather_text]] 1) = Success news_payload
  /\ lines (AsyncController.run sample_runtime
              (scripted [ok [weather_text]; ok [news_text]; ok [weather_text]]) [1; 0])
     = header_lines "Async/Await" ++ weather_lines weather_payload "Async/Await"
       ++ news_lines sample_runtime
            (VArr [VObj [("title", VStr "X")]; VObj [("title", VStr "Y")]]) "Async/Await"
       ++ weather_lines weather_payload "Async/Await - Additional Fetch"
       ++ footer_lines "Async/Await".
Proof.
  assert (Hs : [1; 0] ≡ₚ [0; 1]) by apply perm_swap.
  split; [exact Hs|]. split; [reflexivity|].
  rewrite (async_run_success sample_runtime
             (scripted [ok [weather_text]; ok [news_text]; ok [weather_text]]) [1; 0]
             weather_payload news_payload weather_payload
             [VObj [("title", VStr "X")]; VObj [("title", VStr "Y")]]
             Hs eq_refl eq_refl eq_refl eq_refl eq_refl eq_refl eq_refl).
  reflexivity.
Defined.
